(** * superhelperhxpro: the sidecar metadata store and the operations on it

    A shallow embedding of [src/superhelperhxpro/main.py]: the per-directory
    sidecar store ([_load_metadata], [_save_metadata]), the tag editor
    ([tag_file]), the metadata search ([search_meta], [_is_file_older_than])
    and the content deduplicator ([get_file_hash], [deduplicate]); further
    on the cleanup ([auto_cleanup], [_get_file_size]), the conditional move
    and copy ([conditional_move_copy]) and the folder moods
    ([folder_mood_set], [folder_mood_get]).

    Python values are the JSON values the program reads and writes; a Python
    function that prints, touches the file system or raises becomes a
    computation in the monad [Py] over an explicit [World]. *)

From Stdlib Require Import ZArith Ascii String List Bool Lia.
From stdpp Require Import base tactics option list gmap sets strings sorting pretty.

Local Open Scope string_scope.
Local Open Scope Z_scope.
Set Warnings "-clear-no-such-hyp".

(** ** Python strings

    A [str] is a [string]; a character is a code point below 256. *)

Module PyStr.

(** [str.isspace] on code points below 256. *)
Definition isspace (c : ascii) : bool :=
  let n := nat_of_ascii c in
  ((9 <=? n) && (n <=? 13) || (28 <=? n) && (n <=? 32)
   || (n =? 133) || (n =? 160))%nat.

Fixpoint lstrip_chars (l : list ascii) : list ascii :=
  match l with
  | c :: r => if isspace c then lstrip_chars r else l
  | [] => []
  end.

(** [s.strip()] *)
Definition strip (s : string) : string :=
  string_of_list_ascii
    (rev (lstrip_chars (rev (lstrip_chars (list_ascii_of_string s))))).

(** [s.split(sep)] for a one-character separator. *)
Fixpoint split (sep : ascii) (s : string) : list string :=
  match s with
  | EmptyString => [EmptyString]
  | String c r =>
      if Ascii.eqb c sep then EmptyString :: split sep r
      else match split sep r with
           | h :: t => String c h :: t
           | [] => [String c EmptyString]
           end
  end.

(** [str.lower] on code points below 256: A-Z and the Latin-1 capitals. *)
Definition lower_char (c : ascii) : ascii :=
  let n := nat_of_ascii c in
  if ((65 <=? n) && (n <=? 90)
      || (192 <=? n) && (n <=? 222) && negb (n =? 215))%nat
  then ascii_of_nat (n + 32) else c.

Fixpoint lower (s : string) : string :=
  match s with
  | EmptyString => EmptyString
  | String c r => String (lower_char c) (lower r)
  end.

(** [sub in s] for strings. *)
Fixpoint contains (sub s : string) : bool :=
  String.prefix sub s ||
  match s with
  | EmptyString => false
  | String _ r => contains sub r
  end.

(** [s.lstrip('.')] *)
Fixpoint lstrip_dot (s : string) : string :=
  match s with
  | String "."%char r => lstrip_dot r
  | _ => s
  end.

(** The characters of [s] from its last dot on, when there is one. *)
Fixpoint from_last_dot (s : string) : option string :=
  match s with
  | EmptyString => None
  | String c r =>
      match from_last_dot r with
      | Some e => Some e
      | None => if Ascii.eqb c "."%char then Some s else None
      end
  end.

Fixpoint all_dots (s : string) : bool :=
  match s with
  | EmptyString => true
  | String c r => Ascii.eqb c "."%char && all_dots r
  end.

(** [os.path.splitext(name)[1]] for a name without separator: the part from
    the last dot on, unless only dots come before that dot. *)
Definition splitext_ext (name : string) : string :=
  match from_last_dot name with
  | Some e =>
      let stem := String.substring 0 (String.length name - String.length e) name in
      if all_dots stem then EmptyString else e
  | None => EmptyString
  end.

Definition is_digit (c : ascii) : bool :=
  let n := nat_of_ascii c in ((48 <=? n) && (n <=? 57))%nat.

(** Digits with single underscores between them, as [int] accepts them;
    [acc] is the value read so far and [prev] tells whether the previous
    character was a digit. *)
Fixpoint digits_value (acc : Z) (prev : bool) (l : list ascii) : option Z :=
  match l with
  | [] => if prev then Some acc else None
  | c :: r =>
      if is_digit c then
        digits_value (10 * acc + Z.of_nat (nat_of_ascii c - 48)) true r
      else if Ascii.eqb c "_"%char then
        if prev then digits_value acc false r else None
      else None
  end.

(** [int(s)] in base ten: [None] stands for [ValueError]. *)
Definition int_of_str (s : string) : option Z :=
  match list_ascii_of_string (strip s) with
  | "-"%char :: r => Z.opp <$> digits_value 0 false r
  | "+"%char :: r => digits_value 0 false r
  | l => digits_value 0 false l
  end.

End PyStr.

(** ** JSON values, as [json.loads] builds them

    A [dict] keeps its insertion order: an association list, read at the
    first occurrence of a key.  Numbers are the integers. *)

#[warnings="-register-all"]
Inductive json : Type :=
  | JNull
  | JBool (b : bool)
  | JInt (z : Z)
  | JStr (s : string)
  | JList (l : list json)
  | JDict (d : list (string * json)).

Definition pydict := list (string * json).

Fixpoint dict_get (k : string) (d : pydict) : option json :=
  match d with
  | [] => None
  | (k', v) :: r => if String.eqb k k' then Some v else dict_get k r
  end.

(** [d[k] = v]: in place when the key is there, at the end otherwise. *)
Fixpoint dict_set (k : string) (v : json) (d : pydict) : pydict :=
  match d with
  | [] => [(k, v)]
  | (k', v') :: r =>
      if String.eqb k k' then (k', v) :: r else (k', v') :: dict_set k v r
  end.

(** ** Exceptions and results *)

Inductive exn : Type :=
  | TypeError | AttributeError | KeyError | OverflowError | RecursionError
  | ValueError | JSONDecodeError | UnicodeDecodeError
  | OSError | PermissionError | FileNotFoundError.

(** [except IOError] (an alias of [OSError]) and its subclasses. *)
Definition is_OSError (e : exn) : bool :=
  match e with
  | OSError | PermissionError | FileNotFoundError => true
  | _ => false
  end.

(** [except ValueError] and its subclasses. *)
Definition is_ValueError (e : exn) : bool :=
  match e with
  | ValueError | JSONDecodeError | UnicodeDecodeError => true
  | _ => false
  end.

Inductive result (A : Type) : Type :=
  | Ok (a : A)
  | Raise (e : exn).
Arguments Ok {A} a.
Arguments Raise {A} e.

#[export] Instance result_ret : MRet result := fun A a => Ok a.
#[export] Instance result_bind : MBind result := fun A B f r =>
  match r with
  | Ok a => f a
  | Raise e => Raise e
  end.

(** ** Python operators on JSON values *)

Module PyOp.

Definition int_of_bool (b : bool) : Z := if b then 1 else 0.

(** [a == b], with [True == 1] and dictionaries compared up to order. *)
Fixpoint eq (a b : json) {struct a} : bool :=
  match a, b with
  | JNull, JNull => true
  | JBool x, JBool y => Bool.eqb x y
  | JBool x, JInt y | JInt y, JBool x => int_of_bool x =? y
  | JInt x, JInt y => x =? y
  | JStr x, JStr y => String.eqb x y
  | JList x, JList y =>
      (fix go (x y : list json) {struct x} : bool :=
         match x, y with
         | [], [] => true
         | u :: x', v :: y' => eq u v && go x' y'
         | _, _ => false
         end) x y
  | JDict x, JDict y =>
      (length x =? length y)%nat &&
      (fix go (x : pydict) {struct x} : bool :=
         match x with
         | [] => true
         | (k, u) :: x' =>
             match dict_get k y with
             | Some v => eq u v
             | None => false
             end && go x'
         end) x
  | _, _ => false
  end.

Definition hashable (v : json) : bool :=
  match v with
  | JList _ | JDict _ => false
  | _ => true
  end.

(** [x in c] *)
Definition contains (x c : json) : result bool :=
  match c with
  | JDict d =>
      match x with
      | JStr k => Ok (bool_decide (is_Some (dict_get k d)))
      | JList _ | JDict _ => Raise TypeError
      | _ => Ok false
      end
  | JList l => Ok (existsb (eq x) l)
  | JStr s =>
      match x with
      | JStr sub => Ok (PyStr.contains sub s)
      | _ => Raise TypeError
      end
  | _ => Raise TypeError
  end.

(** [c[k]] for a string key *)
Definition getitem (c : json) (k : string) : result json :=
  match c with
  | JDict d =>
      match dict_get k d with
      | Some v => Ok v
      | None => Raise KeyError
      end
  | _ => Raise TypeError
  end.

(** [c[k] = v] for a string key *)
Definition setitem (c : json) (k : string) (v : json) : result json :=
  match c with
  | JDict d => Ok (JDict (dict_set k v d))
  | _ => Raise TypeError
  end.

(** [c.get(k, dflt)] *)
Definition get (c : json) (k : string) (dflt : json) : result json :=
  match c with
  | JDict d => Ok (default dflt (dict_get k d))
  | _ => Raise AttributeError
  end.

(** [v.lower()] *)
Definition lower (v : json) : result string :=
  match v with
  | JStr s => Ok (PyStr.lower s)
  | _ => Raise AttributeError
  end.

(** [int(v)] *)
Definition int (v : json) : result Z :=
  match v with
  | JInt z => Ok z
  | JBool b => Ok (int_of_bool b)
  | JStr s =>
      match PyStr.int_of_str s with
      | Some z => Ok z
      | None => Raise ValueError
      end
  | _ => Raise TypeError
  end.

(** [n > v] and [n < v] for an integer [n] *)
Definition int_gt (n : Z) (v : json) : result bool :=
  match v with
  | JInt z => Ok (z <? n)
  | JBool b => Ok (int_of_bool b <? n)
  | _ => Raise TypeError
  end.

Definition int_lt (n : Z) (v : json) : result bool :=
  match v with
  | JInt z => Ok (n <? z)
  | JBool b => Ok (n <? int_of_bool b)
  | _ => Raise TypeError
  end.

Fixpoint all_str (l : list json) : option (list string) :=
  match l with
  | [] => Some []
  | JStr s :: r => cons s <$> all_str r
  | _ :: _ => None
  end.

Definition chars (s : string) : list string :=
  (fun c => String c EmptyString) <$> list_ascii_of_string s.

(** The items that [', '.join(v)] concatenates. *)
Definition join_items (v : json) : result (list string) :=
  match v with
  | JList l =>
      match all_str l with
      | Some ss => Ok ss
      | None => Raise TypeError
      end
  | JStr s => Ok (chars s)
  | JDict d => Ok (fst <$> d)
  | _ => Raise TypeError
  end.

End PyOp.

(** ** Python sets of JSON scalars

    The strings of the set, and its other members ([None], booleans and
    integers) without two that are [==]. *)

Module PySet.

Definition t : Type := gset string * list json.

Definition add (x : json) (s : t) : result t :=
  match x with
  | JStr k => Ok ({[k]} ∪ s.1, s.2)
  | JList _ | JDict _ => Raise TypeError
  | _ => Ok (s.1, if existsb (PyOp.eq x) s.2 then s.2 else (s.2 ++ [x])%list)
  end.

Fixpoint add_all (l : list json) (s : t) : result t :=
  match l with
  | [] => Ok s
  | x :: r => s' ← add x s; add_all r s'
  end.

(** [set(v)] *)
Definition of_json (v : json) : result t :=
  match v with
  | JList l => add_all l (∅, [])
  | JStr s => Ok (list_to_set (PyOp.chars s), [])
  | JDict d => Ok (list_to_set (fst <$> d), [])
  | _ => Raise TypeError
  end.

(** [s.union(tags)] and [s.difference(tags)] for a set of strings [tags] *)
Definition union (s : t) (tags : gset string) : t := (s.1 ∪ tags, s.2).
Definition difference (s : t) (tags : gset string) : t := (s.1 ∖ tags, s.2).

(** [a != b] for two sets with the same members that are not strings *)
Definition neqb (a b : t) : bool := bool_decide (a.1 ≠ b.1).

Definition str_le (a b : string) : Prop := String.leb a b = true.
#[global] Instance str_le_dec a b : Decision (str_le a b).
Proof. unfold str_le. apply _. Defined.

Definition number_value (v : json) : option Z :=
  match v with
  | JInt z => Some z
  | JBool b => Some (PyOp.int_of_bool b)
  | _ => None
  end.

Definition num_le (a b : json) : Prop :=
  (default 0 (number_value a) <= default 0 (number_value b))%Z.
#[global] Instance num_le_dec a b : Decision (num_le a b).
Proof. unfold num_le. apply _. Defined.

(** [sorted(list(s))]: strings are ordered among themselves and numbers among
    themselves; any other pair raises. *)
Definition sorted (s : t) : result (list json) :=
  match s.2 with
  | [] => Ok (JStr <$> merge_sort str_le (elements s.1))
  | [x] => if bool_decide (s.1 = ∅) then Ok [x] else Raise TypeError
  | others =>
      if bool_decide (s.1 = ∅) && forallb (fun v => bool_decide (is_Some (number_value v))) others
      then Ok (merge_sort num_le others)
      else Raise TypeError
  end.

(** The items that [', '.join(s)] concatenates. *)
Definition join_items (s : t) : result (gset string) :=
  match s.2 with
  | [] => Ok s.1
  | _ => Raise TypeError
  end.

End PySet.

(** ** The world: file system, clock, console

    A file path is the pair that [os.path.join(folder, name)] combines and
    that [os.path.dirname] and [os.path.basename] split again; a folder is
    named by its path.  Times are naive local [datetime]s, in microseconds. *)

Abbreviation path := (string * string)%type.

Definition os_path_join (folder name : string) : path := (folder, name).
Definition os_path_dirname (p : path) : string := p.1.
Definition os_path_basename (p : path) : string := p.2.

(** The path as one string, for a path that names a folder. *)
Definition path_str (p : path) : string :=
  if bool_decide (p.1 = "") then p.2 else p.1 ++ "/" ++ p.2.

Definition METADATA_FILE : string := ".superhxpro_metadata.json".

Record fnode : Type := {
  regular : bool;     (* [os.path.isfile] *)
  content : string;
  readable : bool;    (* opening it for reading is permitted *)
  decodable : bool;   (* its bytes are valid UTF-8 *)
  mtime : Z;          (* [datetime.fromtimestamp(stat.st_mtime)] *)
  removable : bool    (* [os.remove] is permitted *)
}.

(** What the environment does to one call of [_save_metadata]. *)
Inductive save_fault : Type :=
  | NoFault
  | MakedirsRaises (e : exn)
  | OpenRaises (e : exn)
  | DumpRaises (e : exn) (flushed : nat).

(** The calls of the sidecar store, recorded to count them. *)
Inductive call : Type :=
  | CLoad (folder : string)
  | CSave (folder : string).

(** One constructor per [print] of the embedded functions. *)
Inductive line : Type :=
  | InfoMetadataEmpty (p : path)
  | WarningCorruptedMetadata (p : path)
  | ErrorReadingMetadata (p : path) (e : exn)
  | UnexpectedLoadError (p : path) (e : exn)
  | ErrorSavePermission (p : path)
  | ErrorSavingMetadata (p : path) (e : exn)
  | UnexpectedSaveError (p : path) (e : exn)
  | ErrorHashing (p : path) (e : exn)
  | ErrorAccessingFile (p : path) (e : exn)
  | ErrorFolderNotFound (folder : string)
  | SearchingDuplicates (folder : string) (dry_run : bool)
  | DuplicateFound (p original : path)
  | DeletedDuplicate (p : path)
  | ErrorDeletingDuplicate (p : path) (e : exn)
  | FinishedDeduplicate (found deleted : nat) (dry_run : bool)
  | ErrorPathNotFound (p : path)
  | ErrorNeitherFileNorDirectory (p : path)
  | UpdatedTags (p : path) (tags : list string)
  | NoTagChanges (p : path) (tags : gset string)
  | FinishedTagging (processed : nat)
  | SearchingTag (folder tag : string)
  | FoundTagged (p : path) (tags : list string)
  | FinishedSearchTag (found : nat) (tag : string)
  | ErrorInvalidQuery
  | SearchingMeta (folder query : string)
  | FoundMeta (p : path) (size : nat) (modified : Z) (type : string)
      (tags : list string)
  | ErrorProcessingQuery (p : path)
  | FinishedSearchMeta (found : nat).

Record World : Type := {
  files : gmap path fnode;
  tree : gmap string (list string * list string);  (* folder: subfolders, files *)
  clock : Z;                                        (* [datetime.now()] *)
  stdout : list line;
  calls : list call;
  faults : list save_fault
}.

Definition set_files (f : gmap path fnode → gmap path fnode) (w : World) : World :=
  {| files := f (files w); tree := tree w; clock := clock w;
     stdout := stdout w; calls := calls w; faults := faults w |}.
Definition set_tree (f : gmap string (list string * list string) →
                         gmap string (list string * list string))
    (w : World) : World :=
  {| files := files w; tree := f (tree w); clock := clock w;
     stdout := stdout w; calls := calls w; faults := faults w |}.
Definition set_stdout (f : list line → list line) (w : World) : World :=
  {| files := files w; tree := tree w; clock := clock w;
     stdout := f (stdout w); calls := calls w; faults := faults w |}.
Definition set_calls (f : list call → list call) (w : World) : World :=
  {| files := files w; tree := tree w; clock := clock w;
     stdout := stdout w; calls := f (calls w); faults := faults w |}.
Definition set_faults (f : list save_fault → list save_fault) (w : World) : World :=
  {| files := files w; tree := tree w; clock := clock w;
     stdout := stdout w; calls := calls w; faults := f (faults w) |}.

(** ** The monad of Python computations: state and exceptions *)

Definition Py (A : Type) : Type := World → result A * World.

#[export] Instance Py_ret : MRet Py := fun A a w => (Ok a, w).
#[export] Instance Py_bind : MBind Py := fun A B f m w =>
  match m w with
  | (Ok a, w') => f a w'
  | (Raise e, w') => (Raise e, w')
  end.

Definition raise {A} (e : exn) : Py A := fun w => (Raise e, w).
Definition lift {A} (r : result A) : Py A := fun w => (r, w).
Definition ask : Py World := fun w => (Ok w, w).
Definition modify (f : World → World) : Py unit := fun w => (Ok tt, f w).
Definition print (l : line) : Py unit := modify (set_stdout (fun o => (o ++ [l])%list)).
Definition record (c : call) : Py unit := modify (set_calls (fun o => (o ++ [c])%list)).

(** [try: body except ...: handler]: [handler e] is [None] when no clause
    matches [e], which then propagates. *)
Definition try_except {A} (body : Py A) (handler : exn → option (Py A)) : Py A :=
  fun w =>
    match body w with
    | (Ok a, w') => (Ok a, w')
    | (Raise e, w') =>
        match handler e with
        | Some h => h w'
        | None => (Raise e, w')
        end
    end.

(** ** File system primitives *)

Definition os_path_exists (p : path) : Py bool :=
  w ← ask; mret (bool_decide (is_Some (files w !! p))).

Definition os_path_isfile (p : path) : Py bool :=
  w ← ask; mret (from_option regular false (files w !! p)).

Definition os_path_isdir (folder : string) : Py bool :=
  w ← ask; mret (bool_decide (is_Some (tree w !! folder))).

(** [open(p, 'rb')] and reading it to the end. *)
Definition read_bytes (p : path) : Py string :=
  w ← ask;
  match files w !! p with
  | None => raise FileNotFoundError
  | Some nd =>
      if negb (regular nd) then raise OSError
      else if negb (readable nd) then raise PermissionError
      else mret (content nd)
  end.

(** [open(p, 'r', encoding='utf-8')] and [f.read()]. *)
Definition read_text (p : path) : Py string :=
  w ← ask;
  match files w !! p with
  | None => raise FileNotFoundError
  | Some nd =>
      if negb (regular nd) then raise OSError
      else if negb (readable nd) then raise PermissionError
      else if negb (decodable nd) then raise UnicodeDecodeError
      else mret (content nd)
  end.

Definition add_name (name : string) (names : list string) : list string :=
  if bool_decide (name ∈ names) then names else (names ++ [name])%list.

(** The file at [p] holds [text] from now on. *)
Definition put_content (p : path) (text : string) (w : World) : World :=
  let nd :=
    match files w !! p with
    | Some nd => {| regular := regular nd; content := text;
                    readable := readable nd; decodable := decodable nd;
                    mtime := clock w; removable := removable nd |}
    | None => {| regular := true; content := text; readable := true;
                 decodable := true; mtime := clock w; removable := true |}
    end in
  set_tree (alter (fun l => (l.1, add_name p.2 l.2)) p.1)
    (set_files (insert p nd) w).

Definition make_dir (folder : string) (w : World) : World :=
  set_tree (fun t => match t !! folder with
                     | Some _ => t
                     | None => <[folder := ([], [])]> t
                     end) w.

(** [os.makedirs(folder, exist_ok=True)]; the empty path names no folder. *)
Definition os_makedirs (fault : save_fault) (folder : string) : Py unit :=
  if bool_decide (folder = "") then raise FileNotFoundError
  else match fault with
       | MakedirsRaises e => raise e
       | _ => modify (make_dir folder)
       end.

(** [with open(p, 'w') as f: f.write(text)]: opening truncates the file, and
    a failure while writing leaves what was flushed before it. *)
Definition write_text (fault : save_fault) (p : path) (text : string) : Py unit :=
  match fault with
  | OpenRaises e => raise e
  | DumpRaises e flushed =>
      modify (put_content p (String.substring 0 flushed text));; raise e
  | _ => modify (put_content p text)
  end.

(** The fault that the next call of [_save_metadata] meets. *)
Definition current_fault (w : World) : save_fault := hd NoFault (faults w).

Definition next_fault : Py save_fault :=
  w ← ask;
  modify (set_faults (@tl save_fault));;
  mret (current_fault w).

(** [os.remove(p)] *)
Definition os_remove (p : path) : Py unit :=
  w ← ask;
  match files w !! p with
  | None => raise FileNotFoundError
  | Some nd =>
      if removable nd then
        modify (fun w => set_tree (alter (fun l => (l.1, filter (fun n => n ≠ p.2) l.2)) p.1)
                           (set_files (delete p) w))
      else raise PermissionError
  end.

(** [os.walk(top)]: top-down, a folder before its subfolders; [fuel] bounds
    the depth, and more fuel than [t] has folders is never used. *)
Fixpoint os_walk (fuel : nat) (t : gmap string (list string * list string))
    (top : string) : list (string * list string * list string) :=
  match fuel with
  | O => []
  | S n =>
      match t !! top with
      | None => []
      | Some (dirs, names) =>
          (top, dirs, names) ::
          flat_map (fun d => os_walk n t (top ++ "/" ++ d)) dirs
      end
  end.

(** [os.listdir(folder)] *)
Definition os_listdir (folder : string) : Py (list string) :=
  w ← ask;
  match tree w !! folder with
  | Some (dirs, names) => mret (dirs ++ names)%list
  | None => raise FileNotFoundError
  end.

(** [for x in l: body], threading the loop's local variables. *)
Fixpoint for_in {A S : Type} (l : list A) (body : A → S → Py S) (s : S) : Py S :=
  match l with
  | [] => mret s
  | x :: r => s' ← body x s; for_in r body s'
  end.

(** ** The library functions the program calls *)

Class PyLib : Type := {
  json_loads : string → result json;      (* [json.loads] *)
  json_dumps : nat → json → string;       (* [json.dumps(v, indent=n)] *)
  sha256 : string → string                (* [hashlib.sha256(b).hexdigest()] *)
}.

Definition empty_dict : json := JDict [].

Section Program.
Context `{lib : PyLib}.

(** ** Sidecar store *)

Definition _load_metadata (folder_path : string) : Py json :=
  let metadata_path := os_path_join folder_path METADATA_FILE in
  record (CLoad folder_path);;
  present ← os_path_exists metadata_path;
  if (present : bool) then
    try_except
      (text ← read_text metadata_path;
       let content := PyStr.strip text in
       if bool_decide (content ≠ "") then lift (json_loads content)
       else print (InfoMetadataEmpty metadata_path);; mret empty_dict)
      (fun e => Some
         match e with
         | JSONDecodeError =>
             print (WarningCorruptedMetadata metadata_path);; mret empty_dict
         | _ =>
             if is_OSError e
             then print (ErrorReadingMetadata metadata_path e);; mret empty_dict
             else print (UnexpectedLoadError metadata_path e);; mret empty_dict
         end)
  else mret empty_dict.

Definition _save_metadata (folder_path : string) (metadata : json) : Py unit :=
  let metadata_path := os_path_join folder_path METADATA_FILE in
  record (CSave folder_path);;
  fault ← next_fault;
  try_except
    (os_makedirs fault folder_path;;
     write_text fault metadata_path (json_dumps 4 metadata))
    (fun e => Some
       match e with
       | PermissionError => print (ErrorSavePermission metadata_path)
       | _ =>
           if is_OSError e then print (ErrorSavingMetadata metadata_path e)
           else print (UnexpectedSaveError metadata_path e)
       end).

(** ** Hashing and age *)

(** [hash_algo] is the digest of the whole content, read in chunks. *)
Definition get_file_hash (filepath : path) (hash_algo : string → string)
  : Py (option string) :=
  try_except
    (bytes ← read_bytes filepath; mret (Some (hash_algo bytes)))
    (fun e => if is_OSError e
              then Some (print (ErrorHashing filepath e);; mret None)
              else None).

(** [os.stat(p)] *)
Definition os_stat (p : path) : Py fnode :=
  w ← ask;
  match files w !! p with
  | Some nd => mret nd
  | None => raise FileNotFoundError
  end.

Definition microseconds_per_day : Z := 86400000000.

(** [timedelta(days=days)], in microseconds: a [timedelta] holds fewer than
    a thousand million days. *)
Definition timedelta_days (days : Z) : result Z :=
  if (Z.abs days <=? 999999999)%Z then Ok (days * microseconds_per_day)%Z
  else Raise OverflowError.

Definition _is_file_older_than (filepath : path) (days : Z) : Py bool :=
  try_except
    (stat ← os_stat filepath;
     let mod_time := mtime stat in
     w ← ask;
     let age := (clock w - mod_time)%Z in
     limit ← lift (timedelta_days days);
     mret (limit <? age)%Z)
    (fun e => if is_OSError e
              then Some (print (ErrorAccessingFile filepath e);; mret false)
              else None).

(** ** Content deduplicator *)

Record dedup_state : Type := {
  hashes : gmap string path;
  duplicates_found : nat;
  deleted_count : nat
}.

Definition dedup_file (dry_run : bool) (root filename : string)
    (st : dedup_state) : Py dedup_state :=
  let filepath := os_path_join root filename in
  is_file ← os_path_isfile filepath;
  if negb is_file then mret st
  else
    file_hash ← get_file_hash filepath sha256;
    match file_hash with
    | Some h =>
        if bool_decide (h ≠ "") then
          match hashes st !! h with
          | Some original =>
              print (DuplicateFound filepath original);;
              let st := {| hashes := hashes st;
                           duplicates_found := S (duplicates_found st);
                           deleted_count := deleted_count st |} in
              if negb dry_run then
                try_except
                  (os_remove filepath;;
                   print (DeletedDuplicate filepath);;
                   mret {| hashes := hashes st;
                           duplicates_found := duplicates_found st;
                           deleted_count := S (deleted_count st) |})
                  (fun e => if is_OSError e
                            then Some (print (ErrorDeletingDuplicate filepath e);;
                                       mret st)
                            else None)
              else mret st
          | None =>
              mret {| hashes := <[h := filepath]> (hashes st);
                      duplicates_found := duplicates_found st;
                      deleted_count := deleted_count st |}
          end
        else mret st
    | None => mret st
    end.

Definition dedup_walk (dry_run : bool)
    (walk : list (string * list string * list string)) (st : dedup_state)
  : Py dedup_state :=
  for_in walk (fun '(root, _, names) st =>
                 for_in names (dedup_file dry_run root) st) st.

Definition deduplicate (folder : string) (dry_run : bool) : Py unit :=
  is_dir ← os_path_isdir folder;
  if negb is_dir then print (ErrorFolderNotFound folder)
  else
    print (SearchingDuplicates folder dry_run);;
    w ← ask;
    st ← dedup_walk dry_run (os_walk (S (size (tree w))) (tree w) folder)
           {| hashes := ∅; duplicates_found := O; deleted_count := O |};
    print (FinishedDeduplicate (duplicates_found st) (deleted_count st) dry_run).

(** ** Attribute editor *)

(** [{tag.strip() for tag in s.split(',') if tag.strip()}] *)
Definition parse_tags (tags_str : string) : gset string :=
  list_to_set (filter (fun t => t ≠ "") (PyStr.strip <$> PyStr.split "," tags_str)).

Definition target_paths_of (file_path : path) (recursive : bool)
  : Py (option (list path)) :=
  is_file ← os_path_isfile file_path;
  if (is_file : bool) then mret (Some [file_path])
  else
    let folder := path_str file_path in
    is_dir ← os_path_isdir folder;
    if (is_dir : bool) then
      if recursive then
        w ← ask;
        mret (Some (flat_map (fun '(r, _, names) => os_path_join r <$> names)
                      (os_walk (S (size (tree w))) (tree w) folder)))
      else
        names ← os_listdir folder;
        w ← ask;
        mret (Some (filter (fun p => from_option regular false (files w !! p))
                      (os_path_join folder <$> names)))
    else mret None.

(** The body of the loop of [tag_file] from the set algebra on: the tags of
    the file are [current_tags], read from [entry], its entry in [metadata]. *)
Definition update_tags (add_tags remove_tags : gset string) (p : path)
    (metadata entry : json) (current_tags : PySet.t) (processed_count : nat)
  : Py nat :=
  let folder := os_path_dirname p in
  let file_key := os_path_basename p in
  let updated_tags :=
    PySet.difference (PySet.union current_tags add_tags) remove_tags in
  if PySet.neqb updated_tags current_tags then
    tags ← lift (PySet.sorted updated_tags);
    entry ← lift (PyOp.setitem entry "tags" (JList tags));
    metadata ← lift (PyOp.setitem metadata file_key entry);
    _save_metadata folder metadata;;
    shown ← lift (PyOp.join_items (JList tags));
    print (UpdatedTags p shown);;
    mret (S processed_count)
  else
    shown ← lift (PySet.join_items current_tags);
    print (NoTagChanges p shown);;
    mret processed_count.

(** The body of the loop of [tag_file]. *)
Definition tag_path (add_tags remove_tags : gset string) (p : path)
    (processed_count : nat) : Py nat :=
  is_file ← os_path_isfile p;
  if negb is_file || bool_decide (os_path_basename p = METADATA_FILE)
  then mret processed_count
  else
    let folder := os_path_dirname p in
    metadata ← _load_metadata folder;
    let file_key := os_path_basename p in
    known ← lift (PyOp.contains (JStr file_key) metadata);
    metadata ← (if (known : bool) then mret metadata
                else lift (PyOp.setitem metadata file_key
                             (JDict [("tags", JList [])])));
    entry ← lift (PyOp.getitem metadata file_key);
    stored ← lift (PyOp.get entry "tags" (JList []));
    current_tags ← lift (PySet.of_json stored);
    update_tags add_tags remove_tags p metadata entry current_tags
      processed_count.

Definition tag_file (file_path : path) (add_tags_str remove_tags_str : string)
    (recursive : bool) : Py unit :=
  w ← ask;
  if negb (bool_decide (is_Some (files w !! file_path))
           || bool_decide (is_Some (tree w !! path_str file_path)))
  then print (ErrorPathNotFound file_path)
  else
    targets ← target_paths_of file_path recursive;
    match targets with
    | None => print (ErrorNeitherFileNorDirectory file_path)
    | Some target_paths =>
        let add_tags := parse_tags add_tags_str in
        let remove_tags := parse_tags remove_tags_str in
        processed_count ← for_in target_paths (tag_path add_tags remove_tags) O;
        print (FinishedTagging processed_count)
    end.

(** ** Search *)

Definition search_tag_file (tag : string) (root : string) (metadata : json)
    (filename : string) (found_count : nat) : Py nat :=
  if bool_decide (filename = METADATA_FILE) then mret found_count
  else
    let file_key := filename in
    known ← lift (PyOp.contains (JStr file_key) metadata);
    if (known : bool) then
      entry ← lift (PyOp.getitem metadata file_key);
      tagged ← lift (PyOp.contains (JStr "tags") entry);
      if (tagged : bool) then
        tags ← lift (PyOp.getitem entry "tags");
        has ← lift (PyOp.contains (JStr tag) tags);
        if (has : bool) then
          shown ← lift (PyOp.join_items tags);
          print (FoundTagged (os_path_join root filename) shown);;
          mret (S found_count)
        else mret found_count
      else mret found_count
    else mret found_count.

Definition search_tag (folder tag : string) : Py unit :=
  is_dir ← os_path_isdir folder;
  if negb is_dir then print (ErrorFolderNotFound folder)
  else
    print (SearchingTag folder tag);;
    w ← ask;
    found_count ←
      for_in (os_walk (S (size (tree w))) (tree w) folder)
        (fun '(root, _, names) found_count =>
           metadata ← _load_metadata root;
           for_in names (search_tag_file tag root metadata) found_count) O;
    print (FinishedSearchTag found_count tag).

(** [metadata.get(filename, {}).get("tags", [])] *)
Definition stored_tags (metadata : json) (filename : string) : result json :=
  entry ← PyOp.get metadata filename empty_dict;
  PyOp.get entry "tags" (JList []).

(** [metadata.get(filename, {}).get("mood", {}).get(field)] *)
Definition stored_mood (metadata : json) (filename field : string) : result json :=
  entry ← PyOp.get metadata filename empty_dict;
  mood ← PyOp.get entry "mood" empty_dict;
  PyOp.get mood field JNull.

(** [all(tag in tags for tag in wanted)] *)
Fixpoint all_in (wanted : list json) (tags : json) : result bool :=
  match wanted with
  | [] => Ok true
  | tag :: r =>
      b ← PyOp.contains tag tags;
      if (b : bool) then all_in r tags else Ok false
  end.

(** The conditions of [search_meta] on one file: [match], as the body of the
    [try] computes it. *)
Definition evaluate_query (query : json) (filepath : path) (file_size : nat)
    (file_type : string) (tags mood mood_name : json) : Py bool :=
  let matched := true in
  has ← lift (PyOp.contains (JStr "type") query);
  matched ← (if (has : bool) then
               wanted ← lift (PyOp.getitem query "type" ≫= PyOp.lower);
               mret (if bool_decide (file_type ≠ wanted) then false else matched)
             else mret matched);
  has ← lift (PyOp.contains (JStr "size") query);
  matched ← (if (has : bool) then
               size ← lift (PyOp.getitem query "size");
               has_gt ← lift (PyOp.contains (JStr "gt") size);
               matched ← (if (has_gt : bool) then
                            above ← lift (PyOp.getitem size "gt"
                                          ≫= PyOp.int_gt (Z.of_nat file_size));
                            mret (if negb above then false else matched)
                          else mret matched);
               has_lt ← lift (PyOp.contains (JStr "lt") size);
               if (has_lt : bool) then
                 below ← lift (PyOp.getitem size "lt"
                               ≫= PyOp.int_lt (Z.of_nat file_size));
                 mret (if negb below then false else matched)
               else mret matched
             else mret matched);
  has ← lift (PyOp.contains (JStr "ageDays") query);
  matched ← (if (has : bool) then
               required_age ← lift (PyOp.getitem query "ageDays" ≫= PyOp.int);
               older ← _is_file_older_than filepath required_age;
               mret (if negb older then false else matched)
             else mret matched);
  has ← lift (PyOp.contains (JStr "tags") query);
  matched ← (if (has : bool) then
               wanted ← lift (PyOp.getitem query "tags");
               match wanted with
               | JList l =>
                   every ← lift (all_in l tags);
                   mret (if negb every then false else matched)
               | JStr _ =>
                   one ← lift (PyOp.contains wanted tags);
                   mret (if negb one then false else matched)
               | _ => mret matched
               end
             else mret matched);
  has ← lift (PyOp.contains (JStr "mood") query);
  matched ← (if (has : bool) then
               wanted ← lift (PyOp.getitem query "mood" ≫= PyOp.lower);
               mret (if negb (PyOp.eq mood (JStr wanted)) then false else matched)
             else mret matched);
  has ← lift (PyOp.contains (JStr "mood_name") query);
  if (has : bool) then
    wanted ← lift (PyOp.getitem query "mood_name");
    mret (if negb (PyOp.eq mood_name wanted) then false else matched)
  else mret matched.

Definition search_meta_file (query : json) (root : string)
    (metadata_from_file : json) (filename : string) (found_count : nat)
  : Py nat :=
  let filepath := os_path_join root filename in
  is_file ← os_path_isfile filepath;
  if negb is_file || bool_decide (filename = METADATA_FILE) then mret found_count
  else
    try_except
      (stat ← os_stat filepath;
       let file_size := String.length (content stat) in
       let mod_time := mtime stat in
       let file_type :=
         PyStr.lower (PyStr.lstrip_dot (PyStr.splitext_ext filename)) in
       tags ← lift (stored_tags metadata_from_file filename);
       mood ← lift (stored_mood metadata_from_file filename "value");
       mood_name ← lift (stored_mood metadata_from_file filename "name");
       matched ← evaluate_query query filepath file_size file_type
                   tags mood mood_name;
       if (matched : bool) then
         shown ← lift (PyOp.join_items tags);
         print (FoundMeta filepath file_size mod_time file_type shown);;
         mret (S found_count)
       else mret found_count)
      (fun e => if is_OSError e
                then Some (print (ErrorAccessingFile filepath e);;
                           mret found_count)
                else if is_ValueError e
                then Some (print (ErrorProcessingQuery filepath);;
                           mret found_count)
                else None).

Definition search_meta_walk (query : json)
    (walk : list (string * list string * list string)) (found_count : nat)
  : Py nat :=
  for_in walk
    (fun '(root, _, names) found_count =>
       metadata_from_file ← _load_metadata root;
       for_in names (search_meta_file query root metadata_from_file) found_count)
    found_count.

Definition search_meta (folder json_query_str : string) : Py unit :=
  is_dir ← os_path_isdir folder;
  if negb is_dir then print (ErrorFolderNotFound folder)
  else
    parsed ← try_except (query ← lift (json_loads json_query_str); mret (Some query))
                (fun e => match e with
                          | JSONDecodeError =>
                              Some (print ErrorInvalidQuery;; mret None)
                          | _ => None
                          end);
    match parsed with
    | None => mret tt
    | Some query =>
        print (SearchingMeta folder (json_dumps 2 query));;
        w ← ask;
        found_count ←
          search_meta_walk query (os_walk (S (size (tree w))) (tree w) folder) O;
        print (FinishedSearchMeta found_count)
    end.

End Program.

(** ** A reference library: JSON text and SHA-256

    An instance of [PyLib] to run the program on: the JSON text that
    [json.dumps] prints and [json.loads] reads, on integers and on strings of
    code points below 256, and the SHA-256 digest in hexadecimal. *)

Module Json.

Definition dquote : ascii := ascii_of_nat 34.
Definition backslash : ascii := ascii_of_nat 92.

Definition hex_digit (n : nat) : ascii :=
  if (n <? 10)%nat then ascii_of_nat (48 + n) else ascii_of_nat (87 + n).

(** The characters of a string literal, [ensure_ascii] style. *)
Definition escape_char (c : ascii) : list ascii :=
  let n := nat_of_ascii c in
  if Ascii.eqb c dquote then [backslash; dquote]
  else if Ascii.eqb c backslash then [backslash; backslash]
  else if (n =? 10)%nat then [backslash; "n"%char]
  else if (n =? 13)%nat then [backslash; "r"%char]
  else if (n =? 9)%nat then [backslash; "t"%char]
  else if (n =? 8)%nat then [backslash; "b"%char]
  else if (n =? 12)%nat then [backslash; "f"%char]
  else if ((n <? 32) || (126 <? n))%nat && negb (n =? 127)%nat
  then [backslash; "u"; "0"; "0"; hex_digit (n / 16); hex_digit (n mod 16)]%char
  else [c].

Definition quote (s : string) : string :=
  String dquote
    (string_of_list_ascii (flat_map escape_char (list_ascii_of_string s)))
  ++ String dquote EmptyString.

Definition spaces (n : nat) : string := string_of_list_ascii (repeat " "%char n).
Definition newline : string := String (ascii_of_nat 10) EmptyString.

(** [sep.join(items)] *)
Fixpoint join (sep : string) (items : list string) : string :=
  match items with
  | [] => EmptyString
  | [x] => x
  | x :: r => x ++ sep ++ join sep r
  end.

Definition block (indent level : nat) (open close : string) (items : list string)
  : string :=
  match items with
  | [] => open ++ close
  | _ => open ++ newline ++ spaces (indent * S level)
         ++ join ("," ++ newline ++ spaces (indent * S level)) items
         ++ newline ++ spaces (indent * level) ++ close
  end.

Definition dumps_int (z : Z) : string := pretty z.

Fixpoint dumps_at (indent level : nat) (v : json) {struct v} : string :=
  match v with
  | JNull => "null"
  | JBool true => "true"
  | JBool false => "false"
  | JInt z => dumps_int z
  | JStr s => quote s
  | JList l =>
      block indent level "[" "]"
        ((fix go (l : list json) : list string :=
            match l with
            | [] => []
            | x :: r => dumps_at indent (S level) x :: go r
            end) l)
  | JDict d =>
      block indent level "{" "}"
        ((fix go (d : pydict) : list string :=
            match d with
            | [] => []
            | (k, x) :: r =>
                (quote k ++ ": " ++ dumps_at indent (S level) x) :: go r
            end) d)
  end.

Definition dumps (indent : nat) (v : json) : string := dumps_at indent 0 v.

(** *** Reading *)

Definition is_ws (c : ascii) : bool :=
  let n := nat_of_ascii c in
  ((n =? 32) || (n =? 9) || (n =? 10) || (n =? 13))%nat.

Fixpoint skip_ws (l : list ascii) : list ascii :=
  match l with
  | c :: r => if is_ws c then skip_ws r else l
  | [] => []
  end.

Definition hex_value (c : ascii) : option nat :=
  let n := nat_of_ascii c in
  if ((48 <=? n) && (n <=? 57))%nat then Some (n - 48)%nat
  else if ((97 <=? n) && (n <=? 102))%nat then Some (n - 87)%nat
  else if ((65 <=? n) && (n <=? 70))%nat then Some (n - 55)%nat
  else None.

Definition unescape (e : ascii) : option ascii :=
  if Ascii.eqb e dquote || Ascii.eqb e backslash || Ascii.eqb e "/"%char
  then Some e
  else if Ascii.eqb e "n"%char then Some (ascii_of_nat 10)
  else if Ascii.eqb e "r"%char then Some (ascii_of_nat 13)
  else if Ascii.eqb e "t"%char then Some (ascii_of_nat 9)
  else if Ascii.eqb e "b"%char then Some (ascii_of_nat 8)
  else if Ascii.eqb e "f"%char then Some (ascii_of_nat 12)
  else None.

(** The rest of a string literal, after its opening quote. *)
Fixpoint read_string (l : list ascii) : option (string * list ascii) :=
  match l with
  | [] => None
  | c :: r =>
      if Ascii.eqb c dquote then Some (EmptyString, r)
      else if Ascii.eqb c backslash then
        match r with
        | "u"%char :: "0"%char :: "0"%char :: h1 :: h2 :: r' =>
            a ← hex_value h1; b ← hex_value h2;
            '(s, k) ← read_string r';
            Some (String (ascii_of_nat (16 * a + b)) s, k)
        | e :: r' =>
            x ← unescape e;
            '(s, k) ← read_string r';
            Some (String x s, k)
        | [] => None
        end
      else if (nat_of_ascii c <? 32)%nat then None
      else '(s, k) ← read_string r; Some (String c s, k)
  end.

Fixpoint read_digits (acc : Z) (l : list ascii) : Z * list ascii :=
  match l with
  | c :: r =>
      if PyStr.is_digit c
      then read_digits (10 * acc + Z.of_nat (nat_of_ascii c - 48)) r
      else (acc, l)
  | [] => (acc, [])
  end.

Definition starts_fraction (l : list ascii) : bool :=
  match l with
  | c :: _ => Ascii.eqb c "."%char || Ascii.eqb c "e"%char || Ascii.eqb c "E"%char
  | [] => false
  end.

(** An integer literal: no leading zero, no fraction, no exponent. *)
Definition read_int (l : list ascii) : option (Z * list ascii) :=
  let '(neg, l) := match l with
                   | "-"%char :: r => (true, r)
                   | _ => (false, l)
                   end in
  match l with
  | c :: r =>
      if PyStr.is_digit c then
        let '(z, k) := if Ascii.eqb c "0"%char then (0, r) else read_digits 0 l in
        if starts_fraction k then None
        else Some (if neg : bool then - z else z, k)
      else None
  | [] => None
  end.

Fixpoint strip_prefix (word l : list ascii) : option (list ascii) :=
  match word, l with
  | [], _ => Some l
  | a :: word', b :: l' => if Ascii.eqb a b then strip_prefix word' l' else None
  | _ :: _, [] => None
  end.

Fixpoint read_value (fuel : nat) (l : list ascii) {struct fuel}
  : option (json * list ascii) :=
  match fuel with
  | O => None
  | S n =>
      match skip_ws l with
      | [] => None
      | c :: r =>
          if Ascii.eqb c "{"%char then
            match skip_ws r with
            | "}"%char :: k => Some (JDict [], k)
            | _ => read_members n [] r
            end
          else if Ascii.eqb c "["%char then
            match skip_ws r with
            | "]"%char :: k => Some (JList [], k)
            | _ => read_elements n [] r
            end
          else if Ascii.eqb c dquote then
            '(s, k) ← read_string r; Some (JStr s, k)
          else if Ascii.eqb c "t"%char then
            k ← strip_prefix (list_ascii_of_string "rue") r; Some (JBool true, k)
          else if Ascii.eqb c "f"%char then
            k ← strip_prefix (list_ascii_of_string "alse") r; Some (JBool false, k)
          else if Ascii.eqb c "n"%char then
            k ← strip_prefix (list_ascii_of_string "ull") r; Some (JNull, k)
          else
            '(z, k) ← read_int (c :: r); Some (JInt z, k)
      end
  end
with read_elements (fuel : nat) (acc : list json) (l : list ascii) {struct fuel}
  : option (json * list ascii) :=
  match fuel with
  | O => None
  | S n =>
      '(v, k) ← read_value n l;
      match skip_ws k with
      | ","%char :: k' => read_elements n (acc ++ [v])%list k'
      | "]"%char :: k' => Some (JList (acc ++ [v])%list, k')
      | _ => None
      end
  end
with read_members (fuel : nat) (acc : pydict) (l : list ascii) {struct fuel}
  : option (json * list ascii) :=
  match fuel with
  | O => None
  | S n =>
      match skip_ws l with
      | c :: r =>
          if Ascii.eqb c dquote then
            '(key, k) ← read_string r;
            match skip_ws k with
            | ":"%char :: k' =>
                '(v, k'') ← read_value n k';
                match skip_ws k'' with
                | ","%char :: k3 => read_members n (dict_set key v acc) k3
                | "}"%char :: k3 => Some (JDict (dict_set key v acc), k3)
                | _ => None
                end
            | _ => None
            end
          else None
      | [] => None
      end
  end.

(** [json.loads(s)]: one value, and nothing but white space after it. *)
Definition loads (s : string) : result json :=
  let l := list_ascii_of_string s in
  match read_value (2 * List.length l + 2) l with
  | Some (v, k) =>
      match skip_ws k with
      | [] => Ok v
      | _ => Raise JSONDecodeError
      end
  | None => Raise JSONDecodeError
  end.

End Json.

Module Sha256.

Definition w32 (x : Z) : Z := Z.land x 4294967295.
Definition add32 (x y : Z) : Z := w32 (x + y).
Definition rotr (n x : Z) : Z := Z.lor (Z.shiftr x n) (w32 (Z.shiftl x (32 - n))).

Definition ch (x y z : Z) : Z := Z.lxor (Z.land x y) (Z.land (Z.lxor x 4294967295) z).
Definition maj (x y z : Z) : Z :=
  Z.lxor (Z.lxor (Z.land x y) (Z.land x z)) (Z.land y z).
Definition bsig0 (x : Z) : Z := Z.lxor (Z.lxor (rotr 2 x) (rotr 13 x)) (rotr 22 x).
Definition bsig1 (x : Z) : Z := Z.lxor (Z.lxor (rotr 6 x) (rotr 11 x)) (rotr 25 x).
Definition ssig0 (x : Z) : Z := Z.lxor (Z.lxor (rotr 7 x) (rotr 18 x)) (Z.shiftr x 3).
Definition ssig1 (x : Z) : Z := Z.lxor (Z.lxor (rotr 17 x) (rotr 19 x)) (Z.shiftr x 10).

Definition K : list Z :=
  [1116352408; 1899447441; 3049323471; 3921009573; 961987163; 1508970993;
   2453635748; 2870763221; 3624381080; 310598401; 607225278; 1426881987;
   1925078388; 2162078206; 2614888103; 3248222580; 3835390401; 4022224774;
   264347078; 604807628; 770255983; 1249150122; 1555081692; 1996064986;
   2554220882; 2821834349; 2952996808; 3210313671; 3336571891; 3584528711;
   113926993; 338241895; 666307205; 773529912; 1294757372; 1396182291;
   1695183700; 1986661051; 2177026350; 2456956037; 2730485921; 2820302411;
   3259730800; 3345764771; 3516065817; 3600352804; 4094571909; 275423344;
   430227734; 506948616; 659060556; 883997877; 958139571; 1322822218;
   1537002063; 1747873779; 1955562222; 2024104815; 2227730452; 2361852424;
   2428436474; 2756734187; 3204031479; 3329325298].

Definition H0 : list Z :=
  [1779033703; 3144134277; 1013904242; 2773480762; 1359893119; 2600822924;
   528734635; 1541459225].

(** The message, then the bit 1, zeros up to 56 modulo 64, and the length in
    bits on eight bytes. *)
Definition pad (msg : list Z) : list Z :=
  let n := List.length msg in
  let zeros := ((64 - (n + 9) mod 64) mod 64)%nat in
  let bits := (8 * Z.of_nat n)%Z in
  (msg ++ [128] ++ repeat 0 zeros
   ++ map (fun i => Z.land (Z.shiftr bits (8 * (7 - Z.of_nat i))) 255) (seq 0 8))%list.

Fixpoint words (fuel : nat) (bytes : list Z) : list Z :=
  match fuel, bytes with
  | S n, a :: b :: c :: d :: r =>
      (Z.shiftl a 24 + Z.shiftl b 16 + Z.shiftl c 8 + d) :: words n r
  | _, _ => []
  end.

(** The message schedule, latest word first. *)
Fixpoint schedule (rounds : nat) (w : list Z) : list Z :=
  match rounds with
  | O => w
  | S n =>
      let x := add32 (add32 (ssig1 (nth 1 w 0)) (nth 6 w 0))
                 (add32 (ssig0 (nth 14 w 0)) (nth 15 w 0)) in
      schedule n (x :: w)
  end.

Definition round (s : list Z) (kw : Z * Z) : list Z :=
  match s with
  | [a; b; c; d; e; f; g; h] =>
      let t1 := add32 (add32 (add32 h (bsig1 e)) (add32 (ch e f g) kw.1)) kw.2 in
      let t2 := add32 (bsig0 a) (maj a b c) in
      [add32 t1 t2; a; b; c; add32 d t1; e; f; g]
  | _ => s
  end.

Definition compress (h : list Z) (block : list Z) : list Z :=
  let w := rev (schedule 48 (rev (words 16 block))) in
  zip_with add32 h (fold_left round (zip K w) h).

Fixpoint blocks (fuel : nat) (h : list Z) (bytes : list Z) : list Z :=
  match fuel, bytes with
  | S n, _ :: _ => blocks n (compress h (take 64 bytes)) (drop 64 bytes)
  | _, _ => h
  end.

Definition hex_word (x : Z) : list ascii :=
  map (fun i => Json.hex_digit (Z.to_nat (Z.land (Z.shiftr x (4 * (7 - Z.of_nat i))) 15)))
      (seq 0 8).

Definition hexdigest (s : string) : string :=
  let bytes := pad (map (fun c => Z.of_nat (nat_of_ascii c)) (list_ascii_of_string s)) in
  string_of_list_ascii
    (flat_map hex_word (blocks (List.length bytes) H0 bytes)).

End Sha256.

#[export] Instance reference_lib : PyLib := {|
  json_loads := Json.loads;
  json_dumps := Json.dumps;
  sha256 := Sha256.hexdigest
|}.

(** ** Vocabulary of the statements *)

Definition sidecar_path (folder : string) : path :=
  os_path_join folder METADATA_FILE.

Definition log (msgs : list line) (w : World) : World :=
  set_stdout (fun o => (o ++ msgs)%list) w.

Definition called (c : call) (w : World) : World :=
  set_calls (fun o => (o ++ [c])%list) w.

(** The world once [_save_metadata] is entered and has met its fault. *)
Definition after_save_call (folder : string) (w : World) : World :=
  set_faults (@tl save_fault) (called (CSave folder) w).

(** The bytes of the sidecar file of [folder], when there is one. *)
Definition sidecar_content (w : World) (folder : string) : option string :=
  content <$> files w !! sidecar_path folder.

(** The sidecar file can be read as text. *)
Definition legible (nd : fnode) : bool :=
  regular nd && readable nd && decodable nd.

(** The document that [_load_metadata] hands to its caller. *)
Definition loaded `{lib : PyLib} (w : World) (folder : string) : json :=
  match (_load_metadata folder w).1 with
  | Ok v => v
  | Raise _ => empty_dict
  end.

Definition is_save (c : call) : bool :=
  match c with CSave _ => true | CLoad _ => false end.
Definition is_load (c : call) : bool :=
  match c with CLoad _ => true | CSave _ => false end.

(** The tags stored for [file_key] in a document of the shape the program
    writes: a dictionary whose entry for the file, when there is one, is a
    dictionary whose "tags", when there are some, is a list of strings. *)
Definition entry_tags (metadata : json) (file_key : string) : option (list string) :=
  match metadata with
  | JDict d =>
      match dict_get file_key d with
      | None => Some []
      | Some (JDict e) =>
          match dict_get "tags" e with
          | None => Some []
          | Some (JList l) => PyOp.all_str l
          | Some _ => None
          end
      | Some _ => None
      end
  | _ => None
  end.

(** The document with the tags of [file_key] replaced. *)
Definition with_tags (metadata : json) (file_key : string) (tags : list string)
  : json :=
  match metadata with
  | JDict d =>
      let e := match dict_get file_key d with
               | Some (JDict e) => e
               | _ => []
               end in
      JDict (dict_set file_key
               (JDict (dict_set "tags" (JList (JStr <$> tags)) e)) d)
  | _ => metadata
  end.

(** Python's [sorted] on strings. *)
Definition sorted_tags (tags : gset string) : list string :=
  merge_sort PySet.str_le (elements tags).

(** [json.loads] gives back the document that [json.dump] wrote. *)
Definition round_trips `{lib : PyLib} (doc : json) : Prop :=
  PyStr.strip (json_dumps 4 doc) ≠ ""
  ∧ json_loads (PyStr.strip (json_dumps 4 doc)) = Ok doc.

(** A line printed by [deduplicate] that reports [p] as a duplicate, as the
    original of one, or as deleted. *)
Definition reports (p : path) (l : line) : Prop :=
  match l with
  | DuplicateFound a b => a = p ∨ b = p
  | DeletedDuplicate a => a = p
  | _ => False
  end.

(** No line of the scan tells of [p], and [p] is the first-seen file of no
    digest. *)
Definition unrecorded (p : path) (st : dedup_state) : Prop :=
  ∀ h, hashes st !! h ≠ Some p.

(** The query fields that [search_meta] looks at before "ageDays" have
    values of the expected types. *)
Definition bound_ok (o : option json) : bool :=
  match o with
  | None | Some (JInt _) | Some (JBool _) => true
  | _ => false
  end.

Definition type_and_size_ok (q : pydict) : bool :=
  match dict_get "type" q with
  | None | Some (JStr _) => true
  | _ => false
  end
  && match dict_get "size" q with
     | None => true
     | Some (JDict size) => bound_ok (dict_get "gt" size) && bound_ok (dict_get "lt" size)
     | _ => false
     end.

(** [p] passes the filter at the head of the loop of [tag_file]. *)
Definition taggable (w : World) (p : path) : bool :=
  from_option regular false (files w !! p)
  && negb (bool_decide (os_path_basename p = METADATA_FILE)).

(** The sidecar of [folder] is absent, or can be read as text. *)
Definition sidecar_legible (w : World) (folder : string) : Prop :=
  from_option legible true (files w !! sidecar_path folder) = true.

(** The paths that [tag_file] loops over. *)
Definition targets_of (w : World) (file_path : path) (recursive : bool)
  : list path :=
  match (target_paths_of file_path recursive w).1 with
  | Ok (Some l) => l
  | _ => []
  end.

Definition loads (w : World) : list call := filter is_load (calls w).
Definition saves (w : World) : list call := filter is_save (calls w).

(** The set of tags that [tag_file] reads for [file_key] from the document
    of its folder, [set(metadata[file_key].get("tags", []))], where a file
    without an entry has no tags. *)
Definition stored_tag_set (metadata : json) (file_key : string) : result PySet.t :=
  known ← PyOp.contains (JStr file_key) metadata;
  entry ← (if (known : bool) then PyOp.getitem metadata file_key
           else Ok (JDict [("tags", JList [])]));
  stored ← PyOp.get entry "tags" (JList []);
  PySet.of_json stored.

(** Adding [add] and then removing [remove] changes the set of tags that
    [metadata] stores for [file_key]. *)
Definition tag_set_changes (add remove : gset string) (metadata : json)
    (file_key : string) : bool :=
  match stored_tag_set metadata file_key with
  | Ok current => bool_decide ((current.1 ∪ add) ∖ remove ≠ current.1)
  | Raise _ => false
  end.

(** The calls of the store that the loop of [tag_file] owes for [targets],
    from the count [n] and the world [w] on: for each target that passes the
    filter, in the world that the targets before it left, one load of the
    sidecar of its folder, followed by one save exactly when the delta
    changes the set of tags stored for it there. *)
Fixpoint store_calls `{lib : PyLib} (add remove : gset string)
    (targets : list path) (n : nat) (w : World) : list call :=
  match targets with
  | [] => []
  | p :: rest =>
      ((if taggable w p
        then CLoad (os_path_dirname p)
             :: (if tag_set_changes add remove
                      (loaded w (os_path_dirname p)) (os_path_basename p)
                 then [CSave (os_path_dirname p)] else [])
        else [])
       ++ match tag_path add remove p n w with
          | (Ok n', w') => store_calls add remove rest n' w'
          | (Raise _, _) => []
          end)%list
  end.

(** What [search_meta] reads about a file from the document of its folder
    can be read: the document is an object, and the entry of the file and
    the mood of that entry, where there is one, are objects. *)
Definition entry_readable (metadata : json) (filename : string) : bool :=
  match metadata with
  | JDict d =>
      match dict_get filename d with
      | None => true
      | Some (JDict e) =>
          match dict_get "mood" e with
          | None | Some (JDict _) => true
          | Some _ => false
          end
      | Some _ => false
      end
  | _ => false
  end.

(** ** Worlds to run the program on *)

Module Example.

Definition plain (text : string) (modified : Z) : fnode :=
  {| regular := true; content := text; readable := true; decodable := true;
     mtime := modified; removable := true |}.

Definition report_tags (tags : list string) : json :=
  JDict [("report.txt", JDict [("tags", JList (JStr <$> tags))])].

Definition tagged_ab : string := Json.dumps 4 (report_tags ["a"; "b"]).

(** One folder, two files, a sidecar that tags one of them. *)
Definition docs (pending : list save_fault) : World :=
  {| files := list_to_map
       [(("docs", "report.txt"), plain "quarterly" 0);
        (("docs", "notes.txt"), plain "todo" 0);
        (("docs", METADATA_FILE), plain tagged_ab 0)];
     tree := {["docs" := ([], ["report.txt"; "notes.txt"; METADATA_FILE])]};
     clock := 1000; stdout := []; calls := []; faults := pending |}.

(** The same folder before anything was tagged. *)
Definition fresh : World :=
  {| files := list_to_map
       [(("docs", "report.txt"), plain "quarterly" 0);
        (("docs", "notes.txt"), plain "todo" 0)];
     tree := {["docs" := ([], ["report.txt"; "notes.txt"])]};
     clock := 1000; stdout := []; calls := []; faults := [] |}.

(** Two folders with the same sidecar, and an unreadable file. *)
Definition twins : World :=
  {| files := list_to_map
       [(("root/a", "report.txt"), plain "quarterly" 0);
        (("root/a", METADATA_FILE), plain tagged_ab 0);
        (("root/b", "report.txt"), plain "yearly" 0);
        (("root/b", "locked.txt"),
         {| regular := true; content := "quarterly"; readable := false;
            decodable := true; mtime := 0; removable := true |});
        (("root/b", METADATA_FILE), plain tagged_ab 0)];
     tree := list_to_map
       [("root", (["a"; "b"], []));
        ("root/a", ([], ["report.txt"; METADATA_FILE]));
        ("root/b", ([], ["locked.txt"; "report.txt"; METADATA_FILE]))];
     clock := 1000; stdout := []; calls := []; faults := [] |}.

(** A file modified exactly seven days before now. *)
Definition week_old : World :=
  {| files := {[("docs", "report.txt") := plain "quarterly" 1000]};
     tree := {["docs" := ([], ["report.txt"])]};
     clock := 1000 + 7 * microseconds_per_day;
     stdout := []; calls := []; faults := [] |}.

End Example.

(** ** More of the program: file size, cleanup and folder moods

    These commands print lines of their own.  Their console holds those next
    to the lines that the store and the helpers print, in the order in which
    they appear. *)

Inductive message : Type :=
  | Said (l : line)
  | SettingMood (folder mood : string) (name : option string)
  | MoodSet (folder mood : string) (name : option string)
  | MoodOf (folder : string) (mood_value : json)
  | NoMoodSet (folder : string)
  | NoMatchingMoods
  | CleaningUp (folder criteria : string) (value : json)
  | UnknownCriteria (criteria filename : string)
  | DeletedFile (p : path)
  | InvalidCleanupValue (value : json) (criteria : string)
  | ErrorDeleting (p : path) (e : exn)
  | FinishedCleanup (deleted : nat)
  | ErrorSourceNotFound (src : string)
  | ErrorCreatingDestination (dest : string) (e : exn)
  | Transferring (is_copy : bool) (src dest condition_type : string)
      (value : json)
  | UnknownCondition (condition_type filename : string)
  | SkippingExisting (filename : string) (dest_path : path)
  | Copied (filename dest : string)
  | Moved (filename dest : string)
  | InvalidConditionValue (value : json) (condition_type : string)
  | ErrorTransferring (is_copy : bool) (filename : string) (e : exn)
  | FinishedTransfer (is_copy : bool) (processed : nat).

Record Session : Type := {
  world : World;
  console : list message
}.

Definition Cmd (A : Type) : Type := Session → result A * Session.

#[export] Instance Cmd_ret : MRet Cmd := fun A a s => (Ok a, s).
#[export] Instance Cmd_bind : MBind Cmd := fun A B f m s =>
  match m s with
  | (Ok a, s') => f a s'
  | (Raise e, s') => (Raise e, s')
  end.

(** [print] of one of the lines of these commands. *)
Definition say (m : message) : Cmd unit :=
  fun s => (Ok tt, {| world := world s; console := (console s ++ [m])%list |}).

(** A computation of the store or of a helper, with what it prints. *)
Definition run {A} (m : Py A) : Cmd A :=
  fun s =>
    let '(r, w') := m (world s) in
    (r, {| world := w';
           console := (console s
                       ++ (Said <$> drop (length (stdout (world s))) (stdout w')))%list |}).

Definition get_session : Cmd Session := fun s => (Ok s, s).

Definition cmd_try {A} (body : Cmd A) (handler : exn → option (Cmd A)) : Cmd A :=
  fun s =>
    match body s with
    | (Ok a, s') => (Ok a, s')
    | (Raise e, s') =>
        match handler e with
        | Some h => h s'
        | None => (Raise e, s')
        end
    end.

(** A loop body either goes on with its variables or returns from the
    function. *)
Inductive flow (S : Type) : Type :=
  | Next (s : S)
  | Return.
Arguments Next {S} s.
Arguments Return {S}.

Fixpoint for_each {A S : Type} (l : list A) (body : A → S → Cmd (flow S)) (s : S)
  : Cmd (flow S) :=
  match l with
  | [] => mret (Next s)
  | x :: r =>
      f ← body x s;
      match f with
      | Next s' => for_each r body s'
      | Return => mret Return
      end
  end.

(** [bool(v)] *)
Definition truthy (v : json) : bool :=
  match v with
  | JNull => false
  | JBool b => b
  | JInt z => negb (z =? 0)
  | JStr s => negb (String.eqb s "")
  | JList l => negb (bool_decide (l = []))
  | JDict d => negb (bool_decide (d = []))
  end.

Section Commands.
Context `{lib : PyLib}.

Definition _get_file_size (filepath : path) : Py nat :=
  try_except
    (stat ← os_stat filepath; mret (String.length (content stat)))
    (fun e => if is_OSError e
              then Some (print (ErrorAccessingFile filepath e);; mret O)
              else None).

(** The body of the loops of [auto_cleanup]. *)
Definition cleanup_file (criteria : string) (value : json) (root filename : string)
    (deleted_count : nat) : Cmd (flow nat) :=
  let filepath := os_path_join root filename in
  is_file ← run (os_path_isfile filepath);
  if negb is_file || bool_decide (filename = METADATA_FILE)
  then mret (Next deleted_count)
  else
    cmd_try
      (decision ←
         (if String.eqb (PyStr.lower criteria) "agedays" then
            days ← run (lift (PyOp.int value));
            older ← run (_is_file_older_than filepath days);
            mret (Some older)
          else if String.eqb (PyStr.lower criteria) "emptyfile" then
            size ← run (_get_file_size filepath);
            mret (Some (size =? 0)%nat)
          else
            say (UnknownCriteria criteria filename);; mret None);
       match decision with
       | None => mret (Next deleted_count)
       | Some perform_delete =>
           if (perform_delete : bool) then
             run (os_remove filepath);;
             say (DeletedFile filepath);;
             mret (Next (S deleted_count))
           else mret (Next deleted_count)
       end)
      (fun e => if is_ValueError e
                then Some (say (InvalidCleanupValue value criteria);; mret Return)
                else if is_OSError e
                then Some (say (ErrorDeleting filepath e);;
                           mret (Next deleted_count))
                else None).

Definition cleanup_walk (criteria : string) (value : json)
    (walk : list (string * list string * list string)) (deleted_count : nat)
  : Cmd (flow nat) :=
  for_each walk
    (fun '(root, _, names) deleted_count =>
       for_each names (cleanup_file criteria value root) deleted_count)
    deleted_count.

Definition auto_cleanup (folder criteria : string) (value : json) : Cmd unit :=
  is_dir ← run (os_path_isdir folder);
  if negb is_dir then run (print (ErrorFolderNotFound folder))
  else
    say (CleaningUp folder criteria value);;
    s ← get_session;
    let t := tree (world s) in
    f ← cleanup_walk criteria value (os_walk (S (size t)) t folder) O;
    match f with
    | Next deleted_count => say (FinishedCleanup deleted_count)
    | Return => mret tt
    end.

(** ** Moving and copying by a condition *)

(** [os.path.exists] of a path given as one string: a folder, or a file. *)
Definition os_path_exists_str (name : string) : Py bool :=
  w ← ask;
  mret (bool_decide (is_Some (tree w !! name))
        || bool_decide (Exists (fun entry => path_str entry.1 = name)
                          (map_to_list (files w)))).

(** [os.path.exists] of a joined path: a file, or a folder. *)
Definition os_path_exists_any (p : path) : Py bool :=
  w ← ask;
  mret (bool_decide (is_Some (files w !! p))
        || bool_decide (is_Some (tree w !! path_str p))).

(** [os.makedirs(folder)] of a folder that does not exist. *)
Definition os_makedirs_new (folder : string) : Py unit :=
  if bool_decide (folder = "") then raise FileNotFoundError
  else modify (make_dir folder).

(** The file at [q] is [nd] from now on. *)
Definition place (q : path) (nd : fnode) (w : World) : World :=
  set_tree (alter (fun l => (l.1, add_name q.2 l.2)) q.1)
    (set_files (insert q nd) w).

(** The file that a copy of [nd] with its metadata creates. *)
Definition copy_of (nd : fnode) : fnode :=
  {| regular := true; content := content nd; readable := readable nd;
     decodable := decodable nd; mtime := mtime nd; removable := true |}.

(** [shutil.copy2(p, q)] of a regular file to a path that does not exist:
    [OSError] stands for the error of a destination that is no folder. *)
Definition shutil_copy2 (p q : path) : Py unit :=
  w ← ask;
  match files w !! p with
  | None => raise FileNotFoundError
  | Some nd =>
      if negb (readable nd) then raise PermissionError
      else if negb (bool_decide (is_Some (tree w !! q.1))) then raise OSError
      else modify (place q (copy_of nd))
  end.

(** [shutil.move(p, q)] of a regular file to a path that does not exist:
    [os.rename], and when that is not permitted a copy followed by
    [os.unlink], which is not permitted either. *)
Definition shutil_move (p q : path) : Py unit :=
  w ← ask;
  match files w !! p with
  | None => raise FileNotFoundError
  | Some nd =>
      if negb (bool_decide (is_Some (tree w !! q.1))) then raise OSError
      else if removable nd then
        modify (fun w =>
                  place q (copy_of nd)
                    (set_tree (alter (fun l => (l.1, filter (fun n => n ≠ p.2) l.2)) p.1)
                       (set_files (delete p) w)))
      else if negb (readable nd) then raise PermissionError
      else modify (place q (copy_of nd));; raise PermissionError
  end.

(** Whether the condition holds of the file; [None] for a condition that
    is not known. *)
Definition transfer_decision (condition_type : string) (value : json)
    (filepath : path) (filename : string) : Cmd (option bool) :=
  if String.eqb (PyStr.lower condition_type) "agedays" then
    days ← run (lift (PyOp.int value));
    older ← run (_is_file_older_than filepath days);
    mret (Some older)
  else if String.eqb (PyStr.lower condition_type) "sizegt" then
    size ← run (_get_file_size filepath);
    bound ← run (lift (PyOp.int value));
    mret (Some (bound <? Z.of_nat size))
  else if String.eqb (PyStr.lower condition_type) "sizelt" then
    size ← run (_get_file_size filepath);
    bound ← run (lift (PyOp.int value));
    mret (Some (Z.of_nat size <? bound))
  else
    say (UnknownCondition condition_type filename);; mret None.

(** The copy or the move of a file for which the condition holds. *)
Definition transfer_action (dest : string) (is_copy : bool)
    (filepath : path) (filename : string) (processed_count : nat)
  : Cmd (flow nat) :=
  let dest_path := os_path_join dest filename in
  present ← run (os_path_exists_any dest_path);
  if (present : bool) then
    say (SkippingExisting filename dest_path);;
    mret (Next processed_count)
  else
    (if is_copy then
       run (shutil_copy2 filepath dest_path);;
       say (Copied filename dest)
     else
       run (shutil_move filepath dest_path);;
       say (Moved filename dest));;
    mret (Next (S processed_count)).

(** The body of the loop of [conditional_move_copy]. *)
Definition transfer_file (dest condition_type : string) (value : json)
    (is_copy : bool) (src filename : string) (processed_count : nat)
  : Cmd (flow nat) :=
  let filepath := os_path_join src filename in
  is_file ← run (os_path_isfile filepath);
  if negb is_file then mret (Next processed_count)
  else
    cmd_try
      (decision ← transfer_decision condition_type value filepath filename;
       match decision with
       | None => mret (Next processed_count)
       | Some perform_action =>
           if (perform_action : bool)
           then transfer_action dest is_copy filepath filename processed_count
           else mret (Next processed_count)
       end)
      (fun e => if is_ValueError e
                then Some (say (InvalidConditionValue value condition_type);;
                           mret Return)
                else if is_OSError e
                then Some (say (ErrorTransferring is_copy filename e);;
                           mret (Next processed_count))
                else None).

Definition conditional_move_copy (src dest condition_type : string)
    (value : json) (is_copy : bool) : Cmd unit :=
  is_dir ← run (os_path_isdir src);
  if negb is_dir then say (ErrorSourceNotFound src)
  else
    present ← run (os_path_exists_str dest);
    made ← (if (present : bool) then mret true
            else cmd_try (run (os_makedirs_new dest);; mret true)
                   (fun e => if is_OSError e
                             then Some (say (ErrorCreatingDestination dest e);;
                                        mret false)
                             else None));
    if negb made then mret tt
    else
      say (Transferring is_copy src dest condition_type value);;
      names ← run (os_listdir src);
      f ← for_each names
             (transfer_file dest condition_type value is_copy src) O;
      match f with
      | Next processed_count => say (FinishedTransfer is_copy processed_count)
      | Return => mret tt
      end.

(** ** Folder moods *)

Definition mood_record (mood : string) (name : option string) : json :=
  JDict [("value", JStr mood);
         ("name", match name with
                  | Some n => if truthy (JStr n) then JStr n else JNull
                  | None => JNull
                  end)].

Definition folder_mood_set (folder mood : string) (name : option string)
  : Cmd unit :=
  is_dir ← run (os_path_isdir folder);
  if negb is_dir then run (print (ErrorFolderNotFound folder))
  else
    say (SettingMood folder mood name);;
    metadata ← run (_load_metadata folder);
    known ← run (lift (PyOp.contains (JStr "__folder__") metadata));
    metadata ← (if (known : bool) then mret metadata
                else run (lift (PyOp.setitem metadata "__folder__" empty_dict)));
    entry ← run (lift (PyOp.getitem metadata "__folder__"));
    entry ← run (lift (PyOp.setitem entry "mood" (mood_record mood name)));
    metadata ← run (lift (PyOp.setitem metadata "__folder__" entry));
    run (_save_metadata folder metadata);;
    say (MoodSet folder mood name).

(** [mood_info] of a document, when ["__folder__" in metadata and "mood" in
    metadata["__folder__"]]. *)
Definition folder_mood_of (metadata : json) : result (option json) :=
  known ← PyOp.contains (JStr "__folder__") metadata;
  if (known : bool) then
    entry ← PyOp.getitem metadata "__folder__";
    has_mood ← PyOp.contains (JStr "mood") entry;
    if (has_mood : bool) then
      mood_info ← PyOp.getitem entry "mood";
      mret (Some mood_info)
    else mret None
  else mret None.

(** [value and filter_lower in value.lower()] *)
Definition mood_field_matches (filter_lower : string) (value : json) : result bool :=
  if truthy value then
    lowered ← PyOp.lower value;
    mret (PyStr.contains filter_lower lowered)
  else mret false.

(** The body of the loop of [folder_mood_get], inside its [try]. *)
Definition mood_scan_folder (mood_filter_name : option string) (root : string)
    (found_matches : bool) : Cmd bool :=
  metadata ← run (_load_metadata root);
  mood ← run (lift (folder_mood_of metadata));
  match mood with
  | Some mood_info =>
      mood_value ← run (lift (PyOp.get mood_info "value" (JStr "N/A")));
      mood_name ← run (lift (PyOp.get mood_info "name" (JStr "N/A")));
      let filter_lower :=
        match mood_filter_name with
        | Some f => if truthy (JStr f) then Some (PyStr.lower f) else None
        | None => None
        end in
      shown ←
        match filter_lower with
        | None => mret true
        | Some f =>
            by_value ← run (lift (mood_field_matches f mood_value));
            if (by_value : bool) then mret true
            else run (lift (mood_field_matches f mood_name))
        end;
      if (shown : bool) then say (MoodOf root mood_value);; mret true
      else mret found_matches
  | None => mret found_matches
  end.

Fixpoint mood_scan (mood_filter_name : option string)
    (walk : list (string * list string * list string)) (found_matches : bool)
  : Cmd bool :=
  match walk with
  | [] => mret found_matches
  | (root, _, _) :: rest =>
      found_matches ←
        cmd_try (mood_scan_folder mood_filter_name root found_matches)
          (fun _ => Some (mret found_matches));
      mood_scan mood_filter_name rest found_matches
  end.

Definition folder_mood_get (folder : string) (recursive : bool)
    (mood_filter_name : option string) : Cmd unit :=
  is_dir ← run (os_path_isdir folder);
  if negb is_dir then run (print (ErrorFolderNotFound folder))
  else if negb recursive && bool_decide (mood_filter_name = None) then
    metadata ← run (_load_metadata folder);
    mood ← run (lift (folder_mood_of metadata));
    match mood with
    | Some mood_info =>
        mood_value ← run (lift (PyOp.get mood_info "value" (JStr "N/A")));
        say (MoodOf folder mood_value)
    | None => say (NoMoodSet folder)
    end
  else
    s ← get_session;
    let t := tree (world s) in
    found_matches ← mood_scan mood_filter_name (os_walk (S (size t)) t folder) false;
    if (found_matches : bool) then mret tt else say NoMatchingMoods.

End Commands.

(** ** Vocabulary of the further statements *)

(** From [w] to [w'] nothing changed but the console, which gained lines
    that satisfy [P]. *)
Definition only_prints (P : line → Prop) (w w' : World) : Prop :=
  files w' = files w ∧ tree w' = tree w ∧ clock w' = clock w
  ∧ calls w' = calls w ∧ faults w' = faults w
  ∧ ∃ out, stdout w' = (stdout w ++ out)%list ∧ Forall P out.

(** From [w] to [w'] no file, folder or pending fault changed and nothing
    was saved: the sidecars were at most loaded, and lines that satisfy [P]
    were printed. *)
Definition only_reads (P : line → Prop) (w w' : World) : Prop :=
  files w' = files w ∧ tree w' = tree w ∧ clock w' = clock w
  ∧ faults w' = faults w
  ∧ (∃ loaded, calls w' = (calls w ++ (CLoad <$> loaded))%list)
  ∧ ∃ out, stdout w' = (stdout w ++ out)%list ∧ Forall P out.

(** Whatever its result, [m] relates the world before to the world after
    by [R]. *)
Definition keeps {A} (R : World → World → Prop) (m : Py A) : Prop :=
  ∀ w r w', m w = (r, w') → R w w'.

(** From [w] to [w'] every file that is not a sidecar is as it was. *)
Definition only_sidecars (w w' : World) : Prop :=
  ∀ q, os_path_basename q ≠ METADATA_FILE → files w' !! q = files w !! q.

(** The files that a walk goes through, in order. *)
Definition walked_paths (walk : list (string * list string * list string))
  : list path :=
  flat_map (fun '(root, _, names) => os_path_join root <$> names) walk.

(** What one file does to the scan of [deduplicate]: nothing to the table
    and the files, or the file is the first of its digest and is recorded, or
    its digest is recorded already and the file is removed. *)
Definition dedup_step `{lib : PyLib} (dry_run : bool) (p : path)
    (st : dedup_state) (w : World) (st' : dedup_state) (w' : World) : Prop :=
  (hashes st' = hashes st ∧ files w' = files w ∧ tree w' = tree w
   ∧ deleted_count st' = deleted_count st)
  ∨ (∃ nd, files w !! p = Some nd
           ∧ hashes st !! sha256 (content nd) = None
           ∧ hashes st' = <[sha256 (content nd) := p]> (hashes st)
           ∧ files w' = files w ∧ tree w' = tree w
           ∧ deleted_count st' = deleted_count st)
  ∨ (dry_run = false
     ∧ ∃ nd original, files w !! p = Some nd
                      ∧ hashes st !! sha256 (content nd) = Some original
                      ∧ hashes st' = hashes st
                      ∧ files w' = delete p (files w)
                      ∧ deleted_count st' = S (deleted_count st)).

(** Whatever its result, [m] relates the world before to the world after
    by [R]. *)
Definition ckeeps {A} (R : World → World → Prop) (m : Cmd A) : Prop :=
  ∀ s r s', m s = (r, s') → R (world s) (world s').

(** The file [nd] is one that [auto_cleanup] is asked to delete at the time
    [now]. *)
Definition cleanup_selects (criteria : string) (value : json) (now : Z)
    (nd : fnode) : Prop :=
  (PyStr.lower criteria = "agedays"
   ∧ ∃ days, PyOp.int value = Ok days
             ∧ days * microseconds_per_day < now - mtime nd)
  ∨ (PyStr.lower criteria = "emptyfile" ∧ content nd = "").

(** From [w] to [w'] no file appeared or changed, and the files that are
    gone are regular files other than sidecars that satisfy [P]. *)
Definition only_removes (P : fnode → Prop) (w w' : World) : Prop :=
  clock w' = clock w
  ∧ ∀ q, files w' !! q = files w !! q
         ∨ (files w' !! q = None
            ∧ os_path_basename q ≠ METADATA_FILE
            ∧ ∃ nd, files w !! q = Some nd ∧ regular nd = true
                    ∧ removable nd = true ∧ P nd).

(** From [w] to [w'] the only change is that files are gone which the
    cleanup was asked to delete. *)
Definition cleans (criteria : string) (value : json) (w w' : World) : Prop :=
  only_removes (cleanup_selects criteria value (clock w)) w w'.

(** The criteria is one that [auto_cleanup] knows, with a number of days
    that a [timedelta] can hold when it asks for one. *)
Definition cleanup_decides (criteria : string) (value : json) : Prop :=
  (PyStr.lower criteria = "agedays"
   ∧ ∃ days, PyOp.int value = Ok days ∧ Z.abs days <= 999999999)
  ∨ PyStr.lower criteria = "emptyfile".

(** The document with the mood of its folder replaced. *)
Definition with_mood (metadata : json) (mood : string) (name : option string)
  : json :=
  match metadata with
  | JDict d =>
      let e := match dict_get "__folder__" d with
               | Some (JDict e) => e
               | _ => []
               end in
      JDict (dict_set "__folder__"
               (JDict (dict_set "mood" (mood_record mood name) e)) d)
  | _ => metadata
  end.

(** A document in which [folder_mood_set] can write: an object whose
    "__folder__", when there is one, is an object. *)
Definition mood_writable (metadata : json) : Prop :=
  match metadata with
  | JDict d =>
      match dict_get "__folder__" d with
      | None | Some (JDict _) => True
      | Some _ => False
      end
  | _ => False
  end.

(** From [w] to [w'] every file is as it was, or, in a move, is a file of
    [src] that is gone and is in [dest] under its name with its content and
    its modification time; and the files that appeared are in [dest]. *)
Definition transfers (is_copy : bool) (src dest : string) (w w' : World) : Prop :=
  (∀ q nd, files w !! q = Some nd →
     files w' !! q = Some nd
     ∨ (is_copy = false ∧ os_path_dirname q = src ∧ dest ≠ src
        ∧ files w' !! q = None
        ∧ ∃ nd', files w' !! os_path_join dest (os_path_basename q) = Some nd'
                 ∧ content nd' = content nd ∧ mtime nd' = mtime nd))
  ∧ (∀ q, files w !! q = None → is_Some (files w' !! q) →
          os_path_dirname q = dest ∧ dest ≠ src).

(** From [w] to [w'] the files are the same. *)
Definition same_files (w w' : World) : Prop := files w' = files w.

(** A line of a search does not report a sidecar file as found. *)
Definition no_sidecar_found (l : line) : Prop :=
  match l with
  | FoundMeta p _ _ _ _ | FoundTagged p _ => os_path_basename p ≠ METADATA_FILE
  | _ => True
  end.

(** The folders that a walk goes through, in order. *)
Definition walked_folders (walk : list (string * list string * list string))
  : list string :=
  (fun x => x.1.1) <$> walk.

(** *** Queries and facts of the expected types

    The query document of the metadata search with every field of its
    expected type, and the facts that the search collects for a file whose
    stored tags are strings and whose stored mood, when there is one, has
    strings for its value and name. *)

Record query : Type := {
  q_type : option string;
  q_size_gt : option Z;
  q_size_lt : option Z;
  q_age_days : option Z;
  q_tags : option (string + list string);
  q_mood : option string;
  q_mood_name : option string
}.

Definition field (key : string) (value : option json) : pydict :=
  match value with
  | Some v => [(key, v)]
  | None => []
  end.






(** ** More worlds to run the program on *)

Module Sample.

Definition session (w : World) : Session := {| world := w; console := [] |}.

(** A folder whose sidecar holds a list. *)
Definition listed : World :=
  {| files := list_to_map
       [(("docs", "report.txt"), Example.plain "quarterly" 0);
        (("docs", METADATA_FILE), Example.plain "[]" 0)];
     tree := {["docs" := ([], ["report.txt"; METADATA_FILE])]};
     clock := 1000; stdout := []; calls := []; faults := [] |}.


(** A folder with an empty file, a file with content and an empty sidecar. *)
Definition attic : World :=
  {| files := list_to_map
       [(("tmp", "empty.log"), Example.plain "" 0);
        (("tmp", "keep.txt"), Example.plain "x" 0);
        (("tmp", METADATA_FILE), Example.plain "" 0)];
     tree := {["tmp" := ([], ["empty.log"; "keep.txt"; METADATA_FILE])]};
     clock := 1000; stdout := []; calls := []; faults := [] |}.

(** A folder with a file and the sidecar that tags it, and no folder
    "out". *)
Definition inbox : World :=
  {| files := list_to_map
       [(("in", "report.txt"), Example.plain "quarterly" 7);
        (("in", METADATA_FILE), Example.plain Example.tagged_ab 9)];
     tree := {["in" := ([], ["report.txt"; METADATA_FILE])]};
     clock := 1000; stdout := []; calls := []; faults := [] |}.


End Sample.

(** * Properties *)

Ltac py_unfold :=
  unfold print, record in *;
  unfold mbind, mret, Py_bind, Py_ret, result_bind, result_ret, raise, lift,
    ask, modify, try_except in *.

Section Store.
Context `{lib : PyLib}.

Lemma log_nil w : log [] w = w.
Proof. destruct w. unfold log, set_stdout. simpl. by rewrite app_nil_r. Qed.

Lemma load_frame folder w :
  ∃ v msgs, _load_metadata folder w = (Ok v, log msgs (called (CLoad folder) w))
    ∧ (length msgs <= 1)%nat.
Proof.
  unfold _load_metadata, os_path_exists, read_text. py_unfold. simpl.
  destruct (files w !! os_path_join folder METADATA_FILE) as [nd|] eqn:E; simpl.
  2:{ exists empty_dict, []. rewrite log_nil. split; [done | simpl; lia]. }
  rewrite ?E; simpl.
  destruct (regular nd); simpl.
  2:{ eexists _, [_]. split; [reflexivity | simpl; lia]. }
  destruct (readable nd); simpl.
  2:{ eexists _, [_]. split; [reflexivity | simpl; lia]. }
  destruct (decodable nd); simpl.
  2:{ eexists _, [_]. split; [reflexivity | simpl; lia]. }
  case_bool_decide; simpl.
  - destruct (json_loads _) as [v|e]; simpl.
    + exists v, []. rewrite log_nil. split; [done | simpl; lia].
    + destruct e; simpl; eexists _, [_]; (split; [reflexivity | simpl; lia]).
  - eexists _, [_]. split; [reflexivity | simpl; lia].
Qed.

Lemma load_loaded folder w :
  ∃ msgs, _load_metadata folder w
          = (Ok (loaded w folder), log msgs (called (CLoad folder) w)).
Proof.
  destruct (load_frame folder w) as (v & msgs & E & _).
  exists msgs. unfold loaded. by rewrite E.
Qed.

(** What [_load_metadata] returns and prints, by the state of the sidecar. *)
Lemma load_missing folder w :
  files w !! sidecar_path folder = None →
  _load_metadata folder w = (Ok empty_dict, called (CLoad folder) w).
Proof.
  intros E. unfold _load_metadata, os_path_exists. py_unfold. simpl.
  unfold sidecar_path in E. by rewrite E.
Qed.

Lemma load_illegible folder w nd :
  files w !! sidecar_path folder = Some nd → legible nd = false →
  ∃ l, _load_metadata folder w
       = (Ok empty_dict, log [l] (called (CLoad folder) w)).
Proof.
  intros E L. unfold _load_metadata, os_path_exists, read_text. py_unfold. simpl.
  unfold sidecar_path in E. repeat (rewrite E; simpl). unfold legible in L.
  destruct (regular nd); simpl; [|eexists; reflexivity].
  destruct (readable nd); simpl; [|eexists; reflexivity].
  destruct (decodable nd); simpl; [done | eexists; reflexivity].
Qed.

Lemma load_legible folder w nd :
  files w !! sidecar_path folder = Some nd → legible nd = true →
  _load_metadata folder w
  = let text := PyStr.strip (content nd) in
    let w' := called (CLoad folder) w in
    if bool_decide (text ≠ "") then
      match json_loads text with
      | Ok v => (Ok v, w')
      | Raise JSONDecodeError =>
          (Ok empty_dict, log [WarningCorruptedMetadata (sidecar_path folder)] w')
      | Raise e =>
          (Ok empty_dict,
           log [if is_OSError e then ErrorReadingMetadata (sidecar_path folder) e
                else UnexpectedLoadError (sidecar_path folder) e] w')
      end
    else (Ok empty_dict, log [InfoMetadataEmpty (sidecar_path folder)] w').
Proof.
  intros E L. unfold _load_metadata, os_path_exists, read_text. py_unfold. simpl.
  unfold sidecar_path in E. repeat (rewrite E; simpl). unfold legible in L.
  destruct (regular nd), (readable nd), (decodable nd); try done. simpl.
  case_bool_decide; [|done].
  destruct (json_loads _) as [v|e]; [done|]. by destruct e.
Qed.

(** C7, as the code has it: loading never raises and leaves the file system
    alone.  A missing sidecar gives the empty document without any
    diagnostic; an unreadable, empty or unparsable one gives the empty
    document with exactly one diagnostic line; a parsable one gives its
    value. *)
Theorem load_metadata_never_fails folder w :
  ∃ v w',
    _load_metadata folder w = (Ok v, w')
    ∧ files w' = files w ∧ tree w' = tree w
    ∧ (files w !! sidecar_path folder = None →
       v = empty_dict ∧ stdout w' = stdout w)
    ∧ (∀ nd, files w !! sidecar_path folder = Some nd →
         legible nd = false →
         v = empty_dict ∧ ∃ l, stdout w' = (stdout w ++ [l])%list)
    ∧ (∀ nd, files w !! sidecar_path folder = Some nd →
         legible nd = true → PyStr.strip (content nd) = "" →
         v = empty_dict
         ∧ stdout w' = (stdout w ++ [InfoMetadataEmpty (sidecar_path folder)])%list)
    ∧ (∀ nd e, files w !! sidecar_path folder = Some nd →
         legible nd = true → PyStr.strip (content nd) ≠ "" →
         json_loads (PyStr.strip (content nd)) = Raise e →
         v = empty_dict ∧ ∃ l, stdout w' = (stdout w ++ [l])%list)
    ∧ (∀ nd v0, files w !! sidecar_path folder = Some nd →
         legible nd = true → PyStr.strip (content nd) ≠ "" →
         json_loads (PyStr.strip (content nd)) = Ok v0 →
         v = v0 ∧ stdout w' = stdout w).
Proof.
  destruct (files w !! sidecar_path folder) as [nd|] eqn:E.
  - destruct (legible nd) eqn:L.
    + pose proof (load_legible folder w nd E L) as Hl. simpl in Hl.
      case_bool_decide as Hc.
      * destruct (json_loads (PyStr.strip (content nd))) as [v0|e] eqn:Ej.
        -- exists v0, (called (CLoad folder) w).
           repeat split; try done; intros; simplify_eq; try done; congruence.
        -- assert (∃ l, _load_metadata folder w
                        = (Ok empty_dict, log [l] (called (CLoad folder) w)))
             as [l Hl'] by (destruct e; eexists; exact Hl).
           eexists empty_dict, _. split; [exact Hl'|].
           repeat split; try done; intros; simplify_eq; try done;
             try congruence; eexists; reflexivity.
      * eexists empty_dict, _. split; [exact Hl|].
        repeat split; try done; intros; simplify_eq; try done; congruence.
    + destruct (load_illegible folder w nd E L) as [l Hl].
      eexists empty_dict, _. split; [exact Hl|].
      repeat split; try done; intros; simplify_eq; try done;
        try congruence; eexists; reflexivity.
  - exists empty_dict, (called (CLoad folder) w).
    split; [by apply load_missing|]. repeat split; done.
Qed.

End Store.

Section Save.
Context `{lib : PyLib}.

Lemma save_written folder metadata w :
  folder ≠ "" → current_fault w = NoFault →
  _save_metadata folder metadata w
  = (Ok tt, put_content (sidecar_path folder) (json_dumps 4 metadata)
              (make_dir folder (after_save_call folder w))).
Proof.
  intros Hf Hc. unfold _save_metadata, next_fault, os_makedirs, write_text.
  py_unfold. simpl. unfold current_fault in *. simpl. rewrite Hc.
  by rewrite bool_decide_false.
Qed.

Lemma save_cut_short folder metadata w e n :
  folder ≠ "" → current_fault w = DumpRaises e n →
  ∃ l, _save_metadata folder metadata w
       = (Ok tt, log [l] (put_content (sidecar_path folder)
                            (String.substring 0 n (json_dumps 4 metadata))
                            (make_dir folder (after_save_call folder w)))).
Proof.
  intros Hf Hc. unfold _save_metadata, next_fault, os_makedirs, write_text.
  py_unfold. simpl. unfold current_fault in *. simpl. rewrite Hc.
  rewrite bool_decide_false by done. simpl.
  destruct e; simpl; eexists; reflexivity.
Qed.

Lemma save_not_opened folder metadata w e :
  folder ≠ "" → current_fault w = OpenRaises e →
  ∃ l, _save_metadata folder metadata w
       = (Ok tt, log [l] (make_dir folder (after_save_call folder w))).
Proof.
  intros Hf Hc. unfold _save_metadata, next_fault, os_makedirs, write_text.
  py_unfold. simpl. unfold current_fault in *. simpl. rewrite Hc.
  rewrite bool_decide_false by done. simpl.
  destruct e; simpl; eexists; reflexivity.
Qed.

Lemma save_no_folder folder metadata w :
  folder = "" ∨ (∃ e, current_fault w = MakedirsRaises e) →
  ∃ l, _save_metadata folder metadata w
       = (Ok tt, log [l] (after_save_call folder w)).
Proof.
  intros H. unfold _save_metadata, next_fault, os_makedirs, write_text.
  py_unfold. simpl. unfold current_fault in *. simpl.
  case_bool_decide; simpl; [eexists; reflexivity|].
  destruct H as [?|[e He]]; [done|]. rewrite He. simpl.
  destruct e; simpl; eexists; reflexivity.
Qed.

Lemma save_cases folder w :
  (folder = "" ∨ ∃ e, current_fault w = MakedirsRaises e)
  ∨ folder ≠ "" ∧ ((∃ e, current_fault w = OpenRaises e)
                   ∨ (∃ e n, current_fault w = DumpRaises e n)
                   ∨ current_fault w = NoFault).
Proof.
  destruct (decide (folder = "")); [by left; left|].
  destruct (current_fault w) eqn:E; eauto 8.
Qed.

Lemma put_content_other p text w q :
  q ≠ p → files (put_content p text w) !! q = files w !! q.
Proof. intros. unfold put_content. simpl. by rewrite lookup_insert_ne. Qed.

Lemma put_content_same p text w :
  content <$> files (put_content p text w) !! p = Some text.
Proof.
  unfold put_content. simpl. rewrite lookup_insert_eq.
  by destruct (files w !! p).
Qed.

Lemma make_dir_is_dir folder w : is_Some (tree (make_dir folder w) !! folder).
Proof.
  unfold make_dir. simpl. destruct (tree w !! folder) eqn:E; [by rewrite E|].
  rewrite lookup_insert_eq. eauto.
Qed.

Lemma put_content_keeps_dir p text w folder :
  is_Some (tree w !! folder) → is_Some (tree (put_content p text w) !! folder).
Proof.
  unfold put_content. simpl. intros [x Hx].
  destruct (decide (p.1 = folder)) as [->|].
  - rewrite lookup_alter_eq, Hx. simpl. eauto.
  - rewrite lookup_alter_ne by done. eauto.
Qed.

Lemma save_never_raises folder metadata w :
  ∃ w', _save_metadata folder metadata w = (Ok tt, w')
        ∧ ∀ p, p ≠ sidecar_path folder → files w' !! p = files w !! p.
Proof.
  destruct (save_cases folder w)
    as [H|[Hf [[e H]|[(e & n & H)|H]]]].
  - destruct (save_no_folder folder metadata w H) as [l ->]. eauto.
  - destruct (save_not_opened folder metadata w e Hf H) as [l ->]. eauto.
  - destruct (save_cut_short folder metadata w e n Hf H) as [l ->].
    eexists; split; [done|]. intros p Hp. simpl. by rewrite lookup_insert_ne.
  - rewrite (save_written folder metadata w Hf H).
    eexists; split; [done|]. intros p Hp. simpl. by rewrite lookup_insert_ne.
Qed.

(** C1, as the code has it: saving never raises and touches no file but the
    sidecar.  The folder is created first, so it exists afterwards even when
    the file could not be opened.  When creating the folder or opening the
    file fails, no file changes and one diagnostic is printed.  When the
    failure comes while the document is written, the file was already
    truncated by opening it: it then holds the part of the new text that
    reached it, not its prior content.  Without a failure it holds the new
    text and nothing is printed. *)
Theorem save_metadata_effect folder metadata w :
  ∃ w',
    _save_metadata folder metadata w = (Ok tt, w')
    ∧ (∀ p, p ≠ sidecar_path folder → files w' !! p = files w !! p)
    ∧ (folder ≠ "" → (∀ e, current_fault w ≠ MakedirsRaises e) →
       is_Some (tree w' !! folder))
    ∧ (folder = "" ∨ (∃ e, current_fault w = MakedirsRaises e)
       ∨ (∃ e, current_fault w = OpenRaises e) →
       files w' = files w ∧ ∃ l, stdout w' = (stdout w ++ [l])%list)
    ∧ (folder ≠ "" → ∀ e n, current_fault w = DumpRaises e n →
       sidecar_content w' folder
       = Some (String.substring 0 n (json_dumps 4 metadata))
       ∧ ∃ l, stdout w' = (stdout w ++ [l])%list)
    ∧ (folder ≠ "" → current_fault w = NoFault →
       sidecar_content w' folder = Some (json_dumps 4 metadata)
       ∧ stdout w' = stdout w).
Proof.
  destruct (save_cases folder w) as [H|[Hf [[e H]|[(e & n & H)|H]]]].
  - destruct (save_no_folder folder metadata w H) as [l ->].
    eexists; split; [done|].
    repeat split; try done; intros; try (eexists; reflexivity);
      destruct H as [?|[e' He']]; try done; try congruence.
  - destruct (save_not_opened folder metadata w e Hf H) as [l ->].
    eexists; split; [done|].
    repeat split; try done; try congruence; intros;
      try (eexists; reflexivity); try apply make_dir_is_dir.
  - destruct (save_cut_short folder metadata w e n Hf H) as [l ->].
    eexists; split; [done|].
    repeat split; try done; try congruence; intros;
      try (eexists; reflexivity);
      try (apply put_content_keeps_dir, make_dir_is_dir);
      try (simpl; by rewrite lookup_insert_ne);
      try (by repeat match goal with
                     | X : _ ∨ _ |- _ => destruct X
                     | X : ∃ _, _ |- _ => destruct X
                     end; congruence).
    match goal with X : current_fault w = DumpRaises _ _ |- _ =>
      rewrite H in X; injection X as <- <- end.
    unfold sidecar_content. apply put_content_same.
  - rewrite (save_written folder metadata w Hf H).
    eexists; split; [done|].
    repeat split; try done; try congruence; intros;
      try (apply put_content_keeps_dir, make_dir_is_dir);
      try (simpl; by rewrite lookup_insert_ne);
      try (by repeat match goal with
                     | X : _ ∨ _ |- _ => destruct X
                     | X : ∃ _, _ |- _ => destruct X
                     end; congruence).
    unfold sidecar_content. apply put_content_same.
Qed.

End Save.

(** C1 fails as stated: a save whose write fails after the file was opened
    leaves the sidecar empty, although it held a document before. *)
Lemma save_failed_write_loses_prior_content :
  let w := Example.docs [DumpRaises OSError 0] in
  let r := _save_metadata "docs" (Example.report_tags ["a"; "b"; "c"]) w in
  sidecar_content w "docs" = Some Example.tagged_ab
  ∧ r.1 = Ok tt
  ∧ sidecar_content r.2 "docs" = Some ""
  ∧ sidecar_content r.2 "docs" ≠ sidecar_content w "docs".
Proof. vm_compute. repeat split; congruence. Qed.

(** ** The walk has fuel enough *)

Lemma string_length_app a b :
  String.length (a ++ b) = (String.length a + String.length b)%nat.
Proof. induction a as [|c a IH]; simpl; [done | by rewrite IH]. Qed.

Lemma os_walk_delete n t top k :
  (String.length k < String.length top)%nat →
  os_walk n (delete k t) top = os_walk n t top.
Proof.
  revert top. induction n as [|n IH]; intros top Hk; simpl; [done|].
  rewrite lookup_delete_ne by (intros ->; lia).
  destruct (t !! top) as [[dirs names]|]; [|done].
  f_equal. induction dirs as [|d dirs IHd]; simpl; [done|].
  rewrite IHd. f_equal. apply IH.
  rewrite string_length_app. simpl. lia.
Qed.

(** With more fuel than the tree has folders, the walk is the same as with
    one more than that number: [os_walk (S (size t)) t] is the whole walk. *)
Lemma os_walk_fuel t :
  ∀ n top, (size t < n)%nat → os_walk n t top = os_walk (S (size t)) t top.
Proof.
  remember (size t) as k eqn:Hk. revert t Hk.
  induction k as [k IH] using lt_wf_ind. intros t Hk [|n] top Hn; [lia|].
  simpl. destruct (t !! top) as [[dirs names]|] eqn:E; [|done].
  f_equal.
  assert (size (delete top t) < k)%nat as Hlt.
  { rewrite map_size_delete, E. subst k.
    assert (size t ≠ 0%nat); [|lia].
    intros H0. apply map_size_empty_iff in H0. subst t.
    by rewrite lookup_empty in E. }
  clear E. induction dirs as [|d dirs IHd]; simpl; [done|].
  rewrite IHd. f_equal.
  assert (String.length top < String.length (top ++ "/" ++ d))%nat as Hlen
    by (rewrite string_length_app; simpl; lia).
  rewrite <- (os_walk_delete n t _ top Hlen).
  rewrite <- (os_walk_delete k t _ top Hlen).
  rewrite (IH _ Hlt (delete top t) eq_refl n) by lia.
  rewrite (IH _ Hlt (delete top t) eq_refl k) by lia.
  done.
Qed.

(** ** Dictionaries, tag sets and sorting *)

Lemma dict_get_set_eq k v d : dict_get k (dict_set k v d) = Some v.
Proof.
  induction d as [|[k' v'] d IH]; simpl.
  - by rewrite String.eqb_refl.
  - destruct (String.eqb k k') eqn:E; simpl; rewrite E; [done | exact IH].
Qed.

Lemma dict_get_set_ne k k' v d :
  k ≠ k' → dict_get k' (dict_set k v d) = dict_get k' d.
Proof.
  intros Hne. induction d as [|[k0 v0] d IH]; simpl.
  - by apply String.eqb_neq in Hne; rewrite String.eqb_sym, Hne.
  - destruct (String.eqb k k0) eqn:E; simpl.
    + apply String.eqb_eq in E. subst k0.
      assert (String.eqb k' k = false) as ->; [|done].
      apply String.eqb_neq. congruence.
    + by rewrite IH.
Qed.

Lemma dict_set_set k v1 v2 d : dict_set k v2 (dict_set k v1 d) = dict_set k v2 d.
Proof.
  induction d as [|[k' v'] d IH]; simpl.
  - by rewrite String.eqb_refl.
  - destruct (String.eqb k k') eqn:E; simpl; rewrite E; [done | by rewrite IH].
Qed.

Lemma all_str_fmap (l : list string) : PyOp.all_str (JStr <$> l) = Some l.
Proof.
  induction l as [|x l IH]; [done|].
  rewrite fmap_cons. cbn [PyOp.all_str]. by rewrite IH.
Qed.

Lemma add_all_strings l ss s :
  PyOp.all_str l = Some ss →
  PySet.add_all l s = Ok (list_to_set ss ∪ s.1, s.2).
Proof.
  revert ss s. induction l as [|x l IH]; intros ss s; simpl.
  - intros [= <-]. simpl. destruct s. f_equal. f_equal. set_solver.
  - destruct x; try done.
    destruct (PyOp.all_str l) as [ss'|] eqn:E; [|done]. intros [= <-].
    simpl. unfold mbind, result_bind. rewrite (IH ss' _ eq_refl). simpl.
    f_equal. f_equal. set_solver.
Qed.

Lemma set_of_strings l ss :
  PyOp.all_str l = Some ss →
  PySet.of_json (JList l) = Ok (list_to_set ss, []).
Proof.
  intros H. simpl. rewrite (add_all_strings l ss _ H). simpl.
  f_equal. f_equal. set_solver.
Qed.

Lemma ascii_compare_lt_trans x y z :
  Ascii.compare x y = Lt → Ascii.compare y z = Lt → Ascii.compare x z = Lt.
Proof.
  unfold Ascii.compare. rewrite !N.compare_lt_iff. lia.
Qed.

Lemma string_compare_lt_trans a b c :
  String.compare a b = Lt → String.compare b c = Lt → String.compare a c = Lt.
Proof.
  revert b c. induction a as [|x a IH]; intros [|y b] [|z c]; simpl; try done.
  destruct (Ascii.compare x y) eqn:Exy; try done;
    destruct (Ascii.compare y z) eqn:Eyz; try done.
  - apply Ascii.compare_eq_iff in Exy, Eyz. subst.
    unfold Ascii.compare at 1. rewrite N.compare_refl. apply IH.
  - apply Ascii.compare_eq_iff in Exy. subst. by rewrite Eyz.
  - apply Ascii.compare_eq_iff in Eyz. subst. by rewrite Exy.
  - by rewrite (ascii_compare_lt_trans x y z).
Qed.

#[global] Instance str_le_total : Total PySet.str_le.
Proof. intros a b. apply String.leb_total. Qed.

#[global] Instance str_le_trans : Transitive PySet.str_le.
Proof.
  intros a b c. unfold PySet.str_le, String.leb.
  destruct (String.compare a b) eqn:Eab; try done;
    destruct (String.compare b c) eqn:Ebc; try done; intros _ _.
  - apply String.compare_eq_iff in Eab. subst. by rewrite Ebc.
  - apply String.compare_eq_iff in Eab. subst. by rewrite Ebc.
  - apply String.compare_eq_iff in Ebc. subst. by rewrite Eab.
  - by rewrite (string_compare_lt_trans a b c).
Qed.

(** [sorted] lists every tag of the set once, in order. *)
Lemma sorted_tags_spec (tags : gset string) :
  Sorted PySet.str_le (sorted_tags tags)
  ∧ NoDup (sorted_tags tags)
  ∧ list_to_set (sorted_tags tags) = tags.
Proof.
  unfold sorted_tags. split; [apply Sorted_merge_sort, _|]. split.
  - rewrite merge_sort_Permutation. apply NoDup_elements.
  - apply set_eq. intros x. rewrite elem_of_list_to_set.
    rewrite merge_sort_Permutation. apply elem_of_elements.
Qed.

(** ** The tag editor on one file *)

Section Tagging.
Context `{lib : PyLib}.

Lemma tag_path_skips add remove p n w :
  taggable w p = false → tag_path add remove p n w = (Ok n, w).
Proof.
  unfold taggable, tag_path, os_path_isfile, os_path_basename. py_unfold.
  intros H. destruct (from_option regular false (files w !! p)); simpl in *.
  - apply negb_false_iff in H. apply bool_decide_eq_true in H.
    by rewrite bool_decide_true.
  - done.
Qed.

Lemma save_ok folder metadata w :
  (_save_metadata folder metadata w).1 = Ok tt.
Proof. by destruct (save_never_raises folder metadata w) as (w' & -> & _). Qed.

Lemma sorted_tags_doc d key e tags :
  dict_get key d = Some (JDict e) →
  PyOp.setitem (JDict e) "tags" (JList (JStr <$> tags))
    ≫= PyOp.setitem (JDict d) key
  = Ok (with_tags (JDict d) key tags).
Proof. intros Eg. unfold with_tags. by rewrite Eg. Qed.

(** The set algebra and the write, on a set of strings. *)
Lemma update_tags_strings add remove p metadata entry doc (current : gset string)
    n w :
  (PyOp.setitem entry "tags"
     (JList (JStr <$> sorted_tags ((current ∪ add) ∖ remove)))
   ≫= PyOp.setitem metadata p.2) = Ok doc →
  update_tags add remove p metadata entry (current, []) n w
  = if bool_decide ((current ∪ add) ∖ remove ≠ current)
    then (Ok (S n),
          log [UpdatedTags p (sorted_tags ((current ∪ add) ∖ remove))]
            (_save_metadata p.1 doc w).2)
    else (Ok n, log [NoTagChanges p current] w).
Proof.
  intros Hdoc. unfold update_tags, os_path_dirname, os_path_basename.
  unfold PySet.neqb, PySet.union, PySet.difference, PySet.sorted,
    PySet.join_items. cbn [fst snd].
  case_bool_decide; [|done].
  fold (sorted_tags ((current ∪ add) ∖ remove)).
  py_unfold.
  destruct (PyOp.setitem entry _ _) as [entry'|]; [|done]. simpl in Hdoc.
  rewrite Hdoc. cbn [PyOp.join_items]. rewrite all_str_fmap.
  pose proof (save_ok p.1 doc w) as Hok.
  destruct (_save_metadata p.1 doc w) as [r ws]. simpl in Hok. by subst r.
Qed.

(** On a document of the shape the program writes, the editor either leaves
    the world alone but for its messages, or saves the document with the
    sorted tags in the entry of the file. *)
Lemma tag_path_well_formed add remove p n w ss :
  taggable w p = true →
  entry_tags (loaded w p.1) p.2 = Some ss →
  ∃ msgs,
    tag_path add remove p n w =
      let wl := log msgs (called (CLoad p.1) w) in
      let current : gset string := list_to_set ss in
      let updated := (current ∪ add) ∖ remove in
      if bool_decide (updated ≠ current) then
        let tags := sorted_tags updated in
        (Ok (S n),
         log [UpdatedTags p tags]
           (_save_metadata p.1 (with_tags (loaded w p.1) p.2 tags) wl).2)
      else (Ok n, log [NoTagChanges p current] wl).
Proof.
  intros Ht He. destruct (load_loaded p.1 w) as [msgs Hl]. exists msgs.
  unfold taggable in Ht. apply andb_true_iff in Ht as [Hr Hn].
  apply negb_true_iff in Hn. apply bool_decide_eq_false in Hn.
  unfold tag_path, os_path_isfile, os_path_basename, os_path_dirname in *.
  py_unfold. rewrite Hr. rewrite (bool_decide_false _ Hn).
  cbn [negb orb]. cbv beta iota. rewrite Hl.
  destruct (loaded w p.1) as [| | | | |d] eqn:Ed; try done.
  simpl in He. cbv zeta.
  destruct (dict_get p.2 d) as [entry|] eqn:Eg.
  - destruct entry as [| | | | |e]; try done.
    cbn [PyOp.contains]. rewrite Eg. rewrite bool_decide_true by eauto.
    cbv beta iota. cbn [PyOp.getitem]. rewrite Eg. cbv beta iota.
    cbn [PyOp.get].
    destruct (dict_get "tags" e) as [stored|] eqn:Et;
      cbn [default from_option id].
    + destruct stored as [| | | |l|]; try done.
      rewrite (set_of_strings l ss He). cbv beta iota.
      erewrite update_tags_strings; [done | by apply sorted_tags_doc].
    + injection He as <-.
      change (PySet.of_json (JList [])) with (@Ok PySet.t (∅, [])).
      cbv beta iota.
      erewrite update_tags_strings; [done | by apply sorted_tags_doc].
  - injection He as <-.
    cbn [PyOp.contains]. rewrite Eg. rewrite bool_decide_false by (by intros [? ?]).
    cbv beta iota. cbn [PyOp.setitem PyOp.getitem]. rewrite dict_get_set_eq.
    cbv beta iota.
    cbn [PyOp.get dict_get String.eqb Ascii.eqb Bool.eqb default from_option id].
    change (PySet.of_json (JList [])) with (@Ok PySet.t (∅, [])).
    cbv beta iota.
    erewrite update_tags_strings; [done|].
    unfold with_tags. rewrite Eg. simpl. by rewrite dict_set_set.
Qed.

Lemma save_frame folder metadata w :
  ∃ w', _save_metadata folder metadata w = (Ok tt, w')
        ∧ calls w' = (calls w ++ [CSave folder])%list
        ∧ ∀ q, q.2 ≠ METADATA_FILE → files w' !! q = files w !! q.
Proof.
  destruct (save_cases folder w) as [H|[Hf [[e H]|[(e & n & H)|H]]]].
  - destruct (save_no_folder folder metadata w H) as [l ->]. eauto.
  - destruct (save_not_opened folder metadata w e Hf H) as [l ->]. eauto.
  - destruct (save_cut_short folder metadata w e n Hf H) as [l ->].
    eexists; split; [done|]. split; [done|]. intros q Hq. simpl.
    rewrite lookup_insert_ne; [done|]. intros <-. done.
  - rewrite (save_written folder metadata w Hf H).
    eexists; split; [done|]. split; [done|]. intros q Hq. simpl.
    rewrite lookup_insert_ne; [done|]. intros <-. done.
Qed.

(** On any document: a file that passes the filter costs one load, followed
    by at most one save, and a save is counted as one processed file. *)
Lemma tag_path_calls add remove p n w r w' :
  tag_path add remove p n w = (r, w') →
  (∀ q, q.2 ≠ METADATA_FILE → files w' !! q = files w !! q)
  ∧ if taggable w p
    then ∃ saved : bool,
        calls w' = (calls w ++ CLoad p.1 :: (if saved then [CSave p.1] else []))%list
        ∧ ∀ n', r = Ok n' → n' = if saved then S n else n
    else r = Ok n ∧ w' = w.
Proof.
  destruct (taggable w p) eqn:Ht.
  2:{ rewrite (tag_path_skips _ _ _ _ _ Ht). by intros [= <- <-]. }
  unfold taggable in Ht. apply andb_true_iff in Ht as [Hr Hn].
  apply negb_true_iff in Hn. apply bool_decide_eq_false in Hn.
  destruct (load_frame p.1 w) as (metadata & msgs & Hl & _).
  unfold tag_path, os_path_isfile, os_path_basename, os_path_dirname in *.
  py_unfold. rewrite Hr. rewrite (bool_decide_false _ Hn).
  cbn [negb orb]. cbv beta iota. rewrite Hl.
  intros H.
  assert (∀ e, (Raise e, log msgs (called (CLoad p.1) w)) = (r, w') →
    (∀ q, q.2 ≠ METADATA_FILE → files w' !! q = files w !! q)
    ∧ ∃ saved : bool,
        calls w' = (calls w ++ CLoad p.1 :: (if saved then [CSave p.1] else []))%list
        ∧ ∀ n', r = Ok n' → n' = if saved then S n else n) as Stop.
  { intros e [= <- <-]. split; [done|]. by exists false. }
  assert (∀ m : json,
    (match PyOp.getitem m p.2 with
     | Ok entry =>
         match PyOp.get entry "tags" (JList []) with
         | Ok stored =>
             match PySet.of_json stored with
             | Ok current =>
                 update_tags add remove p m entry current n
                   (log msgs (called (CLoad p.1) w))
             | Raise e => (Raise e, log msgs (called (CLoad p.1) w))
             end
         | Raise e => (Raise e, log msgs (called (CLoad p.1) w))
         end
     | Raise e => (Raise e, log msgs (called (CLoad p.1) w))
     end) = (r, w') →
    (∀ q, q.2 ≠ METADATA_FILE → files w' !! q = files w !! q)
    ∧ ∃ saved : bool,
        calls w' = (calls w ++ CLoad p.1 :: (if saved then [CSave p.1] else []))%list
        ∧ ∀ n', r = Ok n' → n' = if saved then S n else n) as Rest.
  { intros m. unfold update_tags, os_path_basename, os_path_dirname. py_unfold.
    intros H'.
    destruct (PyOp.getitem m p.2) as [entry|]; [|by eapply Stop].
    destruct (PyOp.get entry "tags" (JList [])) as [stored|]; [|by eapply Stop].
    destruct (PySet.of_json stored) as [current|]; [|by eapply Stop].
    destruct (PySet.neqb _ current).
    - destruct (PySet.sorted _) as [tags|]; [|by eapply Stop].
      destruct (PyOp.setitem entry _ _) as [entry'|]; [|by eapply Stop].
      destruct (PyOp.setitem m _ _) as [m'|]; [|by eapply Stop].
      destruct (save_frame p.1 m' (log msgs (called (CLoad p.1) w)))
        as (ws & Hs & Hc & Hf).
      rewrite Hs in H'.
      destruct (PyOp.join_items _) as [shown|]; injection H' as <- <-.
      + split; [exact Hf|]. exists true. simpl. rewrite Hc. simpl.
        split; [by rewrite <- app_assoc | by intros ? [= <-]].
      + split; [exact Hf|]. exists true. rewrite Hc. simpl.
        split; [by rewrite <- app_assoc | done].
    - destruct (PySet.join_items current) as [shown|]; [|by eapply Stop].
      injection H' as <- <-. split; [done|]. exists false. simpl.
      split; [done | by intros ? [= <-]]. }
  destruct (PyOp.contains _ metadata) as [[|]|]; [| |by eapply Stop].
  - by apply (Rest metadata).
  - simpl in H.
    destruct (PyOp.setitem metadata _ _) as [m|]; [|by eapply Stop].
    by apply (Rest m).
Qed.

Lemma taggable_frame w w' :
  (∀ q, q.2 ≠ METADATA_FILE → files w' !! q = files w !! q) →
  ∀ p, taggable w' p = taggable w p.
Proof.
  intros Hf p. unfold taggable, os_path_basename.
  case_bool_decide as Hp; simpl; [by rewrite !andb_false_r|].
  by rewrite (Hf p Hp).
Qed.

(** The loop of [tag_file]: one load for each path that passes the filter,
    and one save for each of those whose tags changed. *)
Lemma tag_loop_calls add remove targets n w n' w' :
  for_in targets (tag_path add remove) n w = (Ok n', w') →
  (∀ q, q.2 ≠ METADATA_FILE → files w' !! q = files w !! q)
  ∧ loads w' = (loads w ++ (CLoad ∘ fst <$> filter (taggable w) targets))%list
  ∧ ∃ changed,
      changed `sublist_of` filter (taggable w) targets
      ∧ saves w' = (saves w ++ (CSave ∘ fst <$> changed))%list
      ∧ n' = (n + length changed)%nat.
Proof.
  revert n w. induction targets as [|p targets IH]; intros n w; simpl.
  - intros [= <- <-]. split; [done|]. split; [by rewrite app_nil_r|].
    exists []. simpl. by rewrite app_nil_r, Nat.add_0_r.
  - unfold mbind at 1. unfold Py_bind at 1.
    destruct (tag_path add remove p n w) as [r w1] eqn:E1.
    destruct (tag_path_calls _ _ _ _ _ _ _ E1) as [Hf1 Hc1].
    destruct r as [n1|]; [|done]. intros E2.
    destruct (IH _ _ E2) as (Hf2 & Hl2 & changed & Hsub & Hs2 & ->).
    pose proof (taggable_frame w w1 Hf1) as Ht.
    assert (filter (taggable w1) targets = filter (taggable w) targets) as Hfilt.
    { apply list_filter_iff. intros q. by rewrite (Ht q). }
    rewrite Hfilt in *. clear Hfilt.
    split; [intros q Hq; by rewrite (Hf2 q Hq), (Hf1 q Hq)|].
    rewrite filter_cons.
    destruct (taggable w p) eqn:Etp.
    + destruct Hc1 as (saved & Hc1 & Hn1). specialize (Hn1 _ eq_refl). subst n1.
      rewrite decide_True by done.
      unfold loads, saves in *. rewrite Hl2, Hs2, Hc1.
      rewrite !filter_app, !filter_cons. simpl.
      split.
      * destruct saved; simpl; rewrite ?filter_nil, <- ?app_assoc; simpl; done.
      * destruct saved.
        -- exists (p :: changed). split; [by apply sublist_skip|].
           simpl. rewrite <- app_assoc. simpl.
           split; [done | lia].
        -- exists changed. split; [by apply sublist_cons|].
           simpl. rewrite app_nil_r. split; [done | lia].
    + destruct Hc1 as [[= ->] ->]. rewrite decide_False by (by intros []).
      split; [done|]. by exists changed.
Qed.

Lemma loaded_missing w folder :
  files w !! sidecar_path folder = None → loaded w folder = empty_dict.
Proof. intros H. unfold loaded. by rewrite (load_missing folder w H). Qed.

Lemma saves_log msgs w : saves (log msgs w) = saves w.
Proof. done. Qed.

Lemma saves_load folder w : saves (called (CLoad folder) w) = saves w.
Proof.
  unfold saves. simpl. rewrite filter_app. simpl.
  rewrite filter_cons, decide_False by (by intros []).
  by rewrite filter_nil, app_nil_r.
Qed.

(** Where there is no sidecar, a delta that adds nothing but what it removes
    changes no file. *)
Lemma tag_path_noop add remove p n w :
  files w !! sidecar_path p.1 = None → add ∖ remove = ∅ →
  ∃ w', tag_path add remove p n w = (Ok n, w')
        ∧ files w' = files w ∧ tree w' = tree w ∧ saves w' = saves w.
Proof.
  intros Hm Hd. destruct (taggable w p) eqn:Ht.
  - destruct (tag_path_well_formed add remove p n w [] Ht) as [msgs ->].
    { by rewrite (loaded_missing _ _ Hm). }
    simpl. rewrite bool_decide_false.
    + eexists. split; [done|]. repeat split; try done.
      by rewrite !saves_log, saves_load.
    + intros H. apply H. set_solver.
  - rewrite (tag_path_skips _ _ _ _ _ Ht). eauto.
Qed.

Lemma tag_loop_noop add remove targets n w :
  (∀ p, p ∈ targets → files w !! sidecar_path p.1 = None) →
  add ∖ remove = ∅ →
  ∃ w', for_in targets (tag_path add remove) n w = (Ok n, w')
        ∧ files w' = files w ∧ tree w' = tree w ∧ saves w' = saves w.
Proof.
  revert w. induction targets as [|p targets IH]; intros w Hm Hd; simpl.
  - by exists w.
  - destruct (tag_path_noop add remove p n w) as (w1 & E1 & Hf1 & Ht1 & Hs1);
      [apply Hm; left | done |].
    destruct (IH w1) as (w2 & E2 & Hf2 & Ht2 & Hs2); [|done|].
    { intros q Hq. rewrite Hf1. apply Hm. by right. }
    exists w2. unfold mbind, Py_bind. rewrite E1, E2.
    repeat split; congruence.
Qed.

Lemma target_paths_of_pure file_path recursive w :
  ∃ o, target_paths_of file_path recursive w = (Ok o, w)
       ∧ (files w !! file_path = None → tree w !! path_str file_path = None →
          o = None).
Proof.
  unfold target_paths_of, os_path_isfile, os_path_isdir, os_listdir. py_unfold.
  destruct (files w !! file_path) as [nd|] eqn:Ef; simpl;
    [destruct (regular nd);
       [eexists; split; [reflexivity | intros; congruence]|]|];
    (destruct (tree w !! path_str file_path) as [[dirs names]|] eqn:Et; simpl;
     [destruct recursive; rewrite ?Et; simpl|]);
    eexists; (split; [reflexivity | intros; congruence]).
Qed.

(** [tag_file] is its loop over [targets_of], between two messages. *)
Lemma tag_file_unfold file_path add_str remove_str recursive w :
  ∃ l,
    tag_file file_path add_str remove_str recursive w
    = match for_in (targets_of w file_path recursive)
              (tag_path (parse_tags add_str) (parse_tags remove_str)) O w with
      | (Ok n, w') => (Ok tt, log [l n] w')
      | (Raise e, w') => (Raise e, w')
      end.
Proof.
  destruct (target_paths_of_pure file_path recursive w) as (o & Ho & Hnone).
  unfold tag_file, targets_of. rewrite Ho. py_unfold.
  destruct (bool_decide (is_Some (files w !! file_path))
            || bool_decide (is_Some (tree w !! path_str file_path))) eqn:Ex;
    simpl.
  - rewrite Ho. destruct o as [targets|]; simpl.
    + exists FinishedTagging.
      by destruct (for_in targets _ 0%nat w) as [[n|e] w'].
    + by exists (fun _ => ErrorNeitherFileNorDirectory file_path).
  - apply orb_false_iff in Ex as [E1 E2].
    apply bool_decide_eq_false in E1, E2.
    rewrite Hnone.
    + by exists (fun _ => ErrorPathNotFound file_path).
    + destruct (files w !! file_path); [by destruct E1|done].
    + destruct (tree w !! path_str file_path); [by destruct E2|done].
Qed.

Lemma update_tags_trace add remove p metadata entry current n w n' w' :
  update_tags add remove p metadata entry current n w = (Ok n', w') →
  calls w'
  = (calls w ++ if bool_decide ((current.1 ∪ add) ∖ remove ≠ current.1)
                then [CSave p.1] else [])%list.
Proof.
  unfold update_tags, PySet.neqb, PySet.difference, PySet.union,
    os_path_dirname, os_path_basename. cbn [fst snd]. py_unfold.
  destruct (bool_decide ((current.1 ∪ add) ∖ remove ≠ current.1)).
  - destruct (PySet.sorted _) as [tags|]; [|done].
    destruct (PyOp.setitem entry _ _) as [entry'|]; [|done].
    destruct (PyOp.setitem metadata _ _) as [m'|]; [|done].
    destruct (save_frame p.1 m' w) as (ws & Hs & Hc & _). rewrite Hs.
    destruct (PyOp.join_items _) as [shown|]; [|done].
    intros [= _ <-]. exact Hc.
  - destruct (PySet.join_items current) as [shown|]; [|done].
    intros [= _ <-]. simpl. by rewrite app_nil_r.
Qed.

(** A file that passes the filter costs one load, followed by one save
    exactly when the delta changes the tags stored for it. *)
Lemma tag_path_trace add remove p n w n' w' :
  taggable w p = true →
  tag_path add remove p n w = (Ok n', w') →
  calls w'
  = (calls w ++ CLoad p.1 :: if tag_set_changes add remove (loaded w p.1) p.2
                             then [CSave p.1] else [])%list.
Proof.
  intros Ht. unfold taggable in Ht. apply andb_true_iff in Ht as [Hr Hn].
  apply negb_true_iff in Hn.
  destruct (load_loaded p.1 w) as [msgs Hl].
  unfold tag_path, os_path_isfile, os_path_dirname. 
  unfold mbind at 1. unfold Py_bind at 1. unfold ask at 1.
  unfold mret at 1. unfold Py_ret at 1.
  unfold mbind at 1. unfold Py_bind at 1.
  rewrite Hr, Hn. cbn [negb orb].
  unfold mbind at 1. unfold Py_bind at 1. rewrite Hl.
  unfold tag_set_changes, stored_tag_set.
  set (m := loaded w p.1). set (wl := log msgs (called (CLoad p.1) w)).
  assert (∀ m' entry current,
            update_tags add remove p m' entry current n wl = (Ok n', w') →
            calls w'
            = (calls w ++ CLoad p.1
                 :: if bool_decide ((current.1 ∪ add) ∖ remove ≠ current.1)
                    then [CSave p.1] else [])%list) as Hup.
  { intros m' entry current E. rewrite (update_tags_trace _ _ _ _ _ _ _ _ _ _ E).
    subst wl. simpl. by rewrite <- app_assoc. }
  unfold os_path_basename. py_unfold.
  destruct (PyOp.contains (JStr p.2) m) as [[|]|] eqn:Ec; [| |done].
  - destruct (PyOp.getitem m p.2) as [entry|]; [|done].
    destruct (PyOp.get entry "tags" (JList [])) as [stored|]; [|done].
    destruct (PySet.of_json stored) as [current|]; [|done].
    apply Hup.
  - destruct (PyOp.setitem m p.2 _) as [m'|] eqn:Es; [|done].
    destruct m as [| | | | |d]; try done. injection Es as <-.
    cbn [PyOp.getitem]. rewrite dict_get_set_eq. cbn.
    apply Hup.
Qed.

(** The loop of [tag_file] makes the calls that [store_calls] tells. *)
Lemma tag_loop_trace add remove targets n w n' w' :
  for_in targets (tag_path add remove) n w = (Ok n', w') →
  calls w' = (calls w ++ store_calls add remove targets n w)%list.
Proof.
  revert n w. induction targets as [|p targets IH]; intros n w.
  - intros [= <- <-]. simpl. by rewrite app_nil_r.
  - cbn [for_in store_calls]. unfold mbind at 1. unfold Py_bind at 1.
    destruct (tag_path add remove p n w) as [[n1|e] w1] eqn:E1; [|done].
    intros E2. rewrite (IH _ _ E2). unfold os_path_dirname, os_path_basename.
    destruct (taggable w p) eqn:Ht.
    + rewrite (tag_path_trace _ _ _ _ _ _ _ Ht E1). by rewrite <- app_assoc.
    + rewrite (tag_path_skips _ _ _ _ _ Ht) in E1. injection E1 as <- <-.
      done.
Qed.

(** C4, as the code has it: a completed tag operation loads the sidecar
    once for every file it goes through (every regular file among its
    targets but the sidecar itself), in order, and saves it once, right
    after that load, exactly for those files for which the delta changes the
    tags that the sidecar stores at that moment: a folder with several files
    is loaded, and saved, again for each of them. *)
Theorem tag_file_store_calls file_path add_str remove_str recursive w w' :
  tag_file file_path add_str remove_str recursive w = (Ok tt, w') →
  let targets := filter (taggable w) (targets_of w file_path recursive) in
  loads w' = (loads w ++ (CLoad ∘ fst <$> targets))%list
  ∧ (∃ changed,
        changed `sublist_of` targets
        ∧ saves w' = (saves w ++ (CSave ∘ fst <$> changed))%list)
  ∧ calls w'
    = (calls w ++ store_calls (parse_tags add_str) (parse_tags remove_str)
                    (targets_of w file_path recursive) O w)%list.
Proof.
  destruct (tag_file_unfold file_path add_str remove_str recursive w) as [l ->].
  destruct (for_in _ _ _ w) as [[n|e] w1] eqn:E; [|done].
  intros [= <-]. simpl.
  destruct (tag_loop_calls _ _ _ _ _ _ _ E) as (_ & Hl & changed & Hsub & Hs & _).
  split; [exact Hl|]. split; [by exists changed|].
  exact (tag_loop_trace _ _ _ _ _ _ _ E).
Qed.

(** C9: where no folder of a target has a sidecar, a tag operation that adds
    no tag beyond those it removes completes and leaves every file and
    folder as it was; it saves nothing, so no sidecar appears. *)
Theorem noop_tag_creates_no_sidecar file_path add_str remove_str recursive w :
  Forall (fun p => files w !! sidecar_path (os_path_dirname p) = None)
    (targets_of w file_path recursive) →
  parse_tags add_str ∖ parse_tags remove_str = ∅ →
  ∃ w', tag_file file_path add_str remove_str recursive w = (Ok tt, w')
        ∧ files w' = files w ∧ tree w' = tree w ∧ saves w' = saves w.
Proof.
  intros Hm Hd. rewrite Forall_forall in Hm.
  destruct (tag_file_unfold file_path add_str remove_str recursive w) as [l ->].
  destruct (tag_loop_noop _ _ _ O w Hm Hd) as (w1 & -> & Hf & Ht & Hs).
  eexists. split; [done|]. by rewrite saves_log.
Qed.

Lemma targets_of_file w file_path recursive :
  from_option regular false (files w !! file_path) = true →
  targets_of w file_path recursive = [file_path].
Proof.
  intros H. unfold targets_of, target_paths_of, os_path_isfile. py_unfold.
  by rewrite H.
Qed.

Lemma taggable_regular w p :
  taggable w p = true → from_option regular false (files w !! p) = true.
Proof. unfold taggable. by intros [? _]%andb_true_iff. Qed.

(** On one regular file, [tag_file] is [tag_path] and the closing message. *)
Lemma tag_file_on_file p add_str remove_str recursive w :
  taggable w p = true →
  tag_file p add_str remove_str recursive w
  = match tag_path (parse_tags add_str) (parse_tags remove_str) p O w with
    | (Ok n, w') => (Ok tt, log [FinishedTagging n] w')
    | (Raise e, w') => (Raise e, w')
    end.
Proof.
  intros Ht. pose proof (taggable_regular _ _ Ht) as Hr.
  unfold tag_file, target_paths_of, os_path_isfile. py_unfold.
  destruct (files w !! p) as [nd|] eqn:E; [|done]. simpl in *.
  rewrite ?E. simpl. rewrite Hr. cbn [for_in]. py_unfold.
  destruct (tag_path _ _ p 0%nat w) as [[n|e] w']; done.
Qed.

Lemma loaded_files w1 w2 folder :
  files w1 !! sidecar_path folder = files w2 !! sidecar_path folder →
  loaded w1 folder = loaded w2 folder.
Proof.
  intros H. unfold loaded.
  destruct (files w2 !! sidecar_path folder) as [nd|] eqn:E.
  - destruct (legible nd) eqn:L.
    + rewrite (load_legible folder w1 nd H L), (load_legible folder w2 nd E L).
      simpl. case_bool_decide; [|done].
      destruct (json_loads _) as [v|e]; [done | by destruct e].
    + destruct (load_illegible folder w1 nd H L) as [l1 ->].
      by destruct (load_illegible folder w2 nd E L) as [l2 ->].
  - by rewrite (load_missing folder w1 H), (load_missing folder w2 E).
Qed.

Lemma loaded_written w folder nd doc :
  files w !! sidecar_path folder = Some nd → legible nd = true →
  content nd = json_dumps 4 doc → round_trips doc →
  loaded w folder = doc.
Proof.
  intros E L Hc [Hne Hrt]. unfold loaded.
  rewrite (load_legible folder w nd E L). simpl. rewrite Hc.
  rewrite bool_decide_true by done. by rewrite Hrt.
Qed.

Lemma entry_tags_with_tags d key tags :
  entry_tags (with_tags (JDict d) key tags) key = Some tags.
Proof.
  unfold with_tags, entry_tags. rewrite dict_get_set_eq, dict_get_set_eq.
  apply all_str_fmap.
Qed.

Lemma entry_tags_dict metadata key ss :
  entry_tags metadata key = Some ss → ∃ d, metadata = JDict d.
Proof. destruct metadata; try done. eauto. Qed.

(** The sidecar after a successful write is legible when it was before. *)
Lemma put_content_legible folder text w :
  sidecar_legible w folder →
  ∃ nd, files (put_content (sidecar_path folder) text w) !! sidecar_path folder
        = Some nd ∧ legible nd = true ∧ content nd = text.
Proof.
  unfold sidecar_legible, put_content. simpl. rewrite lookup_insert_eq.
  destruct (files w !! sidecar_path folder) as [nd|]; simpl; intros H;
    eexists; (split; [reflexivity|]); by split.
Qed.

(** One tag operation on one file whose sidecar has the shape the program
    writes. *)
Lemma tag_file_once p add_str remove_str recursive w ss :
  taggable w p = true →
  entry_tags (loaded w p.1) p.2 = Some ss →
  let current : gset string := list_to_set ss in
  let updated := (current ∪ parse_tags add_str) ∖ parse_tags remove_str in
  let doc := with_tags (loaded w p.1) p.2 (sorted_tags updated) in
  ∃ w1,
    tag_file p add_str remove_str recursive w = (Ok tt, w1)
    ∧ (∀ q, q ≠ sidecar_path p.1 → files w1 !! q = files w !! q)
    ∧ (updated = current →
       files w1 = files w ∧ tree w1 = tree w ∧ saves w1 = saves w
       ∧ faults w1 = faults w)
    ∧ (updated ≠ current →
       saves w1 = (saves w ++ [CSave p.1])%list
       ∧ faults w1 = tl (faults w)
       ∧ (p.1 ≠ "" → current_fault w = NoFault →
          sidecar_content w1 p.1 = Some (json_dumps 4 doc)
          ∧ (sidecar_legible w p.1 → round_trips doc → loaded w1 p.1 = doc))).
Proof.
  intros Ht He current updated doc.
  rewrite (tag_file_on_file _ _ _ _ _ Ht).
  destruct (tag_path_well_formed (parse_tags add_str) (parse_tags remove_str)
              p O w ss Ht He) as [msgs ->].
  cbv zeta. fold current. fold updated. fold doc.
  case_bool_decide as Hc.
  - set (wl := log msgs (called (CLoad p.1) w)).
    destruct (save_never_raises p.1 doc wl) as (ws & Es & Hframe).
    destruct (save_frame p.1 doc wl) as (ws' & Es' & Hcalls & _).
    rewrite Es in Es'. injection Es' as <-.
    rewrite Es. simpl.
    eexists. split; [done|]. split; [exact Hframe|].
    split; [done|]. intros _.
    split.
    { unfold saves in *. simpl. rewrite Hcalls. subst wl. simpl.
      rewrite !filter_app. simpl.
      rewrite (filter_cons _ (CLoad _)), decide_False by (by intros []).
      rewrite filter_nil, app_nil_r.
      by rewrite filter_cons, decide_True, filter_nil. }
    split.
    { destruct (save_cases p.1 wl) as [H|[Hf [[e H]|[(e & k & H)|H]]]].
      - destruct (save_no_folder p.1 doc wl H) as [l El].
        rewrite El in Es. by injection Es as <-.
      - destruct (save_not_opened p.1 doc wl e Hf H) as [l El].
        rewrite El in Es. by injection Es as <-.
      - destruct (save_cut_short p.1 doc wl e k Hf H) as [l El].
        rewrite El in Es. by injection Es as <-.
      - rewrite (save_written p.1 doc wl Hf H) in Es. by injection Es as <-. }
    intros Hf Hnf.
    rewrite (save_written p.1 doc wl Hf) in Es by done. injection Es as <-.
    split.
    { unfold sidecar_content. simpl. rewrite lookup_insert_eq.
      by destruct (files w !! sidecar_path p.1). }
    intros Hleg Hrt.
    destruct (put_content_legible p.1 (json_dumps 4 doc)
                (make_dir p.1 (after_save_call p.1 wl)) Hleg)
      as (nd & End & Hl & Hcont).
    by apply (loaded_written _ _ nd).
  - eexists. split; [done|]. split; [done|].
    split; [|done]. intros _. repeat split; try done.
    by rewrite !saves_log, saves_load.
Qed.

(** The tags of a comma-separated argument: its pieces, trimmed, without
    the empty ones. *)
Lemma elem_of_parse_tags tags_str t :
  t ∈ parse_tags tags_str
  ↔ t ≠ "" ∧ ∃ piece, piece ∈ PyStr.split "," tags_str ∧ t = PyStr.strip piece.
Proof.
  unfold parse_tags. rewrite elem_of_list_to_set, list_elem_of_filter.
  rewrite list_elem_of_fmap. naive_solver.
Qed.

Lemma with_tags_other d key tags k :
  k ≠ key →
  ∃ d', with_tags (JDict d) key tags = JDict d' ∧ dict_get k d' = dict_get k d.
Proof.
  intros Hk. eexists. split; [reflexivity|].
  apply dict_get_set_ne. congruence.
Qed.


(** C6, as the code has it, for a file in a named folder whose sidecar has
    the shape the program writes and can be read, when no save fails and the
    saved document reads back as written.  The tags are the pieces of the
    arguments, trimmed, without the empty ones.  One operation makes the
    stored tag set (current ∪ add) ∖ remove; when that differs from the
    current set it saves once, the tags sorted and without repetition, and
    otherwise it saves nothing.  A second operation with the same arguments
    saves nothing and changes no file.  So the two operations save once when
    the first changes the tag set and not at all when it does not. *)
Theorem tag_file_twice p add_str remove_str recursive w ss :
  let add := parse_tags add_str in
  let remove := parse_tags remove_str in
  let current : gset string := list_to_set ss in
  let updated := (current ∪ add) ∖ remove in
  taggable w p = true → p.1 ≠ "" → faults w = [] → sidecar_legible w p.1 →
  entry_tags (loaded w p.1) p.2 = Some ss →
  round_trips (with_tags (loaded w p.1) p.2 (sorted_tags updated)) →
  (∀ t, t ∈ add ↔ t ≠ "" ∧ ∃ piece, piece ∈ PyStr.split "," add_str
                                     ∧ t = PyStr.strip piece)
  ∧ ∃ w1 w2,
      tag_file p add_str remove_str recursive w = (Ok tt, w1)
      ∧ tag_file p add_str remove_str recursive w1 = (Ok tt, w2)
      ∧ list_to_set <$> entry_tags (loaded w1 p.1) p.2 = Some updated
      ∧ (updated ≠ current →
         ∃ tags, entry_tags (loaded w1 p.1) p.2 = Some tags
                 ∧ Sorted PySet.str_le tags ∧ NoDup tags)
      ∧ saves w1 = (saves w ++ if decide (updated = current) then []
                               else [CSave p.1])%list
      ∧ saves w2 = saves w1
      ∧ files w2 = files w1.
Proof.
  intros add remove current updated Ht Hf Hnf Hleg He Hrt.
  split; [intros t; apply elem_of_parse_tags|].
  destruct (tag_file_once p add_str remove_str recursive w ss Ht He)
    as (w1 & E1 & Hframe & Hsame & Hchg).
  fold add remove current updated in Hsame, Hchg.
  assert (taggable w1 p = true) as Ht1.
  { rewrite <- Ht. apply taggable_frame. intros q Hq. apply Hframe.
    intros ->. done. }
  destruct (decide (updated = current)) as [Heq|Hne].
  - destruct (Hsame Heq) as (Hfiles & _ & Hsaves & _).
    assert (loaded w1 p.1 = loaded w p.1) as Hl
      by (apply loaded_files; by rewrite Hfiles).
    assert (entry_tags (loaded w1 p.1) p.2 = Some ss) as He1 by by rewrite Hl.
    destruct (tag_file_once p add_str remove_str recursive w1 ss Ht1 He1)
      as (w2 & E2 & _ & Hsame2 & _).
    fold add remove current updated in Hsame2.
    destruct (Hsame2 Heq) as (Hfiles2 & _ & Hsaves2 & _).
    exists w1, w2. rewrite He1. simpl. rewrite Heq.
    repeat split; try done. by rewrite Hsaves, app_nil_r.
  - destruct (Hchg Hne) as (Hsaves & Hfaults & Hw).
    destruct (Hw Hf) as [_ Hl]; [unfold current_fault; by rewrite Hnf|].
    specialize (Hl Hleg Hrt).
    destruct (entry_tags_dict _ _ _ He) as [d Hd].
    assert (entry_tags (loaded w1 p.1) p.2 = Some (sorted_tags updated)) as He1.
    { rewrite Hl, Hd. apply entry_tags_with_tags. }
    destruct (sorted_tags_spec updated) as (Hsorted & Hnodup & Hset).
    destruct (tag_file_once p add_str remove_str recursive w1
                (sorted_tags updated) Ht1 He1)
      as (w2 & E2 & _ & Hsame2 & _).
    rewrite Hset in Hsame2. fold add remove in Hsame2.
    destruct Hsame2 as (Hfiles2 & _ & Hsaves2 & _).
    { subst updated. set_solver. }
    exists w1, w2. rewrite He1. simpl. rewrite Hset.
    repeat split; try done. eauto.
Qed.

End Tagging.

(** ** The tag editor on the example folder *)

Lemma tag_file_store_calls_witness :
  let w := Example.fresh in
  let w' := (tag_file ("", "docs") "x" "" false w).2 in
  tag_file ("", "docs") "x" "" false w = (Ok tt, w')
  ∧ loads w' = [CLoad "docs"; CLoad "docs"]
  ∧ (∃ changed : list path, saves w' = CSave ∘ fst <$> changed)
  ∧ calls w' = [CLoad "docs"; CSave "docs"; CLoad "docs"; CSave "docs"]
  ∧ calls (tag_file ("", "docs") "x" "" false w').2
    = (calls w' ++ [CLoad "docs"; CLoad "docs"])%list.
Proof.
  assert (tag_file ("", "docs") "x" "" false Example.fresh
          = (Ok tt, (tag_file ("", "docs") "x" "" false Example.fresh).2)) as E
    by (vm_compute; reflexivity).
  split; [exact E|].
  destruct (tag_file_store_calls _ _ _ _ _ _ E) as (Hl & (changed & _ & Hs) & Hc).
  split; [rewrite Hl; vm_compute; reflexivity|].
  split; [exists changed; rewrite Hs; reflexivity|].
  split; [rewrite Hc; vm_compute; reflexivity|].
  set (w' := (tag_file ("", "docs") "x" "" false Example.fresh).2).
  assert (tag_file ("", "docs") "x" "" false w'
          = (Ok tt, (tag_file ("", "docs") "x" "" false w').2)) as E'
    by (vm_compute; reflexivity).
  destruct (tag_file_store_calls _ _ _ _ _ _ E') as (_ & _ & Hc').
  rewrite Hc'. vm_compute. reflexivity.
Defined.

(** C4 fails as stated: tagging the two files of one folder loads its
    sidecar twice and saves it twice. *)
Lemma tag_file_loads_per_file :
  let w' := (tag_file ("", "docs") "x" "" false Example.fresh).2 in
  list_to_set (os_path_dirname <$> targets_of Example.fresh ("", "docs") false)
  = ({["docs"]} : gset string)
  ∧ calls w' = [CLoad "docs"; CSave "docs"; CLoad "docs"; CSave "docs"].
Proof. split; vm_compute; reflexivity. Qed.

Lemma noop_tag_creates_no_sidecar_witness :
  ∃ w', tag_file ("", "docs") " a ,b" "b,a," true Example.fresh = (Ok tt, w')
        ∧ files w' = files Example.fresh
        ∧ files w' !! sidecar_path "docs" = None.
Proof.
  destruct (noop_tag_creates_no_sidecar ("", "docs") " a ,b" "b,a," true
              Example.fresh) as (w' & E & Hf & _).
  - vm_compute. repeat constructor.
  - vm_compute. reflexivity.
  - exists w'. split; [exact E|]. split; [exact Hf|]. rewrite Hf.
    vm_compute. reflexivity.
Defined.



Lemma tag_file_twice_witness :
  ∃ w1 w2,
    tag_file ("docs", "report.txt") "b, c" "a" false (Example.docs [])
    = (Ok tt, w1)
    ∧ tag_file ("docs", "report.txt") "b, c" "a" false w1 = (Ok tt, w2)
    ∧ entry_tags (loaded w2 "docs") "report.txt" = Some ["b"; "c"]
    ∧ saves w2 = [CSave "docs"].
Proof.
  destruct (tag_file_twice ("docs", "report.txt") "b, c" "a" false
              (Example.docs []) ["a"; "b"])
    as (_ & w1 & w2 & E1 & E2 & Htags & _ & Hs1 & Hs2 & Hf).
  - vm_compute. reflexivity.
  - discriminate.
  - reflexivity.
  - vm_compute. reflexivity.
  - vm_compute. reflexivity.
  - split; [vm_compute; discriminate | vm_compute; reflexivity].
  - exists w1, w2. split; [exact E1|]. split; [exact E2|].
    split.
    + rewrite (loaded_files w2 w1 "docs") by (by rewrite Hf).
      pose proof E1 as E1'. vm_compute in E1'. injection E1' as <-.
      vm_compute. reflexivity.
    + rewrite Hs2, Hs1. vm_compute. reflexivity.
Defined.

(** C6 fails as stated: applied twice, a delta that changes nothing is not
    written once but never. *)
Lemma unchanged_delta_never_writes :
  let w := Example.docs [] in
  let run := (tag_file ("docs", "report.txt") "b" "" false;;
              tag_file ("docs", "report.txt") "b" "" false) w in
  run.1 = Ok tt ∧ saves run.2 = [] ∧ files run.2 = files w.
Proof. repeat split; vm_compute; reflexivity. Qed.

(** C7 fails as stated: for a folder without sidecar, loading returns the
    empty document and prints nothing. *)
Lemma load_missing_sidecar_is_silent :
  let w := Example.fresh in
  let r := _load_metadata "docs" w in
  sidecar_content w "docs" = None
  ∧ r.1 = Ok empty_dict
  ∧ stdout r.2 = stdout w.
Proof. repeat split; vm_compute; reflexivity. Qed.

(** ** The deduplicator and unreadable files *)

Section Dedup.
Context `{lib : PyLib}.

Lemma get_file_hash_unreadable p hash_algo w nd :
  files w !! p = Some nd → regular nd = true → readable nd = false →
  get_file_hash p hash_algo w = (Ok None, log [ErrorHashing p PermissionError] w).
Proof.
  intros E Hr Hu. unfold get_file_hash, read_bytes. py_unfold.
  by rewrite E, Hr, Hu.
Qed.

Lemma get_file_hash_readable p hash_algo w nd :
  files w !! p = Some nd → regular nd = true → readable nd = true →
  get_file_hash p hash_algo w = (Ok (Some (hash_algo (content nd))), w).
Proof.
  intros E Hr Hu. unfold get_file_hash, read_bytes. py_unfold.
  by rewrite E, Hr, Hu.
Qed.

(** The step of the scan on an unreadable file: a message, and nothing else. *)
Lemma dedup_file_unreadable dry_run root filename st w nd :
  files w !! os_path_join root filename = Some nd →
  regular nd = true → readable nd = false →
  dedup_file dry_run root filename st w
  = (Ok st, log [ErrorHashing (os_path_join root filename) PermissionError] w).
Proof.
  intros E Hr Hu. unfold dedup_file, os_path_isfile.
  unfold mbind at 1. unfold Py_bind at 1. unfold ask, mret, Py_ret.
  unfold mbind at 1. unfold Py_bind at 1. rewrite E. simpl. rewrite Hr. simpl.
  unfold mbind at 1. unfold Py_bind at 1.
  by rewrite (get_file_hash_unreadable _ _ _ nd E Hr Hu).
Qed.

(** Any step of the scan leaves an unreadable file where it is, out of the
    table of first-seen files and out of the report. *)
Lemma dedup_file_step dry_run root filename st w p nd :
  files w !! p = Some nd → readable nd = false → unrecorded p st →
  ∃ st' w' out,
    dedup_file dry_run root filename st w = (Ok st', w')
    ∧ files w' !! p = Some nd ∧ unrecorded p st'
    ∧ stdout w' = (stdout w ++ out)%list
    ∧ Forall (fun l => ¬ reports p l) out.
Proof.
  intros Ep Hu Hun.
  assert (∃ st' w' out, (Ok st, w) = (Ok st', w')
    ∧ files w' !! p = Some nd ∧ unrecorded p st'
    ∧ stdout w' = (stdout w ++ out)%list
    ∧ Forall (fun l => ¬ reports p l) out) as Same.
  { exists st, w, []. by rewrite app_nil_r. }
  unfold dedup_file, os_path_isfile.
  unfold mbind at 1. unfold Py_bind at 1. unfold ask at 1. unfold mret, Py_ret.
  unfold mbind at 1. unfold Py_bind at 1.
  destruct (files w !! os_path_join root filename) as [nd'|] eqn:E;
    simpl; [|exact Same].
  destruct (regular nd') eqn:Hr; simpl; [|exact Same].
  unfold mbind at 1. unfold Py_bind at 1.
  destruct (readable nd') eqn:Hr'.
  2:{ rewrite (get_file_hash_unreadable _ _ _ nd' E Hr Hr').
      exists st, (log [ErrorHashing (os_path_join root filename) PermissionError] w),
        [ErrorHashing (os_path_join root filename) PermissionError].
      repeat split; try done. repeat constructor. by intros []. }
  rewrite (get_file_hash_readable _ _ _ nd' E Hr Hr').
  assert (os_path_join root filename ≠ p) as Hne
    by (intros Heq; rewrite Heq in E; congruence).
  case_bool_decide; [|exact Same].
  destruct (hashes st !! sha256 (content nd')) as [original|] eqn:Eh.
  - assert (original ≠ p) as Hno by (intros ->; by apply (Hun _ Eh)).
    py_unfold. simpl. destruct dry_run; simpl.
    + eexists _, _, [_]. repeat split; try done.
      repeat constructor. simpl. intros [?|?]; congruence.
    + unfold os_remove. py_unfold. simpl. rewrite E.
      destruct (removable nd'); simpl.
      * eexists _, _, [_; _]. split; [reflexivity|]. simpl.
        rewrite lookup_delete_ne by done.
        repeat split; try done.
        -- by rewrite <- app_assoc.
        -- repeat constructor; simpl; [intros [?|?]; congruence | congruence].
      * eexists _, _, [_; _]. repeat split; try done.
        -- simpl. by rewrite <- app_assoc.
        -- repeat constructor; simpl; [intros [?|?]; congruence | by intros []].
  - py_unfold. eexists _, w, []. split; [reflexivity|].
    repeat split; try done; [|by rewrite app_nil_r].
    intros h. simpl. destruct (decide (sha256 (content nd') = h)) as [<-|].
    + rewrite lookup_insert_eq. congruence.
    + rewrite lookup_insert_ne by done. apply Hun.
Qed.

Lemma dedup_names_steps dry_run root names st w p nd :
  files w !! p = Some nd → readable nd = false → unrecorded p st →
  ∃ st' w' out,
    for_in names (dedup_file dry_run root) st w = (Ok st', w')
    ∧ files w' !! p = Some nd ∧ unrecorded p st'
    ∧ stdout w' = (stdout w ++ out)%list
    ∧ Forall (fun l => ¬ reports p l) out.
Proof.
  revert st w. induction names as [|name names IH]; intros st w Ep Hu Hun.
  - exists st, w, []. by rewrite app_nil_r.
  - destruct (dedup_file_step dry_run root name st w p nd Ep Hu Hun)
      as (st1 & w1 & out1 & E1 & Ep1 & Hun1 & Ho1 & Hc1).
    destruct (IH st1 w1 Ep1 Hu Hun1) as (st2 & w2 & out2 & E2 & Ep2 & Hun2 & Ho2 & Hc2).
    exists st2, w2, (out1 ++ out2)%list. simpl.
    unfold mbind, Py_bind. rewrite E1, E2.
    repeat split; try done.
    + by rewrite Ho2, Ho1, app_assoc.
    + by apply Forall_app.
Qed.

Lemma dedup_walk_steps dry_run walk st w p nd :
  files w !! p = Some nd → readable nd = false → unrecorded p st →
  ∃ st' w' out,
    dedup_walk dry_run walk st w = (Ok st', w')
    ∧ files w' !! p = Some nd ∧ unrecorded p st'
    ∧ stdout w' = (stdout w ++ out)%list
    ∧ Forall (fun l => ¬ reports p l) out.
Proof.
  unfold dedup_walk.
  revert st w. induction walk as [|[[root dirs] names] walk IH]; intros st w Ep Hu Hun.
  - exists st, w, []. by rewrite app_nil_r.
  - destruct (dedup_names_steps dry_run root names st w p nd Ep Hu Hun)
      as (st1 & w1 & out1 & E1 & Ep1 & Hun1 & Ho1 & Hc1).
    destruct (IH st1 w1 Ep1 Hu Hun1) as (st2 & w2 & out2 & E2 & Ep2 & Hun2 & Ho2 & Hc2).
    exists st2, w2, (out1 ++ out2)%list. simpl.
    unfold mbind, Py_bind. rewrite E1, E2.
    repeat split; try done.
    + by rewrite Ho2, Ho1, app_assoc.
    + by apply Forall_app.
Qed.

(** C10: a file that cannot be read makes the scan print one message and go
    on to the files after it with its table and counters as they were; and
    whatever else the scan goes through, it completes, the file is still
    there at the end, is the first-seen file of no digest, and no line of
    the report names it as a duplicate, as an original or as deleted. *)
Theorem unreadable_file_is_skipped dry_run root filename names walk st w nd :
  let p := os_path_join root filename in
  files w !! p = Some nd → regular nd = true → readable nd = false →
  unrecorded p st →
  for_in (filename :: names) (dedup_file dry_run root) st w
  = for_in names (dedup_file dry_run root) st
      (log [ErrorHashing p PermissionError] w)
  ∧ ∃ st' w' out,
      dedup_walk dry_run walk st w = (Ok st', w')
      ∧ files w' !! p = Some nd
      ∧ unrecorded p st'
      ∧ stdout w' = (stdout w ++ out)%list
      ∧ Forall (fun l => ¬ reports p l) out.
Proof.
  intros p Ep Hr Hu Hun. subst p. split.
  - cbn [for_in]. unfold mbind, Py_bind.
    by rewrite (dedup_file_unreadable dry_run root filename st w nd Ep Hr Hu).
  - by apply dedup_walk_steps.
Qed.

(** [deduplicate] is its scan, between two messages. *)
Lemma deduplicate_unfold folder dry_run w :
  is_Some (tree w !! folder) →
  deduplicate folder dry_run w
  = let w0 := log [SearchingDuplicates folder dry_run] w in
    match dedup_walk dry_run (os_walk (S (size (tree w0))) (tree w0) folder)
            {| hashes := ∅; duplicates_found := O; deleted_count := O |} w0 with
    | (Ok st, w') =>
        (Ok tt, log [FinishedDeduplicate (duplicates_found st)
                       (deleted_count st) dry_run] w')
    | (Raise e, w') => (Raise e, w')
    end.
Proof.
  intros Hd. unfold deduplicate, os_path_isdir.
  unfold mbind at 1. unfold Py_bind at 1. unfold ask at 1. unfold mret, Py_ret.
  unfold mbind at 1. unfold Py_bind at 1.
  rewrite bool_decide_true by done. cbn [negb].
  unfold mbind at 1. unfold Py_bind at 1. unfold print at 1, modify at 1.
  unfold mbind at 1. unfold Py_bind at 1. unfold ask at 1.
  unfold mbind at 1. unfold Py_bind at 1. cbv zeta. unfold log.
  destruct (dedup_walk _ _ _ _) as [[st|e] w']; done.
Qed.

End Dedup.

Lemma unreadable_file_is_skipped_witness :
  let p := os_path_join "root/b" "locked.txt" in
  let run := deduplicate "root" false Example.twins in
  run.1 = Ok tt
  ∧ is_Some (files run.2 !! p)
  ∧ Forall (fun l => ¬ reports p l) (stdout run.2)
  ∧ ErrorHashing p PermissionError ∈ stdout run.2.
Proof.
  pose (st0 := {| hashes := ∅; duplicates_found := O; deleted_count := O |}).
  pose (w0 := log [SearchingDuplicates "root" false] Example.twins).
  destruct (unreadable_file_is_skipped false "root/b" "locked.txt" [] 
              (os_walk (S (size (tree w0))) (tree w0) "root") st0 w0
              {| regular := true; content := "quarterly"; readable := false;
                 decodable := true; mtime := 0; removable := true |})
    as (_ & st' & w' & out & E & Ep & _ & Ho & Hc).
  - vm_compute. reflexivity.
  - reflexivity.
  - reflexivity.
  - intros h. vm_compute. discriminate.
  - rewrite deduplicate_unfold by (vm_compute; eauto).
    cbv zeta. fold w0. fold st0. rewrite E.
    cbn [fst snd]. split; [reflexivity|].
    split; [change (files (log ?m w')) with (files w'); rewrite Ep; eauto|].
    assert (stdout w0 = [SearchingDuplicates "root" false]) as Hw0
      by reflexivity.
    split.
    + change (stdout (log ?m w')) with (stdout w' ++ m)%list.
      rewrite Ho, Hw0. apply Forall_app. split; [apply Forall_app; split|].
      * constructor; [intros []|constructor].
      * exact Hc.
      * constructor; [intros []|constructor].
    + change (stdout (log ?m w')) with (stdout w' ++ m)%list.
      pose proof E as E'. vm_compute in E'. injection E' as _ <-.
      apply elem_of_app. left. vm_compute.
      apply elem_of_cons. right. apply elem_of_cons. left. reflexivity.
Defined.

(** C2, where the code departs from it: [deduplicate] hashes the sidecar
    like any file; with the same sidecar in two folders, the second one is
    reported as a duplicate and deleted. *)
Lemma deduplicate_deletes_sidecar :
  let run := deduplicate "root" false Example.twins in
  sidecar_content Example.twins "root/b" = Some Example.tagged_ab
  ∧ run.1 = Ok tt
  ∧ sidecar_content run.2 "root/b" = None
  ∧ stdout run.2
    = [SearchingDuplicates "root" false;
       ErrorHashing ("root/b", "locked.txt") PermissionError;
       DuplicateFound (sidecar_path "root/b") (sidecar_path "root/a");
       DeletedDuplicate (sidecar_path "root/b");
       FinishedDeduplicate 1 1 false].
Proof. repeat split; vm_compute; reflexivity. Qed.

(** ** Age and malformed queries in the metadata search *)

Section Search.
Context `{lib : PyLib}.

Lemma timedelta_days_in_range days :
  Z.abs days <= 999999999 →
  timedelta_days days = Ok (days * microseconds_per_day).
Proof.
  intros H. unfold timedelta_days.
  by destruct (Z.leb_spec (Z.abs days) 999999999); [|lia].
Qed.

Lemma is_file_older_than_spec p days w nd :
  files w !! p = Some nd → Z.abs days <= 999999999 →
  _is_file_older_than p days w
  = (Ok (bool_decide (days * microseconds_per_day < clock w - mtime nd)), w).
Proof.
  intros E H. unfold _is_file_older_than, os_stat. py_unfold.
  rewrite E. simpl. rewrite (timedelta_days_in_range days H). simpl.
  f_equal. f_equal.
  destruct (Z.ltb_spec (days * microseconds_per_day) (clock w - mtime nd)).
  - by rewrite bool_decide_true.
  - rewrite bool_decide_false; [done | lia].
Qed.

Lemma contains_key k (q : pydict) :
  PyOp.contains (JStr k) (JDict q) = Ok (bool_decide (is_Some (dict_get k q))).
Proof. done. Qed.

(** C8, as the code has it, for a file that exists and a number of days that
    a [timedelta] can hold (at most 999999999 in magnitude): the age test,
    and so the query with the only field "ageDays", holds exactly when now
    minus the modification time is strictly more than that many days; a
    file modified exactly N days ago fails the test for N and passes it for
    N - 1. *)
Theorem age_days_is_strict p N w nd file_size file_type tags mood mood_name :
  files w !! p = Some nd → Z.abs N <= 999999999 →
  let older := bool_decide (N * microseconds_per_day < clock w - mtime nd) in
  _is_file_older_than p N w = (Ok older, w)
  ∧ evaluate_query (JDict [("ageDays", JInt N)]) p file_size file_type
      tags mood mood_name w = (Ok older, w)
  ∧ (clock w - mtime nd = N * microseconds_per_day →
     Z.abs (N - 1) <= 999999999 →
     _is_file_older_than p N w = (Ok false, w)
     ∧ _is_file_older_than p (N - 1) w = (Ok true, w)).
Proof.
  intros E H older.
  pose proof (is_file_older_than_spec p N w nd E H) as Hspec.
  fold older in Hspec. split; [exact Hspec|]. split.
  - unfold evaluate_query. rewrite !contains_key. simpl.
    unfold mbind at 1. unfold Py_bind at 1. unfold lift at 1.
    unfold mbind at 1. unfold Py_bind at 1. unfold mret, Py_ret.
    unfold mbind at 1. unfold Py_bind at 1. unfold lift at 1.
    unfold mbind at 1. unfold Py_bind at 1.
    unfold mbind at 1. unfold Py_bind at 1. unfold lift at 1.
    unfold mbind at 1. unfold Py_bind at 1.
    unfold mbind at 1. unfold Py_bind at 1.
    unfold mbind at 1. unfold Py_bind at 1. unfold lift at 1.
    unfold mbind at 1. unfold Py_bind at 1. rewrite Hspec.
    py_unfold. by destruct older.
  - intros Hexact H1. rewrite Hspec.
    rewrite (is_file_older_than_spec p (N - 1) w nd E H1).
    subst older. rewrite Hexact.
    rewrite bool_decide_false by lia.
    rewrite bool_decide_true; [done | unfold microseconds_per_day; lia].
Qed.

Lemma int_of_malformed s :
  PyStr.int_of_str s = None → PyOp.int (JStr s) = Raise ValueError.
Proof. intros H. simpl. by rewrite H. Qed.

(** With a string that [int] rejects under "ageDays", the conditions raise
    [ValueError] once they reach that field. *)
Lemma evaluate_query_malformed_age q s p file_size file_type tags mood mood_name w :
  type_and_size_ok q = true →
  dict_get "ageDays" q = Some (JStr s) → PyStr.int_of_str s = None →
  evaluate_query (JDict q) p file_size file_type tags mood mood_name w
  = (Raise ValueError, w).
Proof.
  intros Hok Ha Hs. unfold type_and_size_ok, bound_ok in Hok.
  apply andb_true_iff in Hok as [Ht Hz].
  unfold evaluate_query. rewrite !contains_key.
  unfold PyOp.getitem. rewrite Ha.
  pose proof (int_of_malformed s Hs) as Hi.
  destruct (dict_get "type" q) as [[| | |t| |]|]; try done;
    (destruct (dict_get "size" q) as [[| | | | |size]|]; try done;
     [apply andb_true_iff in Hz as [Hg Hl];
      unfold PyOp.contains;
      destruct (dict_get "gt" size) as [[| | | | |]|] eqn:Eg; try done;
      destruct (dict_get "lt" size) as [[| | | | |]|] eqn:El; try done|]);
    py_unfold; simpl; rewrite ?Eg, ?El, ?Hs; simpl; rewrite ?Hs; try done;
    repeat match goal with
           | |- context [if ?b then _ else _] => destruct b
           end; done.
Qed.

(** When the value under "ageDays" is a string that [int] rejects, the
    fields looked at before it have values of the expected types and what
    the sidecar stores for the file can be read, the search gives up on the
    entry with one message, counts nothing, and goes on. *)
Lemma malformed_age_recovered q s root metadata filename names n w
    tags mood mood_name :
  from_option regular false (files w !! os_path_join root filename) = true →
  filename ≠ METADATA_FILE →
  stored_tags metadata filename = Ok tags →
  stored_mood metadata filename "value" = Ok mood →
  stored_mood metadata filename "name" = Ok mood_name →
  type_and_size_ok q = true →
  dict_get "ageDays" q = Some (JStr s) → PyStr.int_of_str s = None →
  let skipped := log [ErrorProcessingQuery (os_path_join root filename)] w in
  search_meta_file (JDict q) root metadata filename n w = (Ok n, skipped)
  ∧ for_in (filename :: names) (search_meta_file (JDict q) root metadata) n w
    = for_in names (search_meta_file (JDict q) root metadata) n skipped.
Proof.
  intros Hr Hn Htags Hmood Hname Hok Ha Hs skipped.
  assert (search_meta_file (JDict q) root metadata filename n w = (Ok n, skipped))
    as Hstep.
  { unfold search_meta_file, os_path_isfile, os_stat.
    unfold mbind at 1. unfold Py_bind at 1. unfold ask at 1. unfold mret, Py_ret.
    unfold mbind at 1. unfold Py_bind at 1. rewrite Hr.
    rewrite bool_decide_false by done. cbn [negb orb].
    unfold try_except.
    unfold mbind at 1. unfold Py_bind at 1.
    unfold mbind at 1. unfold Py_bind at 1. unfold ask at 1.
    destruct (files w !! os_path_join root filename) as [nd|]; [|done].
    unfold mbind at 1. unfold Py_bind at 1. unfold lift at 1. rewrite Htags.
    unfold mbind at 1. unfold Py_bind at 1. unfold lift at 1. rewrite Hmood.
    unfold mbind at 1. unfold Py_bind at 1. unfold lift at 1. rewrite Hname.
    unfold mbind at 1. unfold Py_bind at 1.
    rewrite (evaluate_query_malformed_age q s _ _ _ _ _ _ _ Hok Ha Hs).
    done. }
  split; [exact Hstep|].
  cbn [for_in]. unfold mbind, Py_bind. by rewrite Hstep.
Qed.

Lemma entry_readable_stored metadata filename :
  entry_readable metadata filename = true →
  ∃ tags mood mood_name,
    stored_tags metadata filename = Ok tags
    ∧ stored_mood metadata filename "value" = Ok mood
    ∧ stored_mood metadata filename "name" = Ok mood_name.
Proof.
  unfold entry_readable, stored_tags, stored_mood, empty_dict.
  destruct metadata as [| | | | |d]; try done. cbn [PyOp.get].
  destruct (dict_get filename d) as [[| | | | |e]|]; try done;
    cbn [default from_option id mbind result_bind PyOp.get].
  - destruct (dict_get "mood" e) as [[| | | | |m]|]; try done; intros _;
      cbn [default from_option id mbind result_bind PyOp.get];
      by eexists _, _, _.
  - intros _. cbn [dict_get default from_option id mbind result_bind PyOp.get].
    by eexists _, _, _.
Qed.

Lemma entry_unreadable_stored metadata filename :
  entry_readable metadata filename = false →
  stored_tags metadata filename = Raise AttributeError
  ∨ (∃ tags, stored_tags metadata filename = Ok tags)
    ∧ stored_mood metadata filename "value" = Raise AttributeError.
Proof.
  unfold entry_readable, stored_tags, stored_mood, empty_dict.
  destruct metadata as [| | | | |d]; try (by left). cbn [PyOp.get].
  destruct (dict_get filename d) as [[| | | | |e]|]; try done;
    cbn [default from_option id mbind result_bind PyOp.get];
    try (by left).
  destruct (dict_get "mood" e) as [[| | | | |m]|]; try done;
    cbn [default from_option id mbind result_bind PyOp.get];
    intros _; right; (split; [by eexists | done]).
Qed.

Lemma search_meta_file_unreadable query root metadata filename n w :
  from_option regular false (files w !! os_path_join root filename) = true →
  filename ≠ METADATA_FILE →
  entry_readable metadata filename = false →
  search_meta_file query root metadata filename n w = (Raise AttributeError, w).
Proof.
  intros Hr Hn Hu.
  unfold search_meta_file, os_path_isfile, os_stat.
  unfold mbind at 1. unfold Py_bind at 1. unfold ask at 1. unfold mret, Py_ret.
  unfold mbind at 1. unfold Py_bind at 1. rewrite Hr.
  rewrite bool_decide_false by done. cbn [negb orb].
  unfold try_except.
  unfold mbind at 1. unfold Py_bind at 1.
  unfold mbind at 1. unfold Py_bind at 1. unfold ask at 1.
  destruct (files w !! os_path_join root filename) as [nd|]; [|done].
  destruct (entry_unreadable_stored _ _ Hu) as [Ht|[[tags Ht] Hm]].
  - unfold mbind at 1. unfold Py_bind at 1. unfold lift at 1. by rewrite Ht.
  - unfold mbind at 1. unfold Py_bind at 1. unfold lift at 1. rewrite Ht.
    unfold mbind at 1. unfold Py_bind at 1. unfold lift at 1. by rewrite Hm.
Qed.

(** C3, as the code has it: when the value under "ageDays" is a string that
    [int] rejects, and the fields looked at before it ("type", "size") have
    values of the expected types, then, for a regular file other than the
    sidecar: where what the sidecar stores for the file can be read (the
    document, the entry of the file and its mood are objects), the search
    gives up on the entry with one message, counts nothing, and goes on with
    the entries after it; where it cannot, reading it raises
    [AttributeError], which no handler of the search catches, and the walk
    stops at that entry with nothing printed. *)
Theorem malformed_age_skips_entry q s root metadata filename names n w :
  from_option regular false (files w !! os_path_join root filename) = true →
  filename ≠ METADATA_FILE →
  type_and_size_ok q = true →
  dict_get "ageDays" q = Some (JStr s) → PyStr.int_of_str s = None →
  let skipped := log [ErrorProcessingQuery (os_path_join root filename)] w in
  let entries :=
    for_in (filename :: names) (search_meta_file (JDict q) root metadata) n w in
  if entry_readable metadata filename then
    search_meta_file (JDict q) root metadata filename n w = (Ok n, skipped)
    ∧ entries
      = for_in names (search_meta_file (JDict q) root metadata) n skipped
  else
    search_meta_file (JDict q) root metadata filename n w
    = (Raise AttributeError, w)
    ∧ entries = (Raise AttributeError, w).
Proof.
  intros Hr Hn Hok Ha Hs skipped entries. subst entries.
  destruct (entry_readable metadata filename) eqn:Er.
  - destruct (entry_readable_stored _ _ Er) as (tags & mood & name & Ht & Hm & Hmn).
    exact (malformed_age_recovered q s root metadata filename names n w
             tags mood name Hr Hn Ht Hm Hmn Hok Ha Hs).
  - pose proof (search_meta_file_unreadable (JDict q) root metadata filename n w
                  Hr Hn Er) as Hstep.
    split; [exact Hstep|]. cbn [for_in]. unfold mbind, Py_bind. by rewrite Hstep.
Qed.

(** Under "tags", a value that is neither a list nor a string asks for
    nothing; under "mood_name", any value is compared and none raises. *)
Lemma tags_of_other_type_ask_nothing v p file_size file_type tags mood
    mood_name w :
  match v with JList _ | JStr _ => False | _ => True end →
  evaluate_query (JDict [("tags", v)]) p file_size file_type tags mood
    mood_name w = (Ok true, w).
Proof. by destruct v. Qed.

Lemma mood_name_is_compared v p file_size file_type tags mood mood_name w :
  evaluate_query (JDict [("mood_name", v)]) p file_size file_type tags mood
    mood_name w = (Ok (PyOp.eq mood_name v), w).
Proof.
  unfold evaluate_query. rewrite !contains_key. py_unfold. simpl.
  by destruct (PyOp.eq mood_name v).
Qed.

(** The searches and the tag editor pass over the sidecar file itself. *)
Lemma search_meta_skips_sidecar query root metadata n w :
  search_meta_file query root metadata METADATA_FILE n w = (Ok n, w).
Proof.
  unfold search_meta_file, os_path_isfile. py_unfold.
  by destruct (from_option regular false _).
Qed.

Lemma search_tag_skips_sidecar tag root metadata n w :
  search_tag_file tag root metadata METADATA_FILE n w = (Ok n, w).
Proof. done. Qed.

Lemma tag_path_skips_sidecar add remove folder n w :
  tag_path add remove (os_path_join folder METADATA_FILE) n w = (Ok n, w).
Proof.
  apply tag_path_skips. unfold taggable, os_path_basename. simpl.
  apply andb_false_r.
Qed.

End Search.

(** ** The search on the example folders *)

Lemma age_days_is_strict_witness :
  let p := os_path_join "docs" "report.txt" in
  let w := Example.week_old in
  _is_file_older_than p 7 w = (Ok false, w)
  ∧ _is_file_older_than p 6 w = (Ok true, w).
Proof.
  destruct (age_days_is_strict ("docs", "report.txt") 7 Example.week_old
              (Example.plain "quarterly" 1000) 9 "txt" (JList []) JNull JNull)
    as (_ & _ & H).
  - vm_compute. reflexivity.
  - vm_compute. discriminate.
  - apply H; [vm_compute; reflexivity | vm_compute; discriminate].
Defined.

(** C8 fails as stated: for a number of days that no [timedelta] holds, the
    age test raises instead of holding, although the file is older than
    that many days; the search with that query raises with it. *)
Lemma age_days_out_of_range_raises :
  let p := os_path_join "docs" "report.txt" in
  let w := Example.week_old in
  let N := -1000000000 in
  N * microseconds_per_day < clock w - 1000
  ∧ (_is_file_older_than p N w).1 = Raise OverflowError
  ∧ (search_meta "docs" (Json.dumps 2 (JDict [("ageDays", JInt N)])) w).1
    = Raise OverflowError.
Proof. repeat split; vm_compute; reflexivity. Qed.

Lemma malformed_age_skips_entry_witness :
  let w := Example.docs [] in
  let q := [("type", JStr "TXT"); ("size", JDict [("gt", JInt 1)]);
            ("ageDays", JStr "soon")] in
  search_meta_file (JDict q) "docs" (Example.report_tags ["a"; "b"])
    "report.txt" 0 w
  = (Ok O, log [ErrorProcessingQuery ("docs", "report.txt")] w)
  ∧ stdout (search_meta "docs" (Json.dumps 2 (JDict q)) w).2
    = [SearchingMeta "docs" (Json.dumps 2 (JDict q));
       ErrorProcessingQuery ("docs", "report.txt");
       ErrorProcessingQuery ("docs", "notes.txt");
       FinishedSearchMeta 0]
  ∧ search_meta_file (JDict q) "docs" (JList []) "report.txt" 0 Sample.listed
    = (Raise AttributeError, Sample.listed)
  ∧ search_meta "docs" (Json.dumps 2 (JDict q)) Sample.listed
    = (Raise AttributeError,
       called (CLoad "docs")
         (log [SearchingMeta "docs" (Json.dumps 2 (JDict q))] Sample.listed)).
Proof.
  intros w q.
  pose proof (malformed_age_skips_entry q "soon" "docs"
                (Example.report_tags ["a"; "b"]) "report.txt" [] O w) as H.
  pose proof (malformed_age_skips_entry q "soon" "docs" (JList [])
                "report.txt" [] O Sample.listed) as H'.
  cbv zeta in H, H'.
  change (entry_readable (Example.report_tags ["a"; "b"]) "report.txt")
    with true in H.
  change (entry_readable (JList []) "report.txt") with false in H'.
  split; [apply H; vm_compute; congruence|].
  split; [vm_compute; reflexivity|].
  split; [apply H'; vm_compute; congruence|].
  vm_compute. reflexivity.
Defined.

(** C3 fails as stated: a number under "type" makes the search raise at the
    first entry, with no message for the entry and none of the entries after
    it looked at; and a number under "tags" is no error at all: every file
    is found. *)
Lemma malformed_type_aborts_the_walk :
  let w := Example.docs [] in
  let by_type := search_meta "docs" (Json.dumps 2 (JDict [("type", JInt 5)])) w in
  let by_tags := search_meta "docs" (Json.dumps 2 (JDict [("tags", JInt 5)])) w in
  by_type.1 = Raise AttributeError
  ∧ length (stdout by_type.2) = 1%nat
  ∧ by_tags.1 = Ok tt
  ∧ stdout by_tags.2
    = [SearchingMeta "docs" (Json.dumps 2 (JDict [("tags", JInt 5)]));
       FoundMeta ("docs", "report.txt") 9 0 "txt" ["a"; "b"];
       FoundMeta ("docs", "notes.txt") 4 0 "txt" [];
       FinishedSearchMeta 2].
Proof. repeat split; vm_compute; reflexivity. Qed.

(** ** Computations that only read and print *)

Section Keeps.
Context {R : World → World → Prop} `{!Reflexive R, !Transitive R}.

Lemma keeps_ret {A} (a : A) : keeps R (mret a).
Proof. intros w r w' [= <- <-]. reflexivity. Qed.

Lemma keeps_raise {A} e : keeps R (@raise A e).
Proof. intros w r w' [= <- <-]. reflexivity. Qed.

Lemma keeps_lift {A} (x : result A) : keeps R (lift x).
Proof. intros w r w' [= <- <-]. reflexivity. Qed.

Lemma keeps_ask : keeps R ask.
Proof. intros w r w' [= <- <-]. reflexivity. Qed.

Lemma keeps_bind {A B} (m : Py A) (f : A → Py B) :
  keeps R m → (∀ a, keeps R (f a)) → keeps R (m ≫= f).
Proof.
  intros Hm Hf w r w'. unfold mbind, Py_bind.
  destruct (m w) as [[a|e] w1] eqn:E.
  - intros E2. etrans; [by eapply Hm | by eapply Hf].
  - intros [= <- <-]. by eapply Hm.
Qed.

Lemma keeps_try {A} (body : Py A) handler :
  keeps R body → (∀ e h, handler e = Some h → keeps R h) →
  keeps R (try_except body handler).
Proof.
  intros Hb Hh w r w'. unfold try_except.
  destruct (body w) as [[a|e] w1] eqn:E.
  - intros [= <- <-]. by eapply Hb.
  - destruct (handler e) as [h|] eqn:Eh.
    + intros E2. etrans; [by eapply Hb | by eapply Hh].
    + intros [= <- <-]. by eapply Hb.
Qed.

Lemma keeps_for_in {A S} (l : list A) (body : A → S → Py S) s :
  (∀ x s, keeps R (body x s)) → keeps R (for_in l body s).
Proof.
  intros Hb. revert s. induction l as [|x l IH]; intros s; simpl.
  - apply keeps_ret.
  - apply keeps_bind; [apply Hb | intros; apply IH].
Qed.

End Keeps.

#[global] Instance only_prints_refl P : Reflexive (only_prints P).
Proof. intros w. repeat split. exists []. by rewrite app_nil_r. Qed.

#[global] Instance only_prints_trans P : Transitive (only_prints P).
Proof.
  intros w1 w2 w3 (F1 & T1 & K1 & C1 & U1 & o1 & O1 & P1)
    (F2 & T2 & K2 & C2 & U2 & o2 & O2 & P2).
  repeat split; try congruence.
  exists (o1 ++ o2)%list. split; [by rewrite O2, O1, app_assoc | by apply Forall_app].
Qed.

#[global] Instance only_reads_refl P : Reflexive (only_reads P).
Proof.
  intros w. repeat split; [exists []; by rewrite app_nil_r|].
  exists []. by rewrite app_nil_r.
Qed.

#[global] Instance only_reads_trans P : Transitive (only_reads P).
Proof.
  intros w1 w2 w3 (F1 & T1 & K1 & U1 & [l1 C1] & o1 & O1 & P1)
    (F2 & T2 & K2 & U2 & [l2 C2] & o2 & O2 & P2).
  repeat split; try congruence.
  - exists (l1 ++ l2)%list. by rewrite C2, C1, fmap_app, app_assoc.
  - exists (o1 ++ o2)%list. split; [by rewrite O2, O1, app_assoc | by apply Forall_app].
Qed.

Lemma only_prints_reads P w w' : only_prints P w w' → only_reads P w w'.
Proof.
  intros (F & T & K & C & U & O). repeat split; try done.
  exists []. by rewrite C, app_nil_r.
Qed.

Lemma keeps_print P l : P l → keeps (only_prints P) (print l).
Proof.
  intros Hl w r w' [= <- <-]. repeat split. exists [l]. split; [done|].
  by constructor.
Qed.

Lemma keeps_weaken {A} (R1 R2 : World → World → Prop) (m : Py A) :
  (∀ w w', R1 w w' → R2 w w') → keeps R1 m → keeps R2 m.
Proof. intros H Hm w r w' E. apply H. by eapply Hm. Qed.

Section ReadOnly.
Context `{lib : PyLib}.

Lemma keeps_load (P : line → Prop) folder :
  (∀ l, match l with
        | InfoMetadataEmpty _ | WarningCorruptedMetadata _
        | ErrorReadingMetadata _ _ | UnexpectedLoadError _ _ => True
        | _ => False
        end → P l) →
  keeps (only_reads P) (_load_metadata folder).
Proof.
  intros HP w r w' E.
  destruct (files w !! sidecar_path folder) as [nd|] eqn:Es.
  - destruct (legible nd) eqn:L.
    + rewrite (load_legible folder w nd Es L) in E. simpl in E.
      case_bool_decide.
      * destruct (json_loads _) as [v|e].
        -- injection E as <- <-. repeat split; [by exists [folder]|].
           exists []. by rewrite app_nil_r.
        -- assert (∃ l, (r, w') = (Ok empty_dict, log [l] (called (CLoad folder) w))
                        ∧ P l) as (l & [= -> ->] & Hl).
           { destruct e; eexists; (split; [symmetry; exact E|]); apply HP;
               try done; by destruct (is_OSError _). }
           repeat split; [by exists [folder]|]. exists [l]. split; [done|].
           by constructor.
      * injection E as <- <-. repeat split; [by exists [folder]|].
        eexists [_]. split; [done|]. constructor; [by apply HP | done].
    + unfold _load_metadata, os_path_exists, read_text in E. py_unfold.
      unfold sidecar_path in Es. simpl in E. repeat (rewrite Es in E; simpl in E).
      unfold legible in L.
      destruct (regular nd); simpl in *;
        [destruct (readable nd); simpl in *;
           [destruct (decodable nd); simpl in *; [done|]|]|];
        injection E as <- <-;
        (repeat split; [by exists [folder]|]); eexists [_];
        (split; [done|]); (constructor; [by apply HP | done]).
  - rewrite (load_missing folder w Es) in E. injection E as <- <-.
    repeat split; [by exists [folder]|]. exists []. by rewrite app_nil_r.
Qed.

Lemma keeps_older_than (P : line → Prop) p days :
  (∀ e, P (ErrorAccessingFile p e)) →
  keeps (only_prints P) (_is_file_older_than p days).
Proof.
  intros HP. unfold _is_file_older_than, os_stat.
  apply keeps_try.
  - apply keeps_bind.
    + apply keeps_bind; [apply keeps_ask|]. intros w.
      destruct (files w !! p); [apply keeps_ret | apply keeps_raise].
    + intros stat. apply keeps_bind; [apply keeps_ask|]. intros w.
      apply keeps_bind; [apply keeps_lift | intros; apply keeps_ret].
  - intros e h. destruct (is_OSError e); [|done]. intros [= <-].
    apply keeps_bind; [by apply keeps_print | intros; apply keeps_ret].
Qed.

End ReadOnly.

Ltac keeps_step :=
  first
    [ apply keeps_ret | apply keeps_lift | apply keeps_raise | apply keeps_ask
    | apply keeps_print; done
    | apply keeps_older_than; done
    | apply keeps_bind; [|intros ?]
    | match goal with
      | |- keeps _ (if ?b then _ else _) => destruct b
      | |- keeps _ (match ?x with _ => _ end) => destruct x
      end ].

Section SearchReadOnly.
Context `{lib : PyLib}.

Lemma keeps_evaluate_query (P : line → Prop) query p file_size file_type tags
    mood mood_name :
  (∀ e, P (ErrorAccessingFile p e)) →
  keeps (only_prints P)
    (evaluate_query query p file_size file_type tags mood mood_name).
Proof. intros HP. unfold evaluate_query. repeat keeps_step. Qed.

Lemma keeps_search_meta_file query root metadata filename n :
  keeps (only_prints no_sidecar_found)
    (search_meta_file query root metadata filename n).
Proof.
  unfold search_meta_file. apply keeps_bind.
  { unfold os_path_isfile. repeat keeps_step. }
  intros is_file. destruct (decide (filename = METADATA_FILE)) as [->|Hn].
  { rewrite bool_decide_true by done. rewrite orb_true_r. apply keeps_ret. }
  rewrite bool_decide_false by done.
  destruct is_file; simpl; [|apply keeps_ret].
  apply keeps_try.
  - unfold os_stat. repeat keeps_step.
  - intros e h. destruct (is_OSError e); [intros [= <-]; repeat keeps_step|].
    destruct (is_ValueError e); [intros [= <-]; repeat keeps_step | done].
Qed.

Lemma keeps_search_tag_file tag root metadata filename n :
  keeps (only_prints no_sidecar_found)
    (search_tag_file tag root metadata filename n).
Proof.
  unfold search_tag_file. case_bool_decide; [apply keeps_ret|].
  repeat keeps_step.
Qed.

Lemma load_lines_allowed (l : line) :
  match l with
  | InfoMetadataEmpty _ | WarningCorruptedMetadata _
  | ErrorReadingMetadata _ _ | UnexpectedLoadError _ _ => True
  | _ => False
  end → no_sidecar_found l.
Proof. by destruct l. Qed.

Lemma keeps_search_meta folder json_query_str :
  keeps (only_reads no_sidecar_found) (search_meta folder json_query_str).
Proof.
  unfold search_meta, os_path_isdir.
  apply keeps_bind; [repeat keeps_step|]. intros is_dir.
  destruct is_dir; simpl;
    [|apply (keeps_weaken _ _ _ (only_prints_reads _)); repeat keeps_step].
  apply keeps_bind.
  { apply keeps_try; [repeat keeps_step|].
    intros e h. destruct e; try done. intros [= <-].
    apply (keeps_weaken _ _ _ (only_prints_reads _)). repeat keeps_step. }
  intros [query|]; [|apply keeps_ret].
  apply keeps_bind;
    [apply (keeps_weaken _ _ _ (only_prints_reads _)); repeat keeps_step|].
  intros _. apply keeps_bind; [apply keeps_ask|]. intros w0.
  apply keeps_bind;
    [|intros; apply (keeps_weaken _ _ _ (only_prints_reads _)); repeat keeps_step].
  unfold search_meta_walk. apply keeps_for_in. intros [[root dirs] names] n.
  apply keeps_bind; [apply keeps_load, load_lines_allowed|]. intros metadata.
  apply keeps_for_in. intros filename k.
  apply (keeps_weaken _ _ _ (only_prints_reads _)), keeps_search_meta_file.
Qed.

Lemma keeps_search_tag folder tag :
  keeps (only_reads no_sidecar_found) (search_tag folder tag).
Proof.
  unfold search_tag, os_path_isdir.
  apply keeps_bind; [repeat keeps_step|]. intros is_dir.
  destruct is_dir; simpl;
    [|apply (keeps_weaken _ _ _ (only_prints_reads _)); repeat keeps_step].
  apply keeps_bind;
    [apply (keeps_weaken _ _ _ (only_prints_reads _)); repeat keeps_step|].
  intros _. apply keeps_bind; [apply keeps_ask|]. intros w0.
  apply keeps_bind;
    [|intros; apply (keeps_weaken _ _ _ (only_prints_reads _)); repeat keeps_step].
  apply keeps_for_in. intros [[root dirs] names] n.
  apply keeps_bind; [apply keeps_load, load_lines_allowed|]. intros metadata.
  apply keeps_for_in. intros filename k.
  apply (keeps_weaken _ _ _ (only_prints_reads _)), keeps_search_tag_file.
Qed.

Lemma saves_only_loaded w loaded' :
  filter is_save (calls w ++ (CLoad <$> loaded'))%list = saves w.
Proof.
  unfold saves. rewrite filter_app.
  assert (filter is_save (CLoad <$> loaded') = []) as ->.
  { induction loaded' as [|x l IH]; [done|]. rewrite fmap_cons, filter_cons.
    by rewrite decide_False by (by intros []). }
  by rewrite app_nil_r.
Qed.

(** X1: whatever they return or raise, the two searches change no file and
    no folder, use up no pending fault and save no sidecar. *)
Theorem searches_change_nothing folder json_query_str tag w :
  let by_meta := search_meta folder json_query_str w in
  let by_tag := search_tag folder tag w in
  (files by_meta.2 = files w ∧ tree by_meta.2 = tree w
   ∧ faults by_meta.2 = faults w ∧ saves by_meta.2 = saves w)
  ∧ (files by_tag.2 = files w ∧ tree by_tag.2 = tree w
     ∧ faults by_tag.2 = faults w ∧ saves by_tag.2 = saves w).
Proof.
  split.
  - destruct (search_meta folder json_query_str w) as [r w'] eqn:E.
    destruct (keeps_search_meta _ _ _ _ _ E) as (F & T & _ & U & [l C] & _).
    simpl. repeat split; try done. unfold saves at 1. rewrite C.
    apply saves_only_loaded.
  - destruct (search_tag folder tag w) as [r w'] eqn:E.
    destruct (keeps_search_tag _ _ _ _ _ E) as (F & T & _ & U & [l C] & _).
    simpl. repeat split; try done. unfold saves at 1. rewrite C.
    apply saves_only_loaded.
Qed.

(** X2: no line that a search prints reports a sidecar file as found,
    whatever the query, the tag and the sidecars are. *)
Theorem searches_never_report_sidecar folder json_query_str tag w :
  (∃ out, stdout (search_meta folder json_query_str w).2 = (stdout w ++ out)%list
          ∧ Forall no_sidecar_found out)
  ∧ (∃ out, stdout (search_tag folder tag w).2 = (stdout w ++ out)%list
            ∧ Forall no_sidecar_found out).
Proof.
  split.
  - destruct (search_meta folder json_query_str w) as [r w'] eqn:E.
    by destruct (keeps_search_meta _ _ _ _ _ E) as (_ & _ & _ & _ & _ & O).
  - destruct (search_tag folder tag w) as [r w'] eqn:E.
    by destruct (keeps_search_tag _ _ _ _ _ E) as (_ & _ & _ & _ & _ & O).
Qed.

(** A walk that loads the sidecar of each folder and then only prints. *)
Lemma walk_loads_once {S} (P : line → Prop)
    (inner : string → json → string → S → Py S)
    (walk : list (string * list string * list string)) :
  (∀ root metadata x s, keeps (only_prints P) (inner root metadata x s)) →
  ∀ s w s' w',
    for_in walk (fun '(root, _, names) s =>
                   metadata ← _load_metadata root;
                   for_in names (inner root metadata) s) s w = (Ok s', w') →
    calls w' = (calls w ++ (CLoad <$> walked_folders walk))%list.
Proof.
  intros Hin. induction walk as [|[[root dirs] names] walk IH]; intros s w s' w'.
  - intros [= <- <-]. by rewrite app_nil_r.
  - cbn [for_in]. unfold mbind at 1. unfold Py_bind at 1.
    unfold mbind at 1. unfold Py_bind at 1.
    destruct (load_frame root w) as (v & msgs & -> & _).
    destruct (for_in names (inner root v) s _) as [[s1|e] w1] eqn:E1; [|done].
    intros E2. rewrite (IH _ _ _ _ E2).
    assert (keeps (only_prints P) (for_in names (inner root v) s)) as Hk
      by (apply keeps_for_in; intros; apply Hin).
    destruct (Hk _ _ _ E1) as (_ & _ & _ & C & _). rewrite C. simpl.
    by rewrite <- app_assoc.
Qed.

(** [search_meta] and [search_tag] are their walks, between two messages. *)
Lemma search_meta_unfold folder json_query_str query w :
  is_Some (tree w !! folder) → json_loads json_query_str = Ok query →
  search_meta folder json_query_str w
  = let w0 := log [SearchingMeta folder (json_dumps 2 query)] w in
    match search_meta_walk query (os_walk (S (size (tree w0))) (tree w0) folder)
            O w0 with
    | (Ok n, w') => (Ok tt, log [FinishedSearchMeta n] w')
    | (Raise e, w') => (Raise e, w')
    end.
Proof.
  intros Hd Hq. unfold search_meta, os_path_isdir.
  unfold mbind at 1. unfold Py_bind at 1. unfold ask at 1. unfold mret, Py_ret.
  unfold mbind at 1. unfold Py_bind at 1.
  rewrite bool_decide_true by done. cbn [negb].
  unfold mbind at 1. unfold Py_bind at 1. unfold try_except at 1.
  unfold mbind at 1. unfold Py_bind at 1. unfold lift at 1. rewrite Hq.
  unfold mbind at 1. unfold Py_bind at 1. unfold print at 1, modify at 1.
  unfold mbind at 1. unfold Py_bind at 1. unfold ask at 1.
  unfold mbind at 1. unfold Py_bind at 1. cbv zeta. unfold log.
  destruct (search_meta_walk _ _ _ _) as [[n|e] w']; done.
Qed.

Lemma search_tag_unfold folder tag w :
  is_Some (tree w !! folder) →
  search_tag folder tag w
  = let w0 := log [SearchingTag folder tag] w in
    match for_in (os_walk (S (size (tree w0))) (tree w0) folder)
            (fun '(root, _, names) found_count =>
               metadata ← _load_metadata root;
               for_in names (search_tag_file tag root metadata) found_count)
            O w0 with
    | (Ok n, w') => (Ok tt, log [FinishedSearchTag n tag] w')
    | (Raise e, w') => (Raise e, w')
    end.
Proof.
  intros Hd. unfold search_tag, os_path_isdir.
  unfold mbind at 1. unfold Py_bind at 1. unfold ask at 1. unfold mret, Py_ret.
  unfold mbind at 1. unfold Py_bind at 1.
  rewrite bool_decide_true by done. cbn [negb].
  unfold mbind at 1. unfold Py_bind at 1. unfold print at 1, modify at 1.
  unfold mbind at 1. unfold Py_bind at 1. unfold ask at 1.
  unfold mbind at 1. unfold Py_bind at 1. cbv zeta. unfold log.
  destruct (for_in _ _ _ _) as [[n|e] w']; done.
Qed.

Lemma search_not_a_folder folder json_query_str tag w :
  tree w !! folder = None →
  search_meta folder json_query_str w = (Ok tt, log [ErrorFolderNotFound folder] w)
  ∧ search_tag folder tag w = (Ok tt, log [ErrorFolderNotFound folder] w).
Proof.
  intros Hd. unfold search_meta, search_tag, os_path_isdir. py_unfold.
  by rewrite Hd.
Qed.

(** X3: a search that completes loads the sidecar of every folder of its
    walk exactly once, in the order of the walk, however many files the
    folder holds, and makes no other call of the store; this holds of
    [search_meta] with a query that parses, and of [search_tag], each on its
    own. *)
Theorem searches_load_each_folder_once folder json_query_str tag query w w' :
  let walk := os_walk (S (size (tree w))) (tree w) folder in
  (json_loads json_query_str = Ok query →
   search_meta folder json_query_str w = (Ok tt, w') →
   calls w' = (calls w ++ (CLoad <$> walked_folders walk))%list)
  ∧ (search_tag folder tag w = (Ok tt, w') →
     calls w' = (calls w ++ (CLoad <$> walked_folders walk))%list).
Proof.
  intros walk.
  destruct (tree w !! folder) as [x|] eqn:Et.
  - split.
    + intros Hq E1. rewrite (search_meta_unfold _ _ query) in E1 by eauto.
      cbv zeta in E1. unfold search_meta_walk in E1.
      change (tree (log ?m w)) with (tree w) in E1. fold walk in E1.
      match type of E1 with context [for_in walk ?b ?s ?w0] =>
        destruct (for_in walk b s w0) as [[n|e] w1] eqn:E end; [|done].
      injection E1 as <-.
      pose proof (walk_loads_once no_sidecar_found
                    (search_meta_file query) walk
                    (keeps_search_meta_file query) _ _ _ _ E) as C.
      simpl. by rewrite C.
    + intros E2. rewrite search_tag_unfold in E2 by eauto.
      cbv zeta in E2.
      change (tree (log ?m w)) with (tree w) in E2. fold walk in E2.
      match type of E2 with context [for_in walk ?b ?s ?w0] =>
        destruct (for_in walk b s w0) as [[n|e] w1] eqn:E end; [|done].
      injection E2 as <-.
      pose proof (walk_loads_once no_sidecar_found
                    (search_tag_file tag) walk
                    (keeps_search_tag_file tag) _ _ _ _ E) as C.
      simpl. by rewrite C.
  - destruct (search_not_a_folder folder json_query_str tag w Et) as [Em Es].
    assert (walk = []) as -> by (subst walk; simpl; by rewrite Et).
    split.
    + intros _ E1. rewrite Em in E1. injection E1 as <-.
      simpl. by rewrite app_nil_r.
    + intros E2. rewrite Es in E2. injection E2 as <-.
      simpl. by rewrite app_nil_r.
Qed.

End SearchReadOnly.

(** ** Lists of strings in documents *)

Lemma existsb_strings t (tags : list string) :
  existsb (PyOp.eq (JStr t)) (JStr <$> tags) = bool_decide (t ∈ tags).
Proof.
  induction tags as [|x tags IH].
  - by rewrite bool_decide_false by (by intros ?%elem_of_nil).
  - rewrite fmap_cons. cbn [existsb]. rewrite IH. cbn [PyOp.eq].
    destruct (String.eqb_spec t x) as [->|Hne]; simpl.
    + by rewrite bool_decide_true by left.
    + destruct (decide (t ∈ tags)) as [Hin|Hin].
      * rewrite (bool_decide_true _ Hin). by rewrite bool_decide_true by (by right).
      * rewrite (bool_decide_false _ Hin).
        rewrite bool_decide_false; [done|]. by intros [?|?]%elem_of_cons.
Qed.




Lemma all_str_inv l ss : PyOp.all_str l = Some ss → l = JStr <$> ss.
Proof.
  revert ss. induction l as [|x l IH]; intros ss; simpl.
  - by intros [= <-].
  - destruct x; try done. destruct (PyOp.all_str l) as [ss'|]; [|done].
    intros [= <-]. by rewrite (IH ss').
Qed.

(** ** The metadata search on queries of the expected types *)

Section TypedQuery.
Context `{lib : PyLib}.

#[local] Arguments _is_file_older_than : simpl never.
#[local] Arguments all_in : simpl never.
#[local] Arguments PyOp.contains : simpl never.
#[local] Arguments PyOp.eq : simpl never.


End TypedQuery.

Section TypedSearch.
Context `{lib : PyLib}.


End TypedSearch.

(** ** The tag editor and the files it is given *)

#[global] Instance only_sidecars_refl : Reflexive only_sidecars.
Proof. by intros w q Hq. Qed.

#[global] Instance only_sidecars_trans : Transitive only_sidecars.
Proof. intros w1 w2 w3 H1 H2 q Hq. by rewrite H2, H1. Qed.

Section TagEditor.
Context `{lib : PyLib}.

Lemma keeps_tag_path add remove p n :
  keeps only_sidecars (tag_path add remove p n).
Proof. intros w r w' E. by destruct (tag_path_calls _ _ _ _ _ _ _ E) as [H _]. Qed.

(** X5: whatever it is asked and whatever happens, also when it raises,
    [tag_file] leaves every file that is not a sidecar as it was. *)
Theorem tag_file_touches_only_sidecars file_path add_str remove_str recursive w q :
  os_path_basename q ≠ METADATA_FILE →
  files (tag_file file_path add_str remove_str recursive w).2 !! q = files w !! q.
Proof.
  intros Hq.
  destruct (tag_file_unfold file_path add_str remove_str recursive w) as [l ->].
  destruct (for_in _ _ _ w) as [[n|e] w'] eqn:E;
    apply (keeps_for_in (R := only_sidecars)) in E;
    try (intros; apply keeps_tag_path); by rewrite <- (E q Hq).
Qed.



(** X7: a sidecar that holds a JSON document other than an object makes
    [tag_file] raise [TypeError] on a file of its folder, with nothing
    written. *)
Theorem tag_file_sidecar_not_an_object p add_str remove_str recursive w :
  taggable w p = true →
  (∀ d, loaded w (os_path_dirname p) ≠ JDict d) →
  ∃ w', tag_file p add_str remove_str recursive w = (Raise TypeError, w')
        ∧ files w' = files w ∧ tree w' = tree w ∧ saves w' = saves w.
Proof.
  intros Ht Hd. rewrite (tag_file_on_file p) by done.
  unfold tag_path. pose proof (taggable_regular _ _ Ht) as Hr.
  unfold taggable in Ht. apply andb_true_iff in Ht as [_ Hn].
  apply negb_true_iff in Hn.
  destruct (load_loaded (os_path_dirname p) w) as [msgs El].
  unfold os_path_isfile. py_unfold. rewrite Hr, Hn. cbn [negb orb].
  rewrite El. unfold os_path_dirname in *.
  destruct (loaded w p.1) as [| | | s | l | d] eqn:E; simpl;
    try (eexists; split; [reflexivity|]; repeat split;
         by rewrite saves_log, saves_load).
  - destruct (PyStr.contains _ s); simpl;
      (eexists; split; [reflexivity|]; repeat split;
       by rewrite saves_log, saves_load).
  - destruct (existsb _ l); simpl;
      (eexists; split; [reflexivity|]; repeat split;
       by rewrite saves_log, saves_load).
  - by destruct (Hd d).
Qed.

End TagEditor.

(** ** The deduplicator, file by file *)

Section DedupScan.
Context `{lib : PyLib}.

Lemma dedup_file_effect dry_run root filename st w :
  ∃ st' w' out,
    dedup_file dry_run root filename st w = (Ok st', w')
    ∧ calls w' = calls w ∧ faults w' = faults w
    ∧ stdout w' = (stdout w ++ out)%list
    ∧ dedup_step dry_run (os_path_join root filename) st w st' w'.
Proof.
  assert (∃ st' w' out, (Ok st, w) = (Ok st', w')
    ∧ calls w' = calls w ∧ faults w' = faults w
    ∧ stdout w' = (stdout w ++ out)%list
    ∧ dedup_step dry_run (os_path_join root filename) st w st' w') as Same.
  { exists st, w, []. rewrite app_nil_r. repeat split. by left. }
  unfold dedup_file, os_path_isfile.
  unfold mbind at 1. unfold Py_bind at 1. unfold ask at 1. unfold mret, Py_ret.
  unfold mbind at 1. unfold Py_bind at 1.
  destruct (files w !! os_path_join root filename) as [nd|] eqn:E;
    simpl; [|exact Same].
  destruct (regular nd) eqn:Hr; simpl; [|exact Same].
  unfold mbind at 1. unfold Py_bind at 1.
  destruct (readable nd) eqn:Hr'.
  2:{ rewrite (get_file_hash_unreadable _ _ _ nd E Hr Hr').
      eexists _, _, [_]. split; [reflexivity|]. repeat split. by left. }
  rewrite (get_file_hash_readable _ _ _ nd E Hr Hr').
  case_bool_decide; [|exact Same].
  destruct (hashes st !! sha256 (content nd)) as [original|] eqn:Eh.
  - py_unfold. simpl. destruct dry_run; simpl.
    + eexists _, _, [_]. split; [reflexivity|]. repeat split. by left.
    + unfold os_remove. py_unfold. simpl. rewrite E.
      destruct (removable nd); simpl.
      * eexists _, _, [_; _]. split; [reflexivity|]. simpl.
        rewrite <- app_assoc. repeat split.
        right. right. split; [done|]. by exists nd, original.
      * eexists _, _, [_; _]. split; [reflexivity|]. simpl.
        rewrite <- app_assoc. repeat split. by left.
  - py_unfold. eexists _, w, []. split; [reflexivity|]. rewrite app_nil_r.
    repeat split. right. left. by exists nd.
Qed.

Lemma for_in_app {A S} (l1 l2 : list A) (body : A → S → Py S) s w :
  for_in (l1 ++ l2) body s w
  = match for_in l1 body s w with
    | (Ok s', w') => for_in l2 body s' w'
    | (Raise e, w') => (Raise e, w')
    end.
Proof.
  revert s w. induction l1 as [|x l1 IH]; intros s w; [done|].
  cbn [app for_in]. unfold mbind, Py_bind.
  destruct (body x s w) as [[s1|e] w1]; [apply IH | done].
Qed.

Lemma for_in_fmap {A B S} (f : A → B) (l : list A) (body : B → S → Py S) s w :
  for_in (f <$> l) body s w = for_in l (fun x => body (f x)) s w.
Proof.
  revert s w. induction l as [|x l IH]; intros s w; [done|].
  cbn [fmap list_fmap for_in]. unfold mbind, Py_bind.
  destruct (body (f x) s w) as [[s1|e] w1]; [apply IH | done].
Qed.

(** The scan goes through the files of the walk one after the other. *)
Lemma dedup_walk_flat dry_run walk st w :
  dedup_walk dry_run walk st w
  = for_in (walked_paths walk) (fun p => dedup_file dry_run p.1 p.2) st w.
Proof.
  unfold dedup_walk.
  revert st w. induction walk as [|[[root dirs] names] walk IH]; intros st w;
    [done|].
  cbn [for_in walked_paths flat_map]. rewrite for_in_app, for_in_fmap.
  unfold mbind, Py_bind. cbn [os_path_join fst snd].
  change (fun x : string => dedup_file dry_run root x)
    with (dedup_file dry_run root).
  destruct (for_in names _ st w) as [[st1|e] w1]; [apply IH | done].
Qed.

Lemma dedup_paths_effect dry_run l st w :
  ∃ st' w' out,
    for_in l (fun p => dedup_file dry_run p.1 p.2) st w = (Ok st', w')
    ∧ calls w' = calls w ∧ faults w' = faults w
    ∧ stdout w' = (stdout w ++ out)%list
    ∧ files w' ⊆ files w
    ∧ (dry_run = true → files w' = files w ∧ tree w' = tree w)
    ∧ (size (files w') + deleted_count st' = size (files w) + deleted_count st)%nat.
Proof.
  revert st w. induction l as [|[root name] l IH]; intros st w.
  - exists st, w, []. by rewrite app_nil_r.
  - destruct (dedup_file_effect dry_run root name st w)
      as (st1 & w1 & out1 & E1 & C1 & U1 & O1 & Hs).
    destruct (IH st1 w1) as (st2 & w2 & out2 & E2 & C2 & U2 & O2 & F2 & D2 & N2).
    exists st2, w2, (out1 ++ out2)%list. cbn [for_in]. unfold mbind, Py_bind.
    cbn [fst snd]. rewrite E1, E2. split; [done|].
    split; [congruence|]. split; [congruence|].
    split; [by rewrite O2, O1, app_assoc|].
    destruct Hs as [(Hh & Hf & Ht & Hd)|[(nd & Ep & Hn & Hh & Hf & Ht & Hd)
                    |(Hdry & nd & original & Ep & Ho & Hh & Hf & Hd)]].
    + rewrite <- Hf, <- Ht, <- Hd. split; [done|]. split; done.
    + rewrite <- Hf, <- Ht, <- Hd. split; [done|]. split; done.
    + split; [|split].
      * etrans; [exact F2|]. rewrite Hf. apply delete_subseteq.
      * intros ->. done.
      * rewrite N2, Hd, Hf. unfold os_path_join in *.
        rewrite map_size_delete_Some by eauto.
        assert (size (files w) ≠ 0)%nat
          by (apply map_size_ne_0_lookup; eauto).
        lia.
Qed.

Lemma deduplicate_not_a_folder folder dry_run w :
  tree w !! folder = None →
  deduplicate folder dry_run w = (Ok tt, log [ErrorFolderNotFound folder] w).
Proof. intros Hd. unfold deduplicate, os_path_isdir. py_unfold. by rewrite Hd. Qed.

(** X8: a dry run of [deduplicate] completes and changes no file and no
    folder, whatever the folder holds: it only prints. *)
Theorem deduplicate_dry_run_changes_nothing folder w :
  ∃ w', deduplicate folder true w = (Ok tt, w')
        ∧ files w' = files w ∧ tree w' = tree w
        ∧ calls w' = calls w ∧ faults w' = faults w.
Proof.
  destruct (tree w !! folder) as [x|] eqn:Et.
  - rewrite deduplicate_unfold by eauto. cbv zeta. rewrite dedup_walk_flat.
    change (tree (log ?m w)) with (tree w).
    destruct (dedup_paths_effect true
                (walked_paths (os_walk (S (size (tree w))) (tree w) folder))
                {| hashes := ∅; duplicates_found := O; deleted_count := O |}
                (log [SearchingDuplicates folder true] w))
      as (st' & w' & out & E & C & U & _ & _ & D & _).
    rewrite E. destruct (D eq_refl) as [F T]. eexists. split; [reflexivity|].
    by repeat split.
  - rewrite deduplicate_not_a_folder by done. eexists. by repeat split.
Qed.

(** X9: [deduplicate] on a folder completes; it creates and rewrites no
    file, and the number of deleted files in its last line is the number of
    files that are gone. *)
Theorem deduplicate_counts_what_it_removes folder dry_run w :
  is_Some (tree w !! folder) →
  ∃ w' out found deleted,
    deduplicate folder dry_run w = (Ok tt, w')
    ∧ files w' ⊆ files w
    ∧ stdout w'
      = (stdout w ++ out ++ [FinishedDeduplicate found deleted dry_run])%list
    ∧ (size (files w') + deleted)%nat = size (files w).
Proof.
  intros Hd. rewrite deduplicate_unfold by done. cbv zeta. rewrite dedup_walk_flat.
  change (tree (log ?m w)) with (tree w).
  destruct (dedup_paths_effect dry_run
              (walked_paths (os_walk (S (size (tree w))) (tree w) folder))
              {| hashes := ∅; duplicates_found := O; deleted_count := O |}
              (log [SearchingDuplicates folder dry_run] w))
    as (st' & w' & out & E & C & U & O & F & _ & N).
  rewrite E.
  exists (log [FinishedDeduplicate (duplicates_found st') (deleted_count st')
                 dry_run] w'),
    (SearchingDuplicates folder dry_run :: out),
    (duplicates_found st'), (deleted_count st').
  split; [done|]. split; [done|]. split.
  - simpl. rewrite O. simpl. by rewrite <- !app_assoc.
  - simpl in *. lia.
Qed.

(** The table of the scan names files that are still there, and every file
    that is gone has its digest in the table under another name. *)
Lemma dedup_paths_keep_a_copy dry_run w0 l :
  NoDup l → ∀ st w st' w',
  files w ⊆ files w0 →
  (∀ h q, hashes st !! h = Some q →
          (q ∉ l) ∧ ∃ nd, files w !! q = Some nd ∧ sha256 (content nd) = h) →
  (∀ p nd, files w0 !! p = Some nd → files w !! p = None →
           ∃ q, q ≠ p ∧ hashes st !! sha256 (content nd) = Some q) →
  for_in l (fun p => dedup_file dry_run p.1 p.2) st w = (Ok st', w') →
  (∀ h q, hashes st' !! h = Some q →
          ∃ nd, files w' !! q = Some nd ∧ sha256 (content nd) = h)
  ∧ (∀ p nd, files w0 !! p = Some nd → files w' !! p = None →
             ∃ q, q ≠ p ∧ hashes st' !! sha256 (content nd) = Some q).
Proof.
  induction 1 as [|[root name] l Hnin Hnd IH]; intros st w st' w' Hsub I1 I3.
  - intros [= <- <-]. split; [|done]. intros h q Hq.
    by destruct (I1 h q Hq) as [_ ?].
  - cbn [for_in]. unfold mbind, Py_bind. cbn [fst snd].
    destruct (dedup_file_effect dry_run root name st w)
      as (st1 & w1 & out1 & -> & _ & _ & _ & Hs).
    apply IH; clear IH;
      destruct Hs as [(Hh & Hf & Ht & Hd)|[(nd & Ep & Hn & Hh & Hf & Ht & Hd)
                      |(Hdry & nd & original & Ep & Ho & Hh & Hf & Hd)]];
      rewrite ?Hh, ?Hf; try done.
    + etrans; [apply delete_subseteq | done].
    + intros h q Hq. destruct (I1 h q Hq) as [Hq1 Hq2]. split; [|done].
      intros ?. apply Hq1. by right.
    + intros h q. destruct (decide (sha256 (content nd) = h)) as [<-|Hne].
      * rewrite lookup_insert_eq. intros [= <-]. split; [done|]. by exists nd.
      * rewrite lookup_insert_ne by done. intros Hq.
        destruct (I1 h q Hq) as [Hq1 Hq2]. split; [|done].
        intros ?. apply Hq1. by right.
    + intros h q Hq. destruct (I1 h q Hq) as [Hq1 (ndq & Eq & Hhq)].
      split; [intros ?; apply Hq1; by right|].
      exists ndq. split; [|done]. rewrite lookup_delete_ne; [done|].
      intros <-. apply Hq1. by left.
    + intros p nd0 E0 En. destruct (I3 p nd0 E0 En) as (q & Hqp & Hq).
      exists q. split; [done|]. rewrite lookup_insert_ne; [done|].
      intros Heq. rewrite Heq in Hn. congruence.
    + intros p nd0 E0 En.
      destruct (decide (p = os_path_join root name)) as [->|Hp].
      * pose proof (lookup_weaken _ _ _ _ Ep Hsub) as E0'.
        assert (nd0 = nd) as -> by congruence.
        exists original. split; [|done]. intros ->.
        destruct (I1 _ _ Ho) as [Hq1 _]. apply Hq1. by left.
      * rewrite lookup_delete_ne in En by done. by apply I3.
Qed.

(** X10: when no file comes twice in the walk, every file that
    [deduplicate] removes leaves behind another file with the same digest:
    the first-seen file of a digest is never removed. *)
Theorem deduplicate_keeps_a_copy folder dry_run w p nd :
  NoDup (walked_paths (os_walk (S (size (tree w))) (tree w) folder)) →
  files w !! p = Some nd →
  files (deduplicate folder dry_run w).2 !! p = None →
  ∃ q nd', q ≠ p
           ∧ files (deduplicate folder dry_run w).2 !! q = Some nd'
           ∧ sha256 (content nd') = sha256 (content nd).
Proof.
  intros Hnd Ep. destruct (tree w !! folder) as [x|] eqn:Et.
  2:{ rewrite deduplicate_not_a_folder by done. simpl. congruence. }
  rewrite deduplicate_unfold by eauto. cbv zeta. rewrite dedup_walk_flat.
  change (tree (log ?m w)) with (tree w).
  set (st0 := {| hashes := ∅; duplicates_found := O; deleted_count := O |}).
  set (w0 := log [SearchingDuplicates folder dry_run] w).
  destruct (for_in _ _ st0 w0) as [[st'|e] w'] eqn:E.
  2:{ destruct (dedup_paths_effect dry_run
                  (walked_paths (os_walk (S (size (tree w))) (tree w) folder))
                  st0 w0) as (? & ? & ? & E' & _).
      rewrite E in E'. done. }
  destruct (dedup_paths_keep_a_copy dry_run w0 _ Hnd st0 w0 st' w')
    as [I1 I3]; [done | by intros h q | intros; congruence | done |].
  simpl. intros En. destruct (I3 p nd Ep En) as (q & Hqp & Hq).
  destruct (I1 _ _ Hq) as (nd' & Eq & Hh). by exists q, nd'.
Qed.

End DedupScan.

(** ** Commands that print lines of their own *)

Section CKeeps.
Context {R : World → World → Prop} `{!Reflexive R, !Transitive R}.

Lemma ckeeps_ret {A} (a : A) : ckeeps R (mret a).
Proof. intros s r s' [= <- <-]. reflexivity. Qed.

Lemma ckeeps_say m : ckeeps R (say m).
Proof. intros s r s' [= <- <-]. reflexivity. Qed.

Lemma ckeeps_get_session : ckeeps R get_session.
Proof. intros s r s' [= <- <-]. reflexivity. Qed.

Lemma ckeeps_run {A} (m : Py A) : keeps R m → ckeeps R (run m).
Proof.
  intros Hm s r s'. unfold run.
  destruct (m (world s)) as [r1 w1] eqn:E. intros [= <- <-]. by eapply Hm.
Qed.

Lemma ckeeps_bind {A B} (m : Cmd A) (f : A → Cmd B) :
  ckeeps R m → (∀ a, ckeeps R (f a)) → ckeeps R (m ≫= f).
Proof.
  intros Hm Hf s r s'. unfold mbind, Cmd_bind.
  destruct (m s) as [[a|e] s1] eqn:E.
  - intros E2. etrans; [by eapply Hm | by eapply Hf].
  - intros [= <- <-]. by eapply Hm.
Qed.

Lemma ckeeps_try {A} (body : Cmd A) handler :
  ckeeps R body → (∀ e h, handler e = Some h → ckeeps R h) →
  ckeeps R (cmd_try body handler).
Proof.
  intros Hb Hh s r s'. unfold cmd_try.
  destruct (body s) as [[a|e] s1] eqn:E.
  - intros [= <- <-]. by eapply Hb.
  - destruct (handler e) as [h|] eqn:Eh.
    + intros E2. etrans; [by eapply Hb | by eapply Hh].
    + intros [= <- <-]. by eapply Hb.
Qed.

Lemma ckeeps_for_each {A S} (l : list A) (body : A → S → Cmd (flow S)) s :
  (∀ x s, ckeeps R (body x s)) → ckeeps R (for_each l body s).
Proof.
  intros Hb. revert s. induction l as [|x l IH]; intros s; simpl.
  - apply ckeeps_ret.
  - apply ckeeps_bind; [apply Hb|]. intros [s'|]; [apply IH | apply ckeeps_ret].
Qed.

End CKeeps.

Lemma ckeeps_weaken {A} (R1 R2 : World → World → Prop) (m : Cmd A) :
  (∀ w w', R1 w w' → R2 w w') → ckeeps R1 m → ckeeps R2 m.
Proof. intros H Hm s r s' E. apply H. by eapply Hm. Qed.

#[global] Instance only_removes_refl P : Reflexive (only_removes P).
Proof. intros w. split; [done|]. intros q. by left. Qed.

#[global] Instance only_removes_trans P : Transitive (only_removes P).
Proof.
  intros w1 w2 w3 [K1 H1] [K2 H2]. split; [congruence|]. intros q.
  destruct (H2 q) as [E2|(E2 & Hq & nd & End & Hnd)].
  - rewrite E2. apply H1.
  - destruct (H1 q) as [E1|(E1 & _)]; [|congruence].
    right. split; [done|]. split; [done|]. exists nd. by rewrite <- E1.
Qed.

Lemma only_prints_removes Q P w w' : only_prints Q w w' → only_removes P w w'.
Proof. intros (F & _ & K & _). split; [done|]. intros q. left. by rewrite F. Qed.

#[global] Instance cleans_refl criteria value : Reflexive (cleans criteria value).
Proof. intros w. apply only_removes_refl. Qed.

#[global] Instance cleans_trans criteria value : Transitive (cleans criteria value).
Proof.
  intros w1 w2 w3 H1 H2. unfold cleans in *.
  pose proof H1 as [K1 _]. rewrite K1 in H2.
  exact (only_removes_trans _ _ _ _ H1 H2).
Qed.

Ltac cmd_unfold :=
  unfold run, say, get_session, cmd_try in *;
  unfold mbind, mret, Cmd_bind, Cmd_ret in *.

Section Cleanup.
Context `{lib : PyLib}.

Lemma older_than_present p days w nd :
  files w !! p = Some nd →
  ∃ r, _is_file_older_than p days w = (r, w)
       ∧ (r = Ok true → days * microseconds_per_day < clock w - mtime nd).
Proof.
  intros Ep. unfold _is_file_older_than, os_stat, timedelta_days. py_unfold.
  rewrite Ep. destruct (Z.abs days <=? 999999999); simpl.
  - eexists. split; [reflexivity|]. intros [= H]. by apply Z.ltb_lt.
  - eexists. split; [reflexivity|]. done.
Qed.

Lemma get_file_size_present p w nd :
  files w !! p = Some nd →
  _get_file_size p w = (Ok (String.length (content nd)), w).
Proof. intros Ep. unfold _get_file_size, os_stat. py_unfold. by rewrite Ep. Qed.

Lemma length_zero_empty (s : string) : (String.length s =? 0)%nat = true → s = "".
Proof. by destruct s. Qed.

Lemma session_eta s : {| world := world s; console := console s |} = s.
Proof. by destruct s. Qed.

Lemma cleans_removed criteria value w w' p nd :
  files w !! p = Some nd → os_path_basename p ≠ METADATA_FILE →
  regular nd = true → removable nd = true →
  cleanup_selects criteria value (clock w) nd →
  clock w' = clock w → files w' = delete p (files w) →
  cleans criteria value w w'.
Proof.
  intros Ep Hp Hr Hm Hs Hk Hf. split; [done|]. intros q. rewrite Hf.
  destruct (decide (q = p)) as [->|Hq].
  - right. rewrite lookup_delete_eq. split; [done|]. split; [done|]. by exists nd.
  - left. by rewrite lookup_delete_ne.
Qed.

Lemma cleanup_file_cleans criteria value root filename n :
  ckeeps (cleans criteria value) (cleanup_file criteria value root filename n).
Proof.
  intros s r s'. unfold cleanup_file.
  set (p := os_path_join root filename).
  unfold mbind at 1. unfold Cmd_bind at 1.
  destruct (run (os_path_isfile p) s) as [ri s0] eqn:E0.
  assert (world s0 = world s
          ∧ ri = Ok (from_option regular false (files (world s) !! p)))
    as [Hw ->].
  { unfold run, os_path_isfile in E0. py_unfold. by injection E0 as <- <-. }
  rewrite <- Hw. clear E0 Hw s. rename s0 into s.
  destruct (files (world s) !! p) as [nd|] eqn:Ep; simpl;
    [|intros [= <- <-]; simpl; reflexivity].
  destruct (regular nd) eqn:Hr; simpl; [|intros [= <- <-]; simpl; reflexivity].
  case_bool_decide as Hn; simpl; [intros [= <- <-]; simpl; reflexivity|].
  assert (os_path_basename p ≠ METADATA_FILE) as Hp by done.
  destruct (String.eqb_spec (PyStr.lower criteria) "agedays") as [Hc|Hc].
  - cmd_unfold. py_unfold. destruct (PyOp.int value) as [days|e] eqn:Ev; simpl.
    + destruct (older_than_present p days (world s) nd Ep) as (ro & -> & Ho).
      rewrite drop_all. simpl.
      destruct ro as [[|]|e]; simpl.
      * unfold os_remove. py_unfold. rewrite Ep.
        destruct (removable nd) eqn:Hm; simpl.
        -- intros [= <- <-]. simpl.
           apply (cleans_removed _ _ _ _ p nd Ep Hp Hr Hm); [|done|done].
           left. split; [done|]. exists days. split; [done|]. by apply Ho.
        -- intros [= <- <-]. simpl. reflexivity.
      * intros [= <- <-]. simpl. reflexivity.
      * destruct (is_ValueError e), (is_OSError e); intros [= <- <-]; simpl;
          reflexivity.
    + destruct (is_ValueError e), (is_OSError e); intros [= <- <-]; simpl;
        reflexivity.
  - destruct (String.eqb_spec (PyStr.lower criteria) "emptyfile") as [Hc2|Hc2].
    + cmd_unfold. rewrite (get_file_size_present p (world s) nd Ep).
      rewrite drop_all. simpl.
      destruct (String.length (content nd) =? 0)%nat eqn:Hz; simpl.
      * unfold os_remove. py_unfold. rewrite Ep.
        destruct (removable nd) eqn:Hm; simpl.
        -- intros [= <- <-]. simpl.
           apply (cleans_removed _ _ _ _ p nd Ep Hp Hr Hm); [|done|done].
           right. split; [done|]. by apply length_zero_empty.
        -- intros [= <- <-]. simpl. reflexivity.
      * intros [= <- <-]. simpl. reflexivity.
    + cmd_unfold. simpl. intros [= <- <-]. simpl. reflexivity.
Qed.

Lemma cleanup_walk_cleans criteria value walk n :
  ckeeps (cleans criteria value) (cleanup_walk criteria value walk n).
Proof.
  unfold cleanup_walk. apply ckeeps_for_each. intros [[root dirs] names] k.
  apply ckeeps_for_each. intros filename j. apply cleanup_file_cleans.
Qed.

Lemma ckeeps_pure {A} (R : World → World → Prop) (m : Py A) :
  (∀ w r w', m w = (r, w') → files w' = files w ∧ clock w' = clock w) →
  (∀ w w', files w' = files w → clock w' = clock w → R w w') →
  ckeeps R (run m).
Proof.
  intros Hm HR s r s'. unfold run. destruct (m (world s)) as [r1 w1] eqn:E.
  intros [= <- <-]. simpl. destruct (Hm _ _ _ E). by apply HR.
Qed.

Lemma cleans_same criteria value w w' :
  files w' = files w → clock w' = clock w → cleans criteria value w w'.
Proof. intros F K. split; [done|]. intros q. left. by rewrite F. Qed.

Lemma auto_cleanup_cleans folder criteria value :
  ckeeps (cleans criteria value) (auto_cleanup folder criteria value).
Proof.
  unfold auto_cleanup. apply ckeeps_bind.
  { apply ckeeps_pure; [|intros; by apply cleans_same].
    unfold os_path_isdir. py_unfold. by intros w r w' [= <- <-]. }
  intros is_dir. destruct is_dir; simpl.
  - apply ckeeps_bind; [apply ckeeps_say|]. intros _.
    apply ckeeps_bind; [apply ckeeps_get_session|]. intros s0.
    apply ckeeps_bind; [apply cleanup_walk_cleans|].
    intros [k|]; [apply ckeeps_say | apply ckeeps_ret].
  - apply ckeeps_pure; [|intros; by apply cleans_same]. py_unfold.
    by intros w r w' [= <- <-].
Qed.

(** X11: whatever it is asked and however it ends, [auto_cleanup] creates
    and changes no file, and a file that is gone after it was a regular file
    other than a sidecar that the criteria selects: older than the days asked
    for, or empty. *)
Theorem auto_cleanup_removes_only_selected folder criteria value s q :
  let w := world s in
  let w' := world (auto_cleanup folder criteria value s).2 in
  files w' !! q = files w !! q
  ∨ (files w' !! q = None
     ∧ os_path_basename q ≠ METADATA_FILE
     ∧ ∃ nd, files w !! q = Some nd ∧ regular nd = true ∧ removable nd = true
             ∧ cleanup_selects criteria value (clock w) nd).
Proof.
  intros w w'. subst w w'.
  destruct (auto_cleanup folder criteria value s) as [r s'] eqn:E.
  destruct (auto_cleanup_cleans _ _ _ _ _ _ E) as [_ H]. apply H.
Qed.

Lemma for_each_app {A S} (l1 l2 : list A) (body : A → S → Cmd (flow S)) n s :
  for_each (l1 ++ l2) body n s
  = match for_each l1 body n s with
    | (Ok (Next n'), s') => for_each l2 body n' s'
    | other => other
    end.
Proof.
  revert n s. induction l1 as [|x l1 IH]; intros n s; [done|].
  cbn [app for_each]. unfold mbind, Cmd_bind.
  destruct (body x n s) as [[[n1|]|e] s1]; [apply IH | done | done].
Qed.

Lemma for_each_fmap {A B S} (f : A → B) (l : list A)
    (body : B → S → Cmd (flow S)) n s :
  for_each (f <$> l) body n s = for_each l (fun x => body (f x)) n s.
Proof.
  revert n s. induction l as [|x l IH]; intros n s; [done|].
  cbn [fmap list_fmap for_each]. unfold mbind, Cmd_bind.
  destruct (body (f x) n s) as [[[n1|]|e] s1]; [apply IH | done | done].
Qed.

(** The cleanup goes through the files of the walk one after the other. *)
Lemma cleanup_walk_flat criteria value walk n s :
  cleanup_walk criteria value walk n s
  = for_each (walked_paths walk)
      (fun p => cleanup_file criteria value p.1 p.2) n s.
Proof.
  unfold cleanup_walk.
  revert n s. induction walk as [|[[root dirs] names] walk IH]; intros n s;
    [done|].
  cbn [for_each walked_paths flat_map]. rewrite for_each_app, for_each_fmap.
  unfold mbind, Cmd_bind. cbn [os_path_join fst snd].
  change (fun x : string => cleanup_file criteria value root x)
    with (cleanup_file criteria value root).
  destruct (for_each names _ n s) as [[[n1|]|e] s1]; [apply IH | done | done].
Qed.

Lemma cleanup_file_decided criteria value root filename n s :
  cleanup_decides criteria value →
  let p := os_path_join root filename in
  ∃ n' s',
    cleanup_file criteria value root filename n s = (Ok (Next n'), s')
    ∧ (size (files (world s')) + n' = size (files (world s)) + n)%nat
    ∧ ∀ nd, files (world s) !! p = Some nd → filename ≠ METADATA_FILE →
            regular nd = true → removable nd = true →
            cleanup_selects criteria value (clock (world s)) nd →
            files (world s') !! p = None.
Proof.
  intros Hdec p. unfold cleanup_file. fold p.
  unfold mbind at 1. unfold Cmd_bind at 1.
  destruct (run (os_path_isfile p) s) as [ri s0] eqn:E0.
  assert (world s0 = world s
          ∧ ri = Ok (from_option regular false (files (world s) !! p)))
    as [Hw ->].
  { unfold run, os_path_isfile in E0. py_unfold. by injection E0 as <- <-. }
  rewrite <- Hw. clear E0 Hw s. rename s0 into s.
  destruct (files (world s) !! p) as [nd|] eqn:Ep; simpl;
    [|by eexists _, _].
  destruct (regular nd) eqn:Hr; simpl.
  2:{ eexists _, _. split; [reflexivity|]. split; [done|].
      intros nd' [= <-]. congruence. }
  case_bool_decide as Hn; simpl.
  { eexists _, _. split; [reflexivity|]. split; [done|]. by intros nd' _ ?. }
  assert (size (delete p (files (world s))) + S n
          = size (files (world s)) + n)%nat as Hsize.
  { rewrite map_size_delete_Some by eauto.
    assert (size (files (world s)) ≠ 0)%nat
      by (apply map_size_ne_0_lookup; eauto).
    lia. }
  destruct Hdec as [(Hc & days & Ev & Hrange)|Hc].
  - rewrite Hc. cbn [String.eqb Ascii.eqb Bool.eqb]. cmd_unfold. py_unfold.
    rewrite Ev. simpl.
    rewrite (is_file_older_than_spec p days (world s) nd Ep Hrange).
    rewrite drop_all. simpl. case_bool_decide as Hold; simpl.
    + unfold os_remove. py_unfold. rewrite Ep.
      destruct (removable nd) eqn:Hm; simpl.
      * eexists _, _. split; [reflexivity|]. simpl. split; [exact Hsize|].
        intros. apply lookup_delete_eq.
      * eexists _, _. split; [reflexivity|]. simpl. split; [done|].
        intros nd' [= <-]. congruence.
    + eexists _, _. split; [reflexivity|]. simpl. split; [done|].
      intros nd' [= <-] _ _ _ [(_ & days' & Ev' & Hlt)|[Hc' _]].
      * rewrite Ev in Ev'. injection Ev' as <-. done.
      * rewrite Hc in Hc'. done.
  - rewrite Hc. cbn [String.eqb Ascii.eqb Bool.eqb]. cmd_unfold.
    rewrite (get_file_size_present p (world s) nd Ep).
    rewrite drop_all. simpl.
    destruct (String.length (content nd) =? 0)%nat eqn:Hz; simpl.
    + unfold os_remove. py_unfold. rewrite Ep.
      destruct (removable nd) eqn:Hm; simpl.
      * eexists _, _. split; [reflexivity|]. simpl. split; [exact Hsize|].
        intros. apply lookup_delete_eq.
      * eexists _, _. split; [reflexivity|]. simpl. split; [done|].
        intros nd' [= <-]. congruence.
    + eexists _, _. split; [reflexivity|]. simpl. split; [done|].
      intros nd' [= <-] _ _ _ [[Hc' _]|[_ Hempty]].
      * rewrite Hc in Hc'. done.
      * rewrite Hempty in Hz. done.
Qed.

Lemma cleans_gone criteria value w w' q :
  cleans criteria value w w' → files w !! q = None → files w' !! q = None.
Proof. intros [_ H] Hq. destruct (H q) as [->|[? _]]; done. Qed.

Lemma cleanup_paths_decided criteria value l :
  cleanup_decides criteria value →
  ∀ n s, ∃ n' s',
    for_each l (fun p => cleanup_file criteria value p.1 p.2) n s
    = (Ok (Next n'), s')
    ∧ (size (files (world s')) + n' = size (files (world s)) + n)%nat
    ∧ ∀ q nd, q ∈ l → files (world s) !! q = Some nd →
              os_path_basename q ≠ METADATA_FILE →
              regular nd = true → removable nd = true →
              cleanup_selects criteria value (clock (world s)) nd →
              files (world s') !! q = None.
Proof.
  intros Hdec. induction l as [|[root name] l IH]; intros n s.
  - exists n, s. split; [done|]. split; [done|]. by intros q nd ?%elem_of_nil.
  - destruct (cleanup_file_decided criteria value root name n s Hdec)
      as (n1 & s1 & E1 & N1 & D1).
    destruct (IH n1 s1) as (n2 & s2 & E2 & N2 & D2).
    pose proof (cleanup_file_cleans _ _ _ _ _ _ _ _ E1) as C1.
    assert (cleans criteria value (world s1) (world s2)) as C2.
    { eapply (ckeeps_for_each (R := cleans criteria value)); [|exact E2].
      intros [r f] k. apply cleanup_file_cleans. }
    exists n2, s2. cbn [for_each]. unfold mbind, Cmd_bind. cbn [fst snd].
    rewrite E1. split; [exact E2|]. split; [lia|].
    intros q nd Hq Eq Hb Hr Hm Hs.
    apply elem_of_cons in Hq as [->|Hq].
    + apply (cleans_gone _ _ _ _ _ C2). by apply (D1 nd).
    + destruct C1 as [K1 H1]. destruct (H1 q) as [Eq1|[Eq1 _]].
      * apply (D2 q nd); try done; [congruence|]. by rewrite K1.
      * by apply (cleans_gone _ _ _ _ _ C2).
Qed.

(** X12: asked for empty files, or for files older than a number of days
    that is an integer in the range of [timedelta], [auto_cleanup] on a
    folder completes; every file of the walk that the criteria selects and
    that can be removed is gone, and the number in its last line is the
    number of files that are gone. *)
Theorem auto_cleanup_removes_every_selected folder criteria value s :
  is_Some (tree (world s) !! folder) →
  cleanup_decides criteria value →
  let w := world s in
  ∃ s' deleted,
    auto_cleanup folder criteria value s = (Ok tt, s')
    ∧ last (console s') = Some (FinishedCleanup deleted)
    ∧ (size (files (world s')) + deleted)%nat = size (files w)
    ∧ ∀ q nd,
        q ∈ walked_paths (os_walk (S (size (tree w))) (tree w) folder) →
        files w !! q = Some nd →
        os_path_basename q ≠ METADATA_FILE →
        regular nd = true → removable nd = true →
        cleanup_selects criteria value (clock w) nd →
        files (world s') !! q = None.
Proof.
  intros Hd Hdec w. unfold auto_cleanup, os_path_isdir.
  unfold mbind at 1. unfold Cmd_bind at 1. unfold run at 1. py_unfold.
  rewrite bool_decide_true by done. cbn [negb].
  unfold Cmd_bind, say, get_session. cbn [world console].
  rewrite cleanup_walk_flat.
  match goal with |- context [for_each ?l ?b ?n ?s0] =>
    destruct (cleanup_paths_decided criteria value l Hdec n s0)
      as (n' & s' & -> & N & D) end.
  exists {| world := world s'; console := (console s' ++ [FinishedCleanup n'])%list |}, n'.
  split; [done|]. cbn [world console] in *. split; [apply last_snoc|].
  split; [fold w in N; lia|]. exact D.
Qed.

End Cleanup.

(** ** Folder moods *)

Section Moods.
Context `{lib : PyLib}.

Lemma run_lift {A} (x : A) s :
  run (lift (Ok x)) s = (Ok x, s).
Proof.
  unfold run, lift. rewrite drop_all. cbn [fmap list_fmap].
  rewrite app_nil_r. by destruct s.
Qed.

Lemma run_is_dir folder s :
  run (os_path_isdir folder) s
  = (Ok (bool_decide (is_Some (tree (world s) !! folder))), s).
Proof.
  unfold run, os_path_isdir. py_unfold. rewrite drop_all. cbn [fmap list_fmap].
  rewrite app_nil_r. by destruct s.
Qed.

(** The document that [folder_mood_set] saves. *)
Lemma mood_document metadata mood name :
  mood_writable metadata →
  (known ← PyOp.contains (JStr "__folder__") metadata;
   metadata ← (if (known : bool) then Ok metadata
               else PyOp.setitem metadata "__folder__" empty_dict);
   entry ← PyOp.getitem metadata "__folder__";
   entry ← PyOp.setitem entry "mood" (mood_record mood name);
   PyOp.setitem metadata "__folder__" entry)
  = Ok (with_mood metadata mood name).
Proof.
  destruct metadata as [| | | | |d]; try done. simpl.
  destruct (dict_get "__folder__" d) as [[| | | | |e]|] eqn:E; try done; intros _.
  - rewrite bool_decide_true by eauto. simpl. by rewrite E.
  - rewrite bool_decide_false by (by intros [? ?]). simpl.
    rewrite dict_get_set_eq. simpl. by rewrite dict_set_set.
Qed.

Lemma folder_mood_set_saves folder mood name s :
  is_Some (tree (world s) !! folder) →
  mood_writable (loaded (world s) folder) →
  ∃ msgs,
    folder_mood_set folder mood name s
    = let wl := log msgs (called (CLoad folder) (world s)) in
      let saved := _save_metadata folder
                     (with_mood (loaded (world s) folder) mood name) wl in
      (Ok tt,
       {| world := saved.2;
          console := (console s ++ [SettingMood folder mood name]
                      ++ (Said <$> msgs)
                      ++ (Said <$> drop (length (stdout wl)) (stdout saved.2))
                      ++ [MoodSet folder mood name])%list |}).
Proof.
  intros Hd Hw. destruct (load_loaded folder (world s)) as [msgs El].
  exists msgs. unfold folder_mood_set.
  unfold mbind at 1. unfold Cmd_bind at 1. rewrite run_is_dir.
  rewrite bool_decide_true by done. cbn [negb].
  unfold mbind at 1. unfold Cmd_bind at 1. unfold say at 1.
  unfold mbind at 1. unfold Cmd_bind at 1. unfold run at 1. cbn [world console].
  rewrite El. pose proof (mood_document _ mood name Hw) as Hdoc.
  destruct (loaded (world s) folder) as [| | | | |d] eqn:Ed; try done.
  simpl in Hw, Hdoc.
  cbn [log set_stdout stdout called set_calls].
  rewrite drop_app_length.
  destruct (dict_get "__folder__" d) as [[| | | | |e]|] eqn:E; try done.
  - unfold mbind at 1. unfold Cmd_bind at 1. cbn [PyOp.contains].
    rewrite run_lift. rewrite bool_decide_true by eauto.
    unfold mbind at 1. unfold Cmd_bind at 1. unfold mret at 1, Cmd_ret at 1.
    unfold mbind at 1. unfold Cmd_bind at 1. cbn [PyOp.getitem]. rewrite E.
    rewrite run_lift.
    unfold mbind at 1. unfold Cmd_bind at 1. cbn [PyOp.setitem]. rewrite run_lift.
    unfold mbind at 1. unfold Cmd_bind at 1. rewrite run_lift.
    unfold mbind at 1. unfold Cmd_bind at 1. unfold run at 1. cbn [world console].
    cbv zeta. unfold with_mood. rewrite E.
    destruct (_save_metadata _ _ _) as [r w1] eqn:Es.
    pose proof (save_ok folder
      (JDict (dict_set "__folder__"
                (JDict (dict_set "mood" (mood_record mood name) e)) d))
      (log msgs (called (CLoad folder) (world s)))) as Hok.
    unfold log, called, set_stdout, set_calls in Hok, Es. cbn in Hok, Es.
    rewrite Es in Hok. simpl in Hok. subst r. unfold say. cbn [world console snd].
    by rewrite <- !app_assoc.
  - unfold mbind at 1. unfold Cmd_bind at 1. cbn [PyOp.contains].
    rewrite E, run_lift. rewrite bool_decide_false by (by intros [? ?]).
    unfold mbind at 1. unfold Cmd_bind at 1. cbn [PyOp.setitem]. rewrite run_lift.
    unfold mbind at 1. unfold Cmd_bind at 1. cbn [PyOp.getitem].
    rewrite dict_get_set_eq. rewrite run_lift.
    unfold mbind at 1. unfold Cmd_bind at 1. unfold empty_dict.
    cbn [PyOp.setitem]. rewrite run_lift.
    unfold mbind at 1. unfold Cmd_bind at 1. rewrite run_lift.
    unfold mbind at 1. unfold Cmd_bind at 1. unfold run at 1. cbn [world console].
    cbv zeta. unfold with_mood. rewrite E. rewrite dict_set_set.
    destruct (_save_metadata _ _ _) as [r w1] eqn:Es.
    pose proof (save_ok folder
      (JDict (dict_set "__folder__"
                (JDict (dict_set "mood" (mood_record mood name) [])) d))
      (log msgs (called (CLoad folder) (world s)))) as Hok.
    unfold log, called, set_stdout, set_calls in Hok, Es. cbn in Hok, Es.
    rewrite Es in Hok. simpl in Hok. subst r. unfold say. cbn [world console snd].
    by rewrite <- !app_assoc.
Qed.

Lemma folder_mood_set_stores folder mood name s :
  let w := world s in
  let doc := with_mood (loaded w folder) mood name in
  is_Some (tree w !! folder) → folder ≠ "" → current_fault w = NoFault →
  sidecar_legible w folder → mood_writable (loaded w folder) →
  round_trips doc →
  ∃ s1 nd,
    folder_mood_set folder mood name s = (Ok tt, s1)
    ∧ is_Some (tree (world s1) !! folder)
    ∧ files (world s1) !! sidecar_path folder = Some nd
    ∧ legible nd = true ∧ content nd = json_dumps 4 doc
    ∧ (∀ q, q ≠ sidecar_path folder → files (world s1) !! q = files w !! q)
    ∧ loaded (world s1) folder = doc.
Proof.
  intros w doc Hd Hf Hnf Hleg Hw Hrt.
  destruct (folder_mood_set_saves folder mood name s Hd Hw) as [msgs ->].
  cbv zeta. fold w doc. set (wl := log msgs (called (CLoad folder) w)).
  rewrite (save_written folder doc wl Hf) by done. cbn [snd].
  destruct (put_content_legible folder (json_dumps 4 doc)
              (make_dir folder (after_save_call folder wl)) Hleg)
    as (nd & End & Hl & Hcont).
  eexists _, nd. split; [reflexivity|]. cbn [world].
  split; [apply put_content_keeps_dir, make_dir_is_dir|].
  split; [exact End|]. split; [done|]. split; [done|].
  split; [intros q Hq; by rewrite put_content_other|].
  by apply (loaded_written _ _ nd).
Qed.

Lemma folder_mood_of_with_mood metadata mood name :
  mood_writable metadata →
  folder_mood_of (with_mood metadata mood name)
  = Ok (Some (mood_record mood name)).
Proof.
  destruct metadata as [| | | | |d]; try done. intros _.
  unfold folder_mood_of, with_mood. cbn [PyOp.contains PyOp.getitem].
  rewrite dict_get_set_eq. rewrite bool_decide_true by eauto. simpl.
  rewrite dict_get_set_eq. rewrite bool_decide_true by eauto. simpl.
  done.
Qed.

Lemma folder_mood_get_shows folder s nd doc info v :
  is_Some (tree (world s) !! folder) →
  files (world s) !! sidecar_path folder = Some nd → legible nd = true →
  content nd = json_dumps 4 doc → round_trips doc →
  folder_mood_of doc = Ok (Some info) →
  PyOp.get info "value" (JStr "N/A") = Ok v →
  folder_mood_get folder false None s
  = (Ok tt, {| world := called (CLoad folder) (world s);
               console := (console s ++ [MoodOf folder v])%list |}).
Proof.
  intros Hd End Hl Hc [Hne Hrt] Hm Hv. unfold folder_mood_get.
  unfold mbind at 1. unfold Cmd_bind at 1. rewrite run_is_dir.
  rewrite bool_decide_true by done. cbn [negb andb].
  rewrite bool_decide_true by done.
  unfold mbind at 1. unfold Cmd_bind at 1. unfold run at 1.
  rewrite (load_legible folder (world s) nd End Hl). cbv zeta.
  rewrite Hc. rewrite bool_decide_true by done. rewrite Hrt.
  cbn [called set_calls stdout]. rewrite drop_all. cbn [fmap list_fmap].
  rewrite app_nil_r.
  unfold mbind at 1. unfold Cmd_bind at 1. rewrite Hm, run_lift.
  unfold mbind at 1. unfold Cmd_bind at 1. rewrite Hv, run_lift.
  done.
Qed.

(** X13: on a folder whose sidecar can be read and written, setting a mood
    and then asking for it prints that mood; the sidecar holds the document
    it held with the mood of the folder replaced, and no other file
    changes. *)
Theorem folder_mood_set_then_get folder mood name s :
  let w := world s in
  let doc := with_mood (loaded w folder) mood name in
  is_Some (tree w !! folder) → folder ≠ "" → current_fault w = NoFault →
  sidecar_legible w folder → mood_writable (loaded w folder) →
  round_trips doc →
  ∃ s1 s2,
    folder_mood_set folder mood name s = (Ok tt, s1)
    ∧ sidecar_content (world s1) folder = Some (json_dumps 4 doc)
    ∧ (∀ q, q ≠ sidecar_path folder → files (world s1) !! q = files w !! q)
    ∧ folder_mood_get folder false None s1 = (Ok tt, s2)
    ∧ console s2 = (console s1 ++ [MoodOf folder (JStr mood)])%list
    ∧ files (world s2) = files (world s1).
Proof.
  intros w doc Hd Hf Hnf Hleg Hw Hrt.
  destruct (folder_mood_set_stores folder mood name s Hd Hf Hnf Hleg Hw Hrt)
    as (s1 & nd & E1 & Hd1 & End & Hl & Hc & Hframe & Hdoc).
  fold w doc in Hc, Hdoc.
  exists s1. eexists. split; [exact E1|].
  split; [unfold sidecar_content; by rewrite End; simpl; rewrite Hc|].
  split; [exact Hframe|].
  rewrite (folder_mood_get_shows folder s1 nd doc (mood_record mood name)
             (JStr mood) Hd1 End Hl Hc Hrt);
    [done | by apply folder_mood_of_with_mood | done].
Qed.

Lemma stored_with_mood metadata mood name filename :
  mood_writable metadata → filename ≠ "__folder__" →
  stored_tags (with_mood metadata mood name) filename
  = stored_tags metadata filename
  ∧ ∀ field, stored_mood (with_mood metadata mood name) filename field
             = stored_mood metadata filename field.
Proof.
  destruct metadata as [| | | | |d]; try done. intros _ Hn.
  unfold stored_tags, stored_mood, with_mood. cbn [PyOp.get].
  by rewrite dict_get_set_ne.
Qed.

(** X14: [folder_mood_set] leaves what the searches read about the files of
    the folder as it was: the tags and the mood stored for every file name
    other than "__folder__".  The mood of a folder is not what the "mood"
    field of a query is compared with. *)
Theorem folder_mood_set_keeps_file_entries folder mood name s filename :
  let w := world s in
  is_Some (tree w !! folder) → folder ≠ "" → current_fault w = NoFault →
  sidecar_legible w folder → mood_writable (loaded w folder) →
  round_trips (with_mood (loaded w folder) mood name) →
  filename ≠ "__folder__" →
  ∃ s1,
    folder_mood_set folder mood name s = (Ok tt, s1)
    ∧ stored_tags (loaded (world s1) folder) filename
      = stored_tags (loaded w folder) filename
    ∧ ∀ field, stored_mood (loaded (world s1) folder) filename field
               = stored_mood (loaded w folder) filename field.
Proof.
  intros w Hd Hf Hnf Hleg Hw Hrt Hn.
  destruct (folder_mood_set_stores folder mood name s Hd Hf Hnf Hleg Hw Hrt)
    as (s1 & nd & E1 & _ & _ & _ & _ & _ & Hdoc).
  exists s1. split; [exact E1|]. rewrite Hdoc. by apply stored_with_mood.
Qed.

Lemma ckeeps_read {A} (m : Py A) :
  keeps (only_reads (fun _ => True)) m →
  ckeeps (only_reads (fun _ => True)) (run m).
Proof. apply ckeeps_run. Qed.

Ltac reads_step :=
  first
    [ apply ckeeps_ret | apply ckeeps_say | apply ckeeps_get_session
    | apply ckeeps_read, keeps_lift
    | apply ckeeps_read, keeps_load; done
    | apply ckeeps_bind; [|intros ?]
    | match goal with
      | |- ckeeps _ (if ?b then _ else _) => destruct b
      | |- ckeeps _ (match ?x with _ => _ end) => destruct x
      end ].

Lemma mood_scan_folder_reads filter root found :
  ckeeps (only_reads (fun _ => True)) (mood_scan_folder filter root found).
Proof. unfold mood_scan_folder. repeat reads_step. Qed.

Lemma mood_scan_reads filter walk found :
  ckeeps (only_reads (fun _ => True)) (mood_scan filter walk found).
Proof.
  revert found. induction walk as [|[[root dirs] names] walk IH]; intros found.
  - apply ckeeps_ret.
  - cbn [mood_scan]. apply ckeeps_bind; [|intros; apply IH].
    apply ckeeps_try; [apply mood_scan_folder_reads|].
    intros e h [= <-]. apply ckeeps_ret.
Qed.

Lemma folder_mood_get_reads folder recursive filter :
  ckeeps (only_reads (fun _ => True)) (folder_mood_get folder recursive filter).
Proof.
  unfold folder_mood_get. apply ckeeps_bind.
  { apply ckeeps_read. unfold os_path_isdir. repeat keeps_step. }
  intros is_dir. destruct (negb is_dir).
  { apply ckeeps_read, (keeps_weaken _ _ _ (only_prints_reads _)).
    by apply keeps_print. }
  destruct (negb recursive && bool_decide (filter = None)).
  - repeat reads_step.
  - apply ckeeps_bind; [apply ckeeps_get_session|]. intros s0.
    apply ckeeps_bind; [apply mood_scan_reads|].
    intros [|]; [apply ckeeps_ret | apply ckeeps_say].
Qed.

Lemma mood_scan_completes filter walk found s :
  ∃ b s', mood_scan filter walk found s = (Ok b, s').
Proof.
  revert found s. induction walk as [|[[root dirs] names] walk IH];
    intros found s.
  - by eexists _, _.
  - cbn [mood_scan]. unfold mbind, Cmd_bind, cmd_try.
    destruct (mood_scan_folder filter root found s) as [[b|e] s1].
    + apply IH.
    + unfold mret, Cmd_ret. apply IH.
Qed.

(** X15: [folder_mood_get] changes no file and no folder and saves no
    sidecar, whatever it returns or raises; and the scan, which it runs when
    it is asked to recurse or is given a filter, always completes, whatever
    the sidecars hold. *)
Theorem folder_mood_get_only_reads folder recursive filter s :
  let r := folder_mood_get folder recursive filter s in
  files (world r.2) = files (world s)
  ∧ tree (world r.2) = tree (world s)
  ∧ saves (world r.2) = saves (world s)
  ∧ (recursive = true ∨ is_Some filter → r.1 = Ok tt).
Proof.
  intros r. subst r.
  destruct (folder_mood_get folder recursive filter s) as [r s'] eqn:E.
  destruct (folder_mood_get_reads _ _ _ _ _ _ E) as (F & T & _ & _ & [l C] & _).
  cbn [fst snd]. split; [done|]. split; [done|].
  split; [unfold saves at 1; rewrite C; apply saves_only_loaded|].
  intros Hscan. revert E. unfold folder_mood_get.
  unfold mbind at 1. unfold Cmd_bind at 1. rewrite run_is_dir.
  case_bool_decide as Hd; cbn [negb].
  - assert (negb recursive && bool_decide (filter = None) = false) as ->.
    { destruct Hscan as [->|[f ->]]; [done|]. by rewrite andb_false_r. }
    unfold mbind at 1. unfold Cmd_bind at 1. unfold get_session at 1.
    unfold mbind at 1. unfold Cmd_bind at 1.
    destruct (mood_scan_completes filter
                (os_walk (S (size (tree (world s)))) (tree (world s)) folder)
                false s) as (b & s1 & ->).
    destruct b; by intros [= <- _].
  - unfold run, print, modify. by intros [= <- _].
Qed.

End Moods.

(** ** The store, end to end *)

Section StoreRoundTrip.
Context `{lib : PyLib}.

(** X16: a document saved without a fault, in a folder with a name and a
    sidecar that is absent or can be read, is the document that the next
    load returns, without a line printed; no other file changes. *)
Theorem save_then_load folder doc w :
  folder ≠ "" → current_fault w = NoFault → sidecar_legible w folder →
  round_trips doc →
  ∃ w1, _save_metadata folder doc w = (Ok tt, w1)
        ∧ _load_metadata folder w1 = (Ok doc, called (CLoad folder) w1)
        ∧ ∀ q, q ≠ sidecar_path folder → files w1 !! q = files w !! q.
Proof.
  intros Hf Hnf Hleg [Hne Hrt].
  rewrite (save_written folder doc w Hf Hnf). eexists. split; [reflexivity|].
  destruct (put_content_legible folder (json_dumps 4 doc)
              (make_dir folder (after_save_call folder w)) Hleg)
    as (nd & End & Hl & Hcont).
  split.
  - rewrite (load_legible _ _ nd End Hl). cbv zeta. rewrite Hcont.
    rewrite bool_decide_true by done. by rewrite Hrt.
  - intros q Hq. by rewrite put_content_other.
Qed.

End StoreRoundTrip.

(** ** The tags of an argument *)

Lemma split_not_nil sep s : PyStr.split sep s ≠ [].
Proof.
  destruct s as [|c s]; simpl; [done|].
  destruct (Ascii.eqb c sep); [done|]. by destruct (PyStr.split sep s).
Qed.

Lemma split_app sep a b :
  PyStr.split sep (a ++ String sep b)
  = (PyStr.split sep a ++ PyStr.split sep b)%list.
Proof.
  induction a as [|c a IH]; simpl.
  - by rewrite Ascii.eqb_refl.
  - destruct (Ascii.eqb c sep); [by rewrite IH|]. rewrite IH.
    pose proof (split_not_nil sep a).
    by destruct (PyStr.split sep a).
Qed.

(** X17: the tags of two arguments joined by a comma are the tags of the
    one and the tags of the other; and no tag of an argument is empty. *)
Theorem parse_tags_comma a b :
  parse_tags (a ++ "," ++ b) = parse_tags a ∪ parse_tags b
  ∧ "" ∉ parse_tags (a ++ "," ++ b).
Proof.
  split.
  - unfold parse_tags. change ("," ++ b)%string with (String "," b).
    rewrite split_app, fmap_app, filter_app. apply list_to_set_app_L.
  - intros [H _]%elem_of_parse_tags. done.
Qed.

(** ** What the tag search finds *)

Section Loops.
Context {R : World → World → Prop} `{!Reflexive R, !Transitive R}.

(** A loop that completes ran its body on each element, in a world that the
    loop reached from its first and from which it reached its last. *)
Lemma for_in_elem {A S} (l : list A) (body : A → S → Py S) x :
  (∀ y s, keeps R (body y s)) → x ∈ l →
  ∀ s w s' w', for_in l body s w = (Ok s', w') →
  ∃ s1 w1 s2 w2, R w w1 ∧ body x s1 w1 = (Ok s2, w2) ∧ R w2 w'.
Proof.
  intros Hb. induction l as [|y l IH]; intros Hx s w s' w';
    [by apply elem_of_nil in Hx|].
  cbn [for_in]. unfold mbind, Py_bind.
  destruct (body y s w) as [[sy|e] wy] eqn:Ey; [|done]. intros E.
  apply elem_of_cons in Hx as [->|Hx].
  - exists s, w, sy, wy. split; [reflexivity|]. split; [done|].
    eapply (keeps_for_in (R := R)); [|exact E]. done.
  - destruct (IH Hx _ _ _ _ E) as (s1 & w1 & s2 & w2 & H1 & Eb & H2).
    exists s1, w1, s2, w2. split; [|done]. etrans; [|exact H1].
    by eapply Hb.
Qed.

End Loops.

Section TagSearch.
Context `{lib : PyLib}.

Lemma search_tag_file_finds tag root metadata filename n w ss :
  filename ≠ METADATA_FILE →
  entry_tags metadata filename = Some ss → tag ∈ ss →
  search_tag_file tag root metadata filename n w
  = (Ok (S n), log [FoundTagged (os_path_join root filename) ss] w).
Proof.
  intros Hn He Hin. unfold search_tag_file. rewrite bool_decide_false by done.
  unfold entry_tags in He.
  destruct metadata as [| | | | |d]; try done.
  destruct (dict_get filename d) as [[| | | | |e]|] eqn:Ed; try done;
    [|injection He as <-; by apply elem_of_nil in Hin].
  destruct (dict_get "tags" e) as [[| | | |l|]|] eqn:Et; try done;
    [|injection He as <-; by apply elem_of_nil in Hin].
  pose proof (all_str_inv _ _ He) as ->.
  py_unfold. cbn [PyOp.contains PyOp.getitem]. rewrite Ed.
  rewrite bool_decide_true by eauto. cbn [PyOp.contains PyOp.getitem].
  rewrite Et. rewrite bool_decide_true by eauto.
  cbn [PyOp.contains]. rewrite existsb_strings.
  rewrite bool_decide_true by done. cbn [PyOp.join_items].
  by rewrite all_str_fmap.
Qed.

Lemma only_reads_stdout P w w' l :
  only_reads P w w' → l ∈ stdout w → l ∈ stdout w'.
Proof.
  intros (_ & _ & _ & _ & _ & out & -> & _) Hl. apply elem_of_app. by left.
Qed.

(** X18: a tag search that completes reports every file of the folders it
    walks for which the sidecar of its folder stores the tag, with the tags
    stored for it. *)
Theorem search_tag_finds_tagged folder tag w w' root dirs names filename ss :
  search_tag folder tag w = (Ok tt, w') →
  (root, dirs, names) ∈ os_walk (S (size (tree w))) (tree w) folder →
  filename ∈ names → filename ≠ METADATA_FILE →
  entry_tags (loaded w root) filename = Some ss → tag ∈ ss →
  FoundTagged (os_path_join root filename) ss ∈ stdout w'.
Proof.
  intros E Hwalk Hf Hn He Hin.
  destruct (tree w !! folder) as [x|] eqn:Et.
  2:{ simpl in Hwalk. rewrite Et in Hwalk. by apply elem_of_nil in Hwalk. }
  rewrite search_tag_unfold in E by eauto. cbv zeta in E.
  change (tree (log ?m w)) with (tree w) in E.
  set (w0 := log [SearchingTag folder tag] w) in E.
  match type of E with context [for_in _ ?b O w0] => set (body := b) in E end.
  assert (∀ y s, keeps (only_reads no_sidecar_found) (body y s)) as Hbody.
  { intros [[r ds] ns] k. apply keeps_bind;
      [apply keeps_load, load_lines_allowed|].
    intros metadata. apply keeps_for_in. intros f j.
    apply (keeps_weaken _ _ _ (only_prints_reads _)), keeps_search_tag_file. }
  destruct (for_in _ body O w0) as [[k|e] w1] eqn:E1; [|done].
  injection E as <-.
  destruct (for_in_elem (R := only_reads no_sidecar_found) _ body
              (root, dirs, names) Hbody Hwalk _ _ _ _ E1)
    as (k1 & wa & k2 & wb & Ha & Eb & Hb).
  apply elem_of_app. left. apply (only_reads_stdout _ _ _ _ Hb).
  unfold body in Eb. unfold mbind, Py_bind in Eb.
  destruct (load_loaded root wa) as [msgs El]. rewrite El in Eb.
  assert (loaded wa root = loaded w root) as Hl.
  { apply loaded_files. destruct Ha as (F & _). by rewrite F. }
  rewrite Hl in Eb.
  assert (∀ y s, keeps (only_prints no_sidecar_found)
                   (search_tag_file tag root (loaded w root) y s)) as Hinner
    by (intros; apply keeps_search_tag_file).
  destruct (for_in_elem (R := only_prints no_sidecar_found) _
              (search_tag_file tag root (loaded w root)) filename Hinner Hf
              _ _ _ _ Eb)
    as (j1 & wc & j2 & wd & Hc & Ef & Hd).
  rewrite (search_tag_file_finds tag root _ filename j1 wc ss Hn He Hin) in Ef.
  injection Ef as _ <-.
  apply (only_reads_stdout _ _ _ _ (only_prints_reads _ _ _ Hd)).
  simpl. apply elem_of_app. right. by left.
Qed.

End TagSearch.

(** ** Moving and copying by a condition *)

#[global] Instance transfers_refl is_copy src dest :
  Reflexive (transfers is_copy src dest).
Proof.
  intros w. split; [by left|]. intros q Hq [x Hx]. congruence.
Qed.

#[global] Instance transfers_trans is_copy src dest :
  Transitive (transfers is_copy src dest).
Proof.
  intros w1 w2 w3 [K1 N1] [K2 N2]. split.
  - intros q nd Eq.
    destruct (K1 q nd Eq) as [E2|(Hm & Hq & Hne & E2 & nd' & Ed & Hc & Ht)].
    + apply K2, E2.
    + right. split; [done|]. split; [done|]. split; [done|]. split.
      * destruct (files w3 !! q) as [x|] eqn:E3; [|done].
        destruct (N2 q E2) as [Hq' _]; [by eexists|]. congruence.
      * destruct (K2 _ _ Ed) as [E3|(_ & Hd & _)]; [by exists nd'|].
        by destruct Hne.
  - intros q Eq H3. destruct (files w2 !! q) as [x|] eqn:E2.
    + apply N1; [done | by eexists].
    + by apply N2.
Qed.

Lemma transfers_same is_copy src dest w w' :
  files w' = files w → transfers is_copy src dest w w'.
Proof.
  intros F. split.
  - intros q nd Eq. left. by rewrite F.
  - intros q Hq [x Hx]. rewrite F in Hx. congruence.
Qed.

Section Transfer.
Context `{lib : PyLib}.

Lemma keeps_get_file_size P p :
  (∀ e, P (ErrorAccessingFile p e)) →
  keeps (only_prints P) (_get_file_size p).
Proof.
  intros HP. unfold _get_file_size, os_stat. apply keeps_try.
  - apply keeps_bind; [|intros; apply keeps_ret].
    apply keeps_bind; [apply keeps_ask|]. intros w.
    destruct (files w !! p); [apply keeps_ret | apply keeps_raise].
  - intros e h. destruct (is_OSError e); [|done]. intros [= <-].
    apply keeps_bind; [by apply keeps_print | intros; apply keeps_ret].
Qed.

#[global] Instance same_files_refl : Reflexive same_files.
Proof. by intros w. Qed.

#[global] Instance same_files_trans : Transitive same_files.
Proof. intros w1 w2 w3 H1 H2. unfold same_files in *. congruence. Qed.

Lemma ckeeps_printing {A} (m : Py A) :
  keeps (only_prints (fun _ => True)) m → ckeeps same_files (run m).
Proof.
  intros Hm. apply ckeeps_run. intros w r w' E.
  by destruct (Hm _ _ _ E) as (F & _).
Qed.

Lemma transfer_decision_reads condition_type value p filename :
  ckeeps same_files (transfer_decision condition_type value p filename).
Proof.
  unfold transfer_decision.
  repeat match goal with
         | |- ckeeps _ (if ?b then _ else _) => destruct b
         | |- ckeeps _ (_ ≫= _) => apply ckeeps_bind; [|intros ?]
         | |- ckeeps _ (mret _) => apply ckeeps_ret
         | |- ckeeps _ (say _) => apply ckeeps_say
         | |- ckeeps _ (run (lift _)) => apply ckeeps_printing, keeps_lift
         | |- ckeeps _ (run (_is_file_older_than _ _)) =>
             apply ckeeps_printing, keeps_older_than; done
         | |- ckeeps _ (run (_get_file_size _)) =>
             apply ckeeps_printing, keeps_get_file_size; done
         end.
Qed.

Lemma transfers_placed is_copy src dest w w' name x :
  files w !! os_path_join dest name = None → dest ≠ src →
  files w' = <[os_path_join dest name := x]> (files w) →
  transfers is_copy src dest w w'.
Proof.
  intros Ed Hne F. split.
  - intros q nd Eq. left. rewrite F, lookup_insert_ne; [done|]. congruence.
  - intros q Eq. rewrite F. destruct (decide (q = os_path_join dest name)) as [->|Hq].
    + done.
    + rewrite lookup_insert_ne by done. intros [? ?]. congruence.
Qed.

Lemma transfers_moved src dest w w' name nd :
  files w !! os_path_join src name = Some nd →
  files w !! os_path_join dest name = None → dest ≠ src →
  files w' = <[os_path_join dest name := copy_of nd]>
               (delete (os_path_join src name) (files w)) →
  transfers false src dest w w'.
Proof.
  intros Ep Ed Hne F. unfold os_path_join in *.
  assert ((dest, name) ≠ (src, name)) as Hpq by congruence.
  split.
  - intros q nd0 Eq. destruct (decide (q = (src, name))) as [->|Hq].
    + right. assert (nd0 = nd) as -> by congruence.
      split; [done|]. split; [done|]. split; [done|]. rewrite F. split.
      * rewrite lookup_insert_ne by done. apply lookup_delete_eq.
      * exists (copy_of nd). cbn [os_path_basename snd]. unfold os_path_join.
        by rewrite lookup_insert_eq.
    + left. rewrite F. rewrite lookup_insert_ne by congruence.
      by rewrite lookup_delete_ne.
  - intros q Eq. rewrite F. destruct (decide (q = (dest, name))) as [->|Hq].
    + done.
    + rewrite lookup_insert_ne by done.
      intros [x Hx]. apply lookup_delete_Some in Hx as [_ Hx]. congruence.
Qed.

Lemma transfer_action_transfers is_copy src dest filename n s r s' nd :
  files (world s) !! os_path_join src filename = Some nd →
  transfer_action dest is_copy (os_path_join src filename) filename n s = (r, s') →
  transfers is_copy src dest (world s) (world s').
Proof.
  intros Ep. unfold transfer_action, os_path_exists_any.
  unfold mbind at 1. unfold Cmd_bind at 1. unfold run at 1. py_unfold.
  destruct (files (world s) !! os_path_join dest filename) as [x|] eqn:Ed.
  { rewrite bool_decide_true by eauto. cbn [orb]. unfold Cmd_bind, say, Cmd_ret.
    intros [= <- <-]. reflexivity. }
  rewrite bool_decide_false by (by intros [? ?]). cbn [orb].
  case_bool_decide as Hdir.
  { unfold Cmd_bind, say, Cmd_ret. intros [= <- <-]. reflexivity. }
  assert (dest ≠ src) as Hne by (intros ->; congruence).
  destruct is_copy.
  - unfold shutil_copy2. unfold Cmd_bind, say, Cmd_ret, run. py_unfold.
    cbn [world console]. rewrite Ep.
    destruct (readable nd); cbn [negb];
      [|intros [= <- <-]; reflexivity].
    case_bool_decide as Hd; cbn [negb];
      [|intros [= <- <-]; reflexivity].
    intros [= <- <-]. by eapply transfers_placed.
  - unfold shutil_move. unfold Cmd_bind, say, Cmd_ret, run. py_unfold.
    cbn [world console]. rewrite Ep.
    case_bool_decide as Hd; cbn [negb];
      [|intros [= <- <-]; reflexivity].
    destruct (removable nd).
    + intros [= <- <-]. by eapply transfers_moved.
    + destruct (readable nd); cbn [negb];
        [|intros [= <- <-]; reflexivity].
      intros [= <- <-]. by eapply transfers_placed.
Qed.

Lemma transfer_file_transfers dest condition_type value is_copy src filename n :
  ckeeps (transfers is_copy src dest)
    (transfer_file dest condition_type value is_copy src filename n).
Proof.
  intros s r s'. unfold transfer_file.
  set (p := os_path_join src filename).
  unfold mbind at 1. unfold Cmd_bind at 1.
  destruct (run (os_path_isfile p) s) as [ri s0] eqn:E0.
  assert (world s0 = world s
          ∧ ri = Ok (from_option regular false (files (world s) !! p)))
    as [Hw ->].
  { unfold run, os_path_isfile in E0. py_unfold. by injection E0 as <- <-. }
  rewrite <- Hw. clear E0 Hw s. rename s0 into s.
  destruct (files (world s) !! p) as [nd|] eqn:Ep; cbn [from_option];
    [|intros [= <- <-]; reflexivity].
  destruct (regular nd) eqn:Hr; cbn [negb]; [|intros [= <- <-]; reflexivity].
  unfold cmd_try. unfold mbind at 1. unfold Cmd_bind at 1.
  destruct (transfer_decision condition_type value p filename s)
    as [rd s1] eqn:Ed.
  pose proof (transfer_decision_reads _ _ _ _ _ _ _ Ed) as F1.
  unfold same_files in F1.
  assert (transfers is_copy src dest (world s) (world s1)) as H1
    by (by apply transfers_same).
  assert (files (world s1) !! p = Some nd) as Ep1 by (by rewrite F1).
  assert (∀ (m : message) (x : flow nat) s2,
            transfers is_copy src dest (world s) (world s2) →
            (say m ≫= fun _ => mret x) s2 = (r, s') →
            transfers is_copy src dest (world s) (world s')) as Hsay.
  { intros m x s2 H2. unfold mbind, Cmd_bind, say, mret, Cmd_ret.
    by intros [= <- <-]. }
  assert (∀ e s2, transfers is_copy src dest (world s) (world s2) →
            match (if is_ValueError e
                   then Some (say (InvalidConditionValue value condition_type)
                              ≫= fun _ => mret Return)
                   else if is_OSError e
                   then Some (say (ErrorTransferring is_copy filename e)
                              ≫= fun _ => mret (Next n))
                   else None) with
            | Some h => h s2
            | None => (Raise e, s2)
            end = (r, s') →
            transfers is_copy src dest (world s) (world s')) as Hhandle.
  { intros e s2 H2. destruct (is_ValueError e); [by apply Hsay|].
    destruct (is_OSError e); [by apply Hsay|]. by intros [= <- <-]. }
  destruct rd as [[[|]|]|e].
  - destruct (transfer_action dest is_copy p filename n s1) as [ra s2] eqn:Ea.
    pose proof (transfer_action_transfers _ _ _ _ _ _ _ _ nd Ep1 Ea) as H2.
    assert (transfers is_copy src dest (world s) (world s2)) as H12
      by (by etrans).
    destruct ra as [x|e]; [by intros [= <- <-]|]. by apply Hhandle.
  - unfold mret, Cmd_ret. by intros [= <- <-].
  - unfold mret, Cmd_ret. by intros [= <- <-].
  - by apply Hhandle.
Qed.

Lemma conditional_move_copy_transfers src dest condition_type value is_copy :
  ckeeps (transfers is_copy src dest)
    (conditional_move_copy src dest condition_type value is_copy).
Proof.
  assert (∀ {A} (m : Py A),
            (∀ w r w', m w = (r, w') → files w' = files w) →
            ckeeps (transfers is_copy src dest) (run m)) as Hrun.
  { intros A m Hm. apply ckeeps_run. intros w r w' E.
    apply transfers_same. by eapply Hm. }
  unfold conditional_move_copy. apply ckeeps_bind.
  { apply Hrun. unfold os_path_isdir. py_unfold. by intros w r w' [= <- <-]. }
  intros is_dir. destruct (negb is_dir); [apply ckeeps_say|].
  apply ckeeps_bind.
  { apply Hrun. unfold os_path_exists_str. py_unfold.
    by intros w r w' [= <- <-]. }
  intros present. apply ckeeps_bind.
  { destruct present; [apply ckeeps_ret|]. apply ckeeps_try.
    - apply ckeeps_bind; [|intros; apply ckeeps_ret]. apply Hrun.
      unfold os_makedirs_new. case_bool_decide; py_unfold;
        by intros w r w' [= <- <-].
    - intros e h. destruct (is_OSError e); [|done]. intros [= <-].
      apply ckeeps_bind; [apply ckeeps_say | intros; apply ckeeps_ret]. }
  intros made. destruct (negb made); [apply ckeeps_ret|].
  apply ckeeps_bind; [apply ckeeps_say|]. intros _.
  apply ckeeps_bind.
  { apply Hrun. unfold os_listdir. py_unfold. intros w r w'.
    destruct (tree w !! src) as [[dirs names]|]; by intros [= <- <-]. }
  intros names. apply ckeeps_bind.
  - apply ckeeps_for_each. intros. apply transfer_file_transfers.
  - intros [k|]; [apply ckeeps_say | apply ckeeps_ret].
Qed.

(** X19: whatever the condition and however it ends, a conditional copy
    leaves every file that existed as it was, and the files that it creates
    are in the destination folder: it overwrites nothing. *)
Theorem conditional_copy_overwrites_nothing src dest condition_type value s :
  let w := world s in
  let w' := world (conditional_move_copy src dest condition_type value true s).2 in
  files w ⊆ files w'
  ∧ ∀ q, files w !! q = None → is_Some (files w' !! q) →
         os_path_dirname q = dest.
Proof.
  intros w w'. subst w w'.
  destruct (conditional_move_copy src dest condition_type value true s)
    as [r s'] eqn:E.
  destruct (conditional_move_copy_transfers _ _ _ _ _ _ _ _ E) as [K N].
  cbn [snd]. split.
  - apply map_subseteq_spec. intros q nd Eq.
    by destruct (K q nd Eq) as [?|[? _]].
  - intros q Eq Hq. by destruct (N q Eq Hq).
Qed.

(** X20: whatever the condition and however it ends, a conditional move
    leaves every file as it was or moves it: a file that is no longer what
    it was is a file of the source folder that is gone, and the destination
    folder, which is another folder, holds a file of its name with its
    content and its modification time.  No file is overwritten or lost. *)
Theorem conditional_move_keeps_content src dest condition_type value s q nd :
  let w := world s in
  let w' := world (conditional_move_copy src dest condition_type value false s).2 in
  files w !! q = Some nd →
  files w' !! q ≠ Some nd →
  os_path_dirname q = src ∧ dest ≠ src
  ∧ files w' !! q = None
  ∧ ∃ nd', files w' !! os_path_join dest (os_path_basename q) = Some nd'
           ∧ content nd' = content nd ∧ mtime nd' = mtime nd.
Proof.
  intros w w'. subst w w'.
  destruct (conditional_move_copy src dest condition_type value false s)
    as [r s'] eqn:E.
  destruct (conditional_move_copy_transfers _ _ _ _ _ _ _ _ E) as [K N].
  cbn [snd]. intros Eq Hq.
  by destruct (K q nd Eq) as [?|(_ & ? & ? & ? & ?)].
Qed.

End Transfer.

(** ** The further properties on the example worlds *)

Lemma searches_load_each_folder_once_witness :
  let w := Example.twins in
  let q := Json.dumps 2 (JDict [("tags", JStr "a")]) in
  calls (search_meta "root" q w).2
  = [CLoad "root"; CLoad "root/a"; CLoad "root/b"]
  ∧ calls (search_tag "root" "a" w).2
    = [CLoad "root"; CLoad "root/a"; CLoad "root/b"]
  ∧ (search_meta "docs" q Sample.listed).1 = Raise AttributeError
  ∧ calls (search_tag "docs" "a" Sample.listed).2 = [CLoad "docs"].
Proof.
  intros w q.
  destruct (searches_load_each_folder_once "root" q "a"
              (JDict [("tags", JStr "a")]) w (search_meta "root" q w).2)
    as [H1 _].
  destruct (searches_load_each_folder_once "root" q "a"
              (JDict [("tags", JStr "a")]) w (search_tag "root" "a" w).2)
    as [_ H2].
  destruct (searches_load_each_folder_once "docs" q "a"
              (JDict [("tags", JStr "a")]) Sample.listed
              (search_tag "docs" "a" Sample.listed).2)
    as [_ H3].
  split; [rewrite H1; vm_compute; reflexivity|].
  split; [rewrite H2; vm_compute; reflexivity|].
  split; [vm_compute; reflexivity|].
  rewrite H3; vm_compute; reflexivity.
Defined.


Lemma tag_file_touches_only_sidecars_witness :
  let w := Example.docs [] in
  files (tag_file ("docs", "report.txt") "x" "" false w).2 !! ("docs", "notes.txt")
  = files w !! ("docs", "notes.txt").
Proof.
  intros w. apply tag_file_touches_only_sidecars. vm_compute. discriminate.
Defined.


Lemma tag_file_sidecar_not_an_object_witness :
  (tag_file ("docs", "report.txt") "x" "" false Sample.listed).1
  = Raise TypeError.
Proof.
  destruct (tag_file_sidecar_not_an_object ("docs", "report.txt") "x" ""
              false Sample.listed) as (w' & E & _).
  - vm_compute. reflexivity.
  - intros d. vm_compute. discriminate.
  - by rewrite E.
Defined.

Lemma deduplicate_counts_what_it_removes_witness :
  let w := Example.twins in
  ∃ w' out found deleted,
    deduplicate "root" false w = (Ok tt, w')
    ∧ files w' ⊆ files w
    ∧ stdout w'
      = (stdout w ++ out ++ [FinishedDeduplicate found deleted false])%list
    ∧ (size (files w') + deleted)%nat = size (files w).
Proof.
  intros w. apply deduplicate_counts_what_it_removes. vm_compute. eauto.
Defined.

Lemma deduplicate_keeps_a_copy_witness :
  let p := sidecar_path "root/b" in
  let run := deduplicate "root" false Example.twins in
  files run.2 !! p = None
  ∧ ∃ q nd', q ≠ p ∧ files run.2 !! q = Some nd'
             ∧ sha256 (content nd') = sha256 Example.tagged_ab.
Proof.
  intros p run. split; [vm_compute; reflexivity|].
  apply (deduplicate_keeps_a_copy "root" false Example.twins p
           (Example.plain Example.tagged_ab 0)).
  - apply (bool_decide_unpack _). vm_compute. reflexivity.
  - vm_compute. reflexivity.
  - vm_compute. reflexivity.
Defined.

Lemma auto_cleanup_removes_every_selected_witness :
  let s := Sample.session Sample.attic in
  ∃ s', auto_cleanup "tmp" "emptyFile" JNull s = (Ok tt, s')
        ∧ last (console s') = Some (FinishedCleanup 1)
        ∧ files (world s') !! ("tmp", "empty.log") = None
        ∧ is_Some (files (world s') !! ("tmp", "keep.txt"))
        ∧ is_Some (files (world s') !! sidecar_path "tmp").
Proof.
  intros s.
  destruct (auto_cleanup_removes_every_selected "tmp" "emptyFile" JNull s)
    as (s' & deleted & E & L & N & D).
  - vm_compute. eauto.
  - right. vm_compute. reflexivity.
  - exists s'. split; [exact E|].
    assert (files (world s') !! ("tmp", "empty.log") = None) as Hgone.
    { apply (D ("tmp", "empty.log") (Example.plain "" 0)).
      - vm_compute. by left.
      - vm_compute. reflexivity.
      - vm_compute. discriminate.
      - reflexivity.
      - reflexivity.
      - right. split; vm_compute; reflexivity. }
    pose proof E as E'. vm_compute in E'. injection E' as <-.
    split; [vm_compute; reflexivity|]. split; [exact Hgone|].
    split; vm_compute; eauto.
Defined.

Lemma folder_mood_set_then_get_witness :
  let s := Sample.session (Example.docs []) in
  ∃ s1 s2,
    folder_mood_set "docs" "calm" (Some "work") s = (Ok tt, s1)
    ∧ folder_mood_get "docs" false None s1 = (Ok tt, s2)
    ∧ console s2 = (console s1 ++ [MoodOf "docs" (JStr "calm")])%list.
Proof.
  intros s.
  destruct (folder_mood_set_then_get "docs" "calm" (Some "work") s)
    as (s1 & s2 & E1 & _ & _ & E2 & C & _).
  - vm_compute. eauto.
  - discriminate.
  - reflexivity.
  - vm_compute. reflexivity.
  - vm_compute. exact I.
  - split; [vm_compute; discriminate | vm_compute; reflexivity].
  - by exists s1, s2.
Defined.

Lemma folder_mood_set_keeps_file_entries_witness :
  let s := Sample.session (Example.docs []) in
  ∃ s1,
    folder_mood_set "docs" "calm" None s = (Ok tt, s1)
    ∧ stored_tags (loaded (world s1) "docs") "report.txt"
      = Ok (JList [JStr "a"; JStr "b"])
    ∧ stored_mood (loaded (world s1) "docs") "report.txt" "value" = Ok JNull.
Proof.
  intros s.
  destruct (folder_mood_set_keeps_file_entries "docs" "calm" None s "report.txt")
    as (s1 & E1 & Ht & Hm).
  - vm_compute. eauto.
  - discriminate.
  - reflexivity.
  - vm_compute. reflexivity.
  - vm_compute. exact I.
  - split; [vm_compute; discriminate | vm_compute; reflexivity].
  - discriminate.
  - exists s1. split; [exact E1|]. rewrite Ht, Hm.
    split; vm_compute; reflexivity.
Defined.

Lemma save_then_load_witness :
  let w := Example.docs [] in
  let doc := Example.report_tags ["x"] in
  ∃ w1, _save_metadata "docs" doc w = (Ok tt, w1)
        ∧ _load_metadata "docs" w1 = (Ok doc, called (CLoad "docs") w1).
Proof.
  intros w doc.
  destruct (save_then_load "docs" doc w) as (w1 & E1 & E2 & _).
  - discriminate.
  - reflexivity.
  - vm_compute. reflexivity.
  - split; [vm_compute; discriminate | vm_compute; reflexivity].
  - by exists w1.
Defined.

Lemma search_tag_finds_tagged_witness :
  let w := Example.docs [] in
  FoundTagged ("docs", "report.txt") ["a"; "b"]
  ∈ stdout (search_tag "docs" "a" w).2.
Proof.
  intros w.
  apply (search_tag_finds_tagged "docs" "a" w _ "docs" []
           ["report.txt"; "notes.txt"; METADATA_FILE] "report.txt" ["a"; "b"]).
  - vm_compute. reflexivity.
  - vm_compute. by left.
  - by left.
  - discriminate.
  - vm_compute. reflexivity.
  - by left.
Defined.

Lemma conditional_move_keeps_content_witness :
  let s := Sample.session Sample.inbox in
  let w' := world (conditional_move_copy "in" "out" "sizeGT" (JInt 0) false s).2 in
  files w' !! sidecar_path "in" = None
  ∧ ∃ nd', files w' !! sidecar_path "out" = Some nd'
           ∧ content nd' = Example.tagged_ab ∧ mtime nd' = 9.
Proof.
  intros s w'.
  destruct (conditional_move_keeps_content "in" "out" "sizeGT" (JInt 0) s
              (sidecar_path "in") (Example.plain Example.tagged_ab 9))
    as (_ & _ & Hgone & Hthere).
  - vm_compute. reflexivity.
  - vm_compute. discriminate.
  - split; [exact Hgone | exact Hthere].
Defined.
